(** * studentSystem: the SQLite store and the Tkinter front-end of [student.py]

    The development embeds the two classes of [student.py]:

    - [StudentDB], the persistence layer.  Every method runs one SQL
      statement on a connection opened with [PRAGMA foreign_keys = ON] and
      commits.  The two tables are lists of rows kept in rowid order, each
      with its [sqlite_sequence] counter; a method is a function from the
      database to an outcome and the database after the call.
    - [StudentSystemApp], the front-end, restricted to the handlers that
      decide what reaches the store and the chart: [_add_term] with the
      refreshes it ends in, [_plot_empty] and [_plot_student].  A handler
      returns the new application state and the list of effects it
      performed (dialogues, store calls, drawing commands), in program
      order.

    Modelling conventions.
    - A Python [str] is a [string] whose characters are the code points
      U+0000 to U+00FF.  SQLite's pattern matcher reads a text as a C
      string, up to its first U+0000.
    - A Python [float] is a [pyfloat]: a rational (a binary64 value
      wherever the program computed it), one of the two infinities, or
      NaN.  [float(s)], every addition of [sum] and of [AVG] and their
      division by the count round to the nearest binary64 value, ties to
      even, as CPython 3.11 and SQLite 3.40 do.  There is one zero.
    - Row ids are SQLite INTEGERs, modelled in [Z]; a Python [int]
      outside 64 bits is refused when [delete_student] or [delete_term]
      binds it.  The other methods are modelled on the row ids the
      front-end passes them, which it read from the store.
    - [ORDER BY] keeps rows with equal keys in rowid order. *)

From Stdlib Require Import List ZArith QArith Qpower String Ascii Bool Lia Lqa.
From Stdlib Require Import Sorting.Sorted Sorting.Permutation.
Import ListNotations.

Local Open Scope string_scope.
Local Open Scope list_scope.
Local Open Scope Z_scope.

(** ** Text: [str.strip], the [LIKE] operator, [ORDER BY] on TEXT *)

Module Text.

(** [str.isspace] on the code points below U+0100. *)
Definition is_space (c : ascii) : bool :=
  let n := N_of_ascii c in
  ((9 <=? n) && (n <=? 13) || (28 <=? n) && (n <=? 32)
   || (n =? 133) || (n =? 160))%N.

Fixpoint lstrip (s : string) : string :=
  match s with
  | EmptyString => EmptyString
  | String c s' => if is_space c then lstrip s' else s
  end.

Fixpoint rstrip (s : string) : string :=
  match s with
  | EmptyString => EmptyString
  | String c s' =>
      match rstrip s' with
      | EmptyString => if is_space c then EmptyString else String c EmptyString
      | r => String c r
      end
  end.

(** [s.strip()] *)
Definition strip (s : string) : string := rstrip (lstrip s).

Fixpoint all_space (s : string) : bool :=
  match s with
  | EmptyString => true
  | String c s' => is_space c && all_space s'
  end.

Definition head_char (s : string) : option ascii :=
  match s with EmptyString => None | String c _ => Some c end.

Fixpoint last_char (s : string) : option ascii :=
  match s with
  | EmptyString => None
  | String c EmptyString => Some c
  | String _ s' => last_char s'
  end.

Definition not_space_opt (o : option ascii) : bool :=
  match o with None => true | Some c => negb (is_space c) end.

(** SQLite folds the case of the 26 ASCII letters only. *)
Definition to_lower (c : ascii) : ascii :=
  let n := N_of_ascii c in
  if ((65 <=? n) && (n <=? 90))%N then ascii_of_N (n + 32) else c.

Fixpoint lower (s : string) : string :=
  match s with
  | EmptyString => EmptyString
  | String c s' => String (to_lower c) (lower s')
  end.

(** SQLite's [patternCompare] with the defaults of [LIKE]: [%] matches
    any run of characters, [_] matches one character, any other
    character matches itself up to ASCII case; there is no escape
    character. *)
Fixpoint pattern_compare (p : string) : string -> bool :=
  match p with
  | EmptyString => fun s => match s with EmptyString => true | _ => false end
  | String c p' =>
      if (c =? "%")%char then
        fix skip (s : string) : bool :=
          pattern_compare p' s || match s with
                                  | EmptyString => false
                                  | String _ s' => skip s'
                                  end
      else if (c =? "_")%char then
        fun s => match s with
                 | EmptyString => false
                 | String _ s' => pattern_compare p' s'
                 end
      else
        fun s => match s with
                 | EmptyString => false
                 | String d s' =>
                     (to_lower c =? to_lower d)%char && pattern_compare p' s'
                 end
  end.

(** A text as the C string the matcher reads: it ends before the first
    U+0000. *)
Fixpoint c_str (s : string) : string :=
  match s with
  | EmptyString => EmptyString
  | String c s' => if (c =? "000")%char then EmptyString else String c (c_str s')
  end.

(** [s LIKE p]: pattern and text are both read as C strings. *)
Definition like (p s : string) : bool := pattern_compare (c_str p) (c_str s).

(** The number of bytes of the UTF-8 encoding: two for a code point from
    U+0080. *)
Fixpoint utf8_length (s : string) : Z :=
  match s with
  | EmptyString => 0
  | String c s' => (if (N_of_ascii c <? 128)%N then 1 else 2) + utf8_length s'
  end.

(** The text has no U+0000. *)
Fixpoint no_nul (s : string) : bool :=
  match s with
  | EmptyString => true
  | String c s' => negb (c =? "000")%char && no_nul s'
  end.

(** The pattern has no [LIKE] wildcard. *)
Fixpoint no_wildcard (s : string) : bool :=
  match s with
  | EmptyString => true
  | String c s' => negb (c =? "%")%char && negb (c =? "_")%char && no_wildcard s'
  end.

(** [q] occurs in [s] as a run of consecutive characters. *)
Definition contains (s q : string) : Prop :=
  exists pre post, s = (pre ++ q ++ post)%string.

(** The same up to ASCII case. *)
Definition contains_nocase (s q : string) : Prop :=
  contains (lower s) (lower q).

Fixpoint prefixb (q s : string) : bool :=
  match q, s with
  | EmptyString, _ => true
  | String _ _, EmptyString => false
  | String c q', String d s' => (c =? d)%char && prefixb q' s'
  end.

Fixpoint containsb (s q : string) : bool :=
  prefixb q s || match s with
                 | EmptyString => false
                 | String _ s' => containsb s' q
                 end.

End Text.

(** ** [ORDER BY]: a stable insertion sort on a key *)

Section OrderBy.
Context {A : Type} (leb : A -> A -> bool).

Fixpoint insert_row (x : A) (l : list A) : list A :=
  match l with
  | [] => [x]
  | y :: l' => if leb x y then x :: l else y :: insert_row x l'
  end.

Definition order_by (l : list A) : list A := fold_right insert_row [] l.
End OrderBy.

(** ** Python floats and [float(str)] *)

Module PyFloat.

Inductive pyfloat : Type :=
| Fin (q : Q)
| PosInf
| NegInf
| NaN.

Definition is_nan (x : pyfloat) : bool :=
  match x with NaN => true | _ => false end.

Definition is_finite (x : pyfloat) : bool :=
  match x with Fin _ => true | _ => false end.

Definition Qltb (a b : Q) : bool := negb (Qle_bool b a).

(** [x < y]; every comparison with NaN is false. *)
Definition ltb (x y : pyfloat) : bool :=
  match x, y with
  | NaN, _ | _, NaN => false
  | Fin a, Fin b => Qltb a b
  | Fin _, PosInf => true
  | Fin _, NegInf => false
  | PosInf, _ => false
  | NegInf, NegInf => false
  | NegInf, _ => true
  end.

(** [x > y] *)
Definition gtb (x y : pyfloat) : bool := ltb y x.

(** *** Rounding a rational to binary64, to nearest, ties to even *)

Definition round_half_even (x y : Z) : Z :=
  let f := x / y in
  match 2 * (x mod y) ?= y with
  | Lt => f
  | Gt => f + 1
  | Eq => if Z.even f then f else f + 1
  end.

(** [floor (log2 (n / d))] for positive [n] and [d]. *)
Definition floor_log2 (n d : Z) : Z :=
  let e0 := Z.log2 n - Z.log2 d in
  let above := if 0 <=? e0 then d * 2 ^ e0 <=? n else d <=? n * 2 ^ (- e0) in
  if above then e0 else e0 - 1.

Definition scaled (m u : Z) : Q :=
  if 0 <=? u then inject_Z (m * 2 ^ u) else Qred (m # Z.to_pos (2 ^ (- u))).

Definition round64 (q : Q) : pyfloat :=
  let n := Z.abs (Qnum q) in
  let d := Zpos (Qden q) in
  if n =? 0 then Fin 0 else
  let e := floor_log2 n d in
  let u := Z.max (e - 52) (-1074) in
  let m := if 0 <=? u then round_half_even n (d * 2 ^ u)
           else round_half_even (n * 2 ^ (- u)) d in
  let neg := Qnum q <? 0 in
  if (971 <? u) || ((u =? 971) && (m =? 2 ^ 53))
  then (if neg then NegInf else PosInf)
  else Fin (scaled (if neg then - m else m) u).

(** *** Arithmetic: every operation rounds its exact result *)

(** [x + y] *)
Definition add (x y : pyfloat) : pyfloat :=
  match x, y with
  | NaN, _ | _, NaN => NaN
  | Fin a, Fin b => round64 (a + b)
  | PosInf, NegInf | NegInf, PosInf => NaN
  | PosInf, _ | _, PosInf => PosInf
  | NegInf, _ | _, NegInf => NegInf
  end.

(** [float(n)] for the length of a list. *)
Definition of_nat (n : nat) : pyfloat := round64 (inject_Z (Z.of_nat n)).

(** [x / n] for the length [n] of a non-empty list: the count is
    converted to a float, then the quotient is rounded. *)
Definition div_len (x : pyfloat) (n : nat) : pyfloat :=
  match x, of_nat n with
  | Fin a, Fin b => round64 (a / b)
  | Fin _, _ => Fin 0
  | _, _ => x
  end.

(** [sum(xs)]: the accumulator starts at the integer 0 and is a C double
    from the first float on. *)
Definition sum (xs : list pyfloat) : pyfloat := fold_left add xs (Fin 0).

(** [min(x, *xs)] and [max(x, *xs)]: the first extreme element wins. *)
Fixpoint min_from (m : pyfloat) (xs : list pyfloat) : pyfloat :=
  match xs with
  | [] => m
  | x :: xs' => min_from (if ltb x m then x else m) xs'
  end.

Fixpoint max_from (m : pyfloat) (xs : list pyfloat) : pyfloat :=
  match xs with
  | [] => m
  | x :: xs' => max_from (if gtb x m then x else m) xs'
  end.

(** *** [float(s)] for a [str] *)

Definition is_digit (c : ascii) : bool :=
  let n := N_of_ascii c in ((48 <=? n) && (n <=? 57))%N.

Definition digit_val (c : ascii) : Z := Z.of_N (N_of_ascii c) - 48.

(** Underscores are allowed between two digits only; they are removed
    before the number is read. *)
Fixpoint drop_underscores (prev : ascii) (s : string) : option string :=
  match s with
  | EmptyString => if (prev =? "_")%char then None else Some EmptyString
  | String c s' =>
      if (c =? "_")%char then
        if is_digit prev then drop_underscores c s' else None
      else if (prev =? "_")%char && negb (is_digit c) then None
      else option_map (String c) (drop_underscores c s')
  end.

Fixpoint span_digits (s : string) : list Z * string :=
  match s with
  | EmptyString => ([], EmptyString)
  | String c s' =>
      if is_digit c then
        let (ds, r) := span_digits s' in (digit_val c :: ds, r)
      else ([], s)
  end.

Definition int_of_digits (ds : list Z) : Z :=
  fold_left (fun a d => 10 * a + d) ds 0.

(** An optional sign. *)
Definition split_sign (s : string) : bool * string :=
  match s with
  | String c s' =>
      if (c =? "-")%char then (true, s')
      else if (c =? "+")%char then (false, s')
      else (false, s)
  | EmptyString => (false, s)
  end.

(** What follows the mantissa: nothing, or [e]/[E], an optional sign and
    at least one digit. *)
Definition parse_exponent (s : string) : option Z :=
  match s with
  | EmptyString => Some 0
  | String c s' =>
      if (c =? "e")%char || (c =? "E")%char then
        let (neg, r) := split_sign s' in
        match span_digits r with
        | ((_ :: _) as ds, EmptyString) =>
            Some (if neg then - int_of_digits ds else int_of_digits ds)
        | _ => None
        end
      else None
  end.

Definition pow10 (m e : Z) : Q :=
  if 0 <=? e then inject_Z (m * 10 ^ e) else m # Z.to_pos (10 ^ (- e)).

(** An unsigned decimal: digits, an optional point and digits, at least
    one digit in all, an optional exponent. *)
Definition parse_decimal (s : string) : option Q :=
  let (ip, r1) := span_digits s in
  let (fp, r2) := match r1 with
                  | String "." r => span_digits r
                  | _ => ([], r1)
                  end in
  match ip ++ fp with
  | [] => None
  | ds =>
      match parse_exponent r2 with
      | Some e => Some (pow10 (int_of_digits ds) (e - Z.of_nat (List.length fp)))
      | None => None
      end
  end.

(** The whitespace [float] skips at both ends: that of [str.strip]
    without U+001C to U+001F. *)
Definition is_float_space (c : ascii) : bool :=
  let n := N_of_ascii c in
  Text.is_space c && negb ((28 <=? n) && (n <=? 31))%N.

Fixpoint skip_left (s : string) : string :=
  match s with
  | EmptyString => EmptyString
  | String c s' => if is_float_space c then skip_left s' else s
  end.

Fixpoint skip_right (s : string) : string :=
  match s with
  | EmptyString => EmptyString
  | String c s' =>
      match skip_right s' with
      | EmptyString => if is_float_space c then EmptyString else String c EmptyString
      | r => String c r
      end
  end.

(** [float(s)]; [None] is [ValueError]. *)
Definition float_of_string (s : string) : option pyfloat :=
  match drop_underscores Ascii.zero (skip_right (skip_left s)) with
  | None => None
  | Some t =>
      let (neg, body) := split_sign t in
      let word := Text.lower body in
      if (word =? "inf")%string || (word =? "infinity")%string then
        Some (if neg then NegInf else PosInf)
      else if (word =? "nan")%string then Some NaN
      else
        match parse_decimal body with
        | Some q => Some (round64 (if neg then - q else q))
        | None => None
        end
  end.

End PyFloat.
Export PyFloat.

(** ** The persistence layer: [class StudentDB] *)

Module StudentDB.
Import Text.

(** A row of [students]: [id INTEGER PRIMARY KEY AUTOINCREMENT],
    [student_id TEXT NOT NULL UNIQUE], [name TEXT NOT NULL],
    [address TEXT] (the only writer, [add_student], always stores a
    string), [class_name TEXT NOT NULL]. *)
Record student : Type := {
  s_id : Z;
  s_student_id : string;
  s_name : string;
  s_address : string;
  s_class_name : string
}.

(** A row of [terms]: [id INTEGER PRIMARY KEY AUTOINCREMENT],
    [student_id INTEGER NOT NULL REFERENCES students(id) ON DELETE
    CASCADE], [term_name TEXT NOT NULL], [gpa REAL NOT NULL],
    [UNIQUE(student_id, term_name)]. *)
Record term : Type := {
  t_id : Z;
  t_student_id : Z;
  t_term_name : string;
  t_gpa : pyfloat
}.

(** The database file: both tables in rowid order and the two
    [sqlite_sequence] entries. *)
Record database : Type := {
  students : list student;
  students_seq : Z;
  terms : list term;
  terms_seq : Z
}.

(** The state after [_init_schema] on a new file. *)
Definition init_schema : database :=
  {| students := []; students_seq := 0; terms := []; terms_seq := 0 |}.

(** The exceptions a call of the store raises, with their message:
    [sqlite3.IntegrityError], [sqlite3.OperationalError], and the
    [OverflowError] of binding an [int] outside 64 bits. *)
Inductive sqlite_error : Type :=
| IntegrityError (msg : string)
| OperationalError (msg : string)
| OverflowError (msg : string).

(** [str(e)] *)
Definition error_text (e : sqlite_error) : string :=
  match e with
  | IntegrityError msg | OperationalError msg | OverflowError msg => msg
  end.

(** How a mutating method ends: it returns after [commit()], or the
    statement raises and leaves the database as it was. *)
Inductive outcome : Type :=
| Committed
| Raised (e : sqlite_error).

(** How a query with a pattern ends: [fetchall()] returns the rows, or
    the statement raises. *)
Inductive query_result : Type :=
| Rows (rows : list student)
| QueryRaised (e : sqlite_error).

(** An [int] that fits SQLite's INTEGER, a signed 64-bit value. *)
Definition fits_int64 (n : Z) : bool := (- 2 ^ 63 <=? n) && (n <=? 2 ^ 63 - 1).

Definition int_too_large : sqlite_error :=
  OverflowError "Python int too large to convert to SQLite INTEGER".

(** SQLITE_MAX_LIKE_PATTERN_LENGTH, in bytes. *)
Definition like_pattern_limit : Z := 50000.

(** AUTOINCREMENT: one more than the largest rowid the table holds or
    ever held. *)
Definition max_rowid {A : Type} (key : A -> Z) (rows : list A) : Z :=
  fold_right (fun r m => Z.max (key r) m) 0 rows.

Definition next_rowid {A : Type} (key : A -> Z) (rows : list A) (seq : Z) : Z :=
  Z.max (max_rowid key rows) seq + 1.

Definition name_leb (a b : student) : bool := String.leb (s_name a) (s_name b).

(** The probes behind the constraints: a student row with this rowid, a
    student row with this external id, a term row with this student and
    term name. *)
Definition has_student (student_row_id : Z) (d : database) : bool :=
  existsb (fun s => s_id s =? student_row_id) (students d).

Definition has_student_id (student_id : string) (d : database) : bool :=
  existsb (fun s => (s_student_id s =? student_id)%string) (students d).

Definition is_term (student_row_id : Z) (term_name : string) (t : term) : bool :=
  (t_student_id t =? student_row_id) && (t_term_name t =? term_name)%string.

Definition has_term (student_row_id : Z) (term_name : string) (d : database) : bool :=
  existsb (is_term student_row_id term_name) (terms d).

Definition add_student (student_id name address class_name : string) (d : database)
  : outcome * database :=
  let row := {| s_id := next_rowid s_id (students d) (students_seq d);
                s_student_id := strip student_id;
                s_name := strip name;
                s_address := strip address;
                s_class_name := strip class_name |} in
  if has_student_id (s_student_id row) d
  then (Raised (IntegrityError "UNIQUE constraint failed: students.student_id"), d)
  else (Committed,
        {| students := students d ++ [row];
           students_seq := s_id row;
           terms := terms d;
           terms_seq := terms_seq d |}).

(** An [int] outside 64 bits cannot be bound to [?]: the call raises
    before the statement runs.  Every rowid SQLite stores fits 64 bits;
    the test on the table keeps the function defined on lists of rows
    that no database file holds.  [ON DELETE CASCADE]: the terms of every
    deleted student row go with it. *)
Definition delete_student (student_row_id : Z) (d : database) : outcome * database :=
  if fits_int64 student_row_id || has_student student_row_id d then
    let deleted := filter (fun s => s_id s =? student_row_id) (students d) in
    (Committed,
     {| students := filter (fun s => negb (s_id s =? student_row_id)) (students d);
        students_seq := students_seq d;
        terms := filter (fun t => negb (existsb (fun s => s_id s =? t_student_id t)
                                                deleted))
                        (terms d);
        terms_seq := terms_seq d |})
  else (Raised int_too_large, d).

Definition list_classes (d : database) : list string :=
  order_by String.leb (nodup string_dec (map s_class_name (students d))).

Definition list_students_by_class (class_name : string) (d : database) : list student :=
  order_by name_leb
    (filter (fun s => (s_class_name s =? class_name)%string) (students d)).

(** [LIKE] is evaluated on the rows of the class only, and refuses a
    pattern longer than the limit on the first of them. *)
Definition search_students_by_class_like (class_name q : string) (d : database)
  : query_result :=
  let like := ("%" ++ strip q ++ "%")%string in
  let in_class := fun s => (s_class_name s =? class_name)%string in
  if (like_pattern_limit <? utf8_length like) && existsb in_class (students d)
  then QueryRaised (OperationalError "LIKE or GLOB pattern too complex")
  else Rows (order_by name_leb
               (filter (fun s => in_class s
                                 && (Text.like like (s_name s)
                                     || Text.like like (s_student_id s)))
                       (students d))).

(** [fetchone()]: the first row, or [None]. *)
Definition get_student (student_row_id : Z) (d : database) : option student :=
  find (fun s => s_id s =? student_row_id) (students d).

(** A NaN is bound as NULL, which [gpa REAL NOT NULL] refuses; the
    foreign key is checked when the statement ends. *)
Definition add_term_grade (student_row_id : Z) (term_name : string)
  (gpa : pyfloat) (d : database) : outcome * database :=
  let row := {| t_id := next_rowid t_id (terms d) (terms_seq d);
                t_student_id := student_row_id;
                t_term_name := strip term_name;
                t_gpa := gpa |} in
  if is_nan gpa
  then (Raised (IntegrityError "NOT NULL constraint failed: terms.gpa"), d)
  else if has_term student_row_id (t_term_name row) d
  then (Raised (IntegrityError
                  "UNIQUE constraint failed: terms.student_id, terms.term_name"), d)
  else if negb (has_student student_row_id d)
  then (Raised (IntegrityError "FOREIGN KEY constraint failed"), d)
  else (Committed,
        {| students := students d;
           students_seq := students_seq d;
           terms := terms d ++ [row];
           terms_seq := t_id row |}).

Definition list_terms_for_student (student_row_id : Z) (d : database)
  : list (string * pyfloat) :=
  map (fun t => (t_term_name t, t_gpa t))
      (order_by (fun a b => t_id a <=? t_id b)
                (filter (fun t => t_student_id t =? student_row_id) (terms d))).

(** The rowid is bound as in [delete_student]. *)
Definition delete_term (student_row_id : Z) (term_name : string) (d : database)
  : outcome * database :=
  if fits_int64 student_row_id || has_term student_row_id term_name d then
    (Committed,
     {| students := students d;
        students_seq := students_seq d;
        terms := filter (fun t => negb (is_term student_row_id term_name t))
                        (terms d);
        terms_seq := terms_seq d |})
  else (Raised int_too_large, d).

(** A row of the grouped query of [class_stats]:
    [s.id, s.name, AVG(t.gpa), COUNT(t.id)]. *)
Record stat_row : Type := {
  r_id : Z;
  r_name : string;
  r_avg_gpa : option pyfloat;
  r_term_count : nat
}.

(** The [overall] dictionary of [class_stats]. *)
Record overall : Type := {
  count_students : nat;
  count_with_terms : nat;
  avg_gpa : option pyfloat;
  min_gpa : option pyfloat;
  max_gpa : option pyfloat
}.

(** [AVG] over the rows of a group: NULL for no row, and a NaN result is
    returned as NULL. *)
Definition sql_avg (xs : list pyfloat) : option pyfloat :=
  match xs with
  | [] => None
  | _ => let r := div_len (sum xs) (List.length xs) in
         if is_nan r then None else Some r
  end.

(** The terms that the LEFT JOIN attaches to a student.  The join looks
    them up in the index of [UNIQUE(student_id, term_name)], which
    yields them by term name; that is the order in which [AVG] adds. *)
Definition joined_terms (s : student) (d : database) : list term :=
  order_by (fun a b => String.leb (t_term_name a) (t_term_name b))
           (filter (fun t => t_student_id t =? s_id s) (terms d)).

Definition stat_of (d : database) (s : student) : stat_row :=
  {| r_id := s_id s;
     r_name := s_name s;
     r_avg_gpa := sql_avg (map t_gpa (joined_terms s d));
     r_term_count := List.length (joined_terms s d) |}.

(** [[r[2] for r in rows if r[2] is not None]] *)
Definition not_none_gpas (rows : list stat_row) : list pyfloat :=
  flat_map (fun r => match r_avg_gpa r with Some g => [g] | None => [] end) rows.

Definition class_stats (class_name : string) (d : database)
  : list stat_row * overall :=
  let rows :=
    order_by (fun a b => String.leb (r_name a) (r_name b))
      (map (stat_of d)
           (filter (fun s => (s_class_name s =? class_name)%string) (students d))) in
  let gpas := not_none_gpas rows in
  (rows,
   {| count_students := List.length rows;
      count_with_terms := List.length gpas;
      avg_gpa := match gpas with
                 | [] => None
                 | _ => Some (div_len (sum gpas) (List.length gpas))
                 end;
      min_gpa := match gpas with
                 | [] => None
                 | g :: gs => Some (min_from g gs)
                 end;
      max_gpa := match gpas with
                 | [] => None
                 | g :: gs => Some (max_from g gs)
                 end |}).

End StudentDB.
Export StudentDB.

(** ** The front-end: [class StudentSystemApp] *)

Module StudentSystemApp.
Import Text.

(** The text of the average annotation, [f"Avg: {avg:.2f}"]; the
    formatting to two decimals is not modelled. *)
Inductive label : Type :=
| avg_label (avg : pyfloat).

(** What a handler does to the outside: dialogues of [messagebox], calls
    of the store's mutating methods, the widgets it refills, and the
    drawing commands sent to the axes and the canvas.  [uncaught e] is
    an exception that no [except] clause of the handler takes: the
    handler ends there. *)
Inductive effect : Type :=
| showinfo (title message : string)
| showerror (title message : string)
| uncaught (e : sqlite_error)
| db_add_term_grade (student_row_id : Z) (term_name : string) (gpa : pyfloat)
| term_tree_rows (rows : list (string * pyfloat))
| stats_label_config (class_name : string) (o : overall)
| ax_clear
| ax_set_title (text : string)
| ax_set_xlabel (text : string)
| ax_set_ylabel (text : string)
| ax_set_ylim (bottom top : Z)
| ax_plot (xs : list nat) (ys : list pyfloat) (marker : string)
| ax_set_xticks (ticks : list nat)
| ax_set_xticklabels (labels : list string) (rotation : Z) (ha : string)
| ax_axhline (y : pyfloat) (linestyle : string)
| ax_text (x y : Q) (s : label) (va : string)
| canvas_draw.

(** The part of the application state the handlers below read and write. *)
Record app : Type := {
  db : database;
  selected_class : string;
  selected_student_row_id : option Z;
  term_name_var : string;
  term_gpa_var : string
}.

Definition newline : string := String "010" EmptyString.

(** The calls that open both plotting methods. *)
Definition reset_axes : list effect :=
  [ax_clear; ax_set_title "Term GPA Trend"; ax_set_xlabel "Term";
   ax_set_ylabel "GPA"; ax_set_ylim 0 4].

Definition _plot_empty : list effect := reset_axes ++ [canvas_draw].

(** The body of [_plot_student] after the query. *)
Definition plot_terms (terms : list (string * pyfloat)) : list effect :=
  reset_axes ++
  match terms with
  | [] => [canvas_draw]
  | _ =>
      let x_labels := map fst terms in
      let y_vals := map snd terms in
      let avg := div_len (sum y_vals) (List.length y_vals) in
      [ax_plot (seq 0 (List.length x_labels)) y_vals "o";
       ax_set_xticks (seq 0 (List.length x_labels));
       ax_set_xticklabels x_labels 30 "right";
       ax_axhline avg "--";
       ax_text (2 # 100) (95 # 100) (avg_label avg) "top";
       canvas_draw]
  end.

Definition _plot_student (student_row_id : Z) (d : database) : list effect :=
  plot_terms (list_terms_for_student student_row_id d).

Definition _refresh_terms (student_row_id : Z) (d : database) : list effect :=
  [term_tree_rows (list_terms_for_student student_row_id d)].

(** The label text is formatted from the class name and [overall]. *)
Definition _refresh_class_stats (a : app) : list effect :=
  let class_name := strip (selected_class a) in
  if (class_name =? "")%string then []
  else [stats_label_config class_name (snd (class_stats class_name (db a)))].

Definition _add_term (a : app) : app * list effect :=
  match selected_student_row_id a with
  | None => (a, [showinfo "Add Term" "Select a student first."])
  | Some row_id =>
      let term_name := strip (term_name_var a) in
      let gpa_str := strip (term_gpa_var a) in
      if (term_name =? "")%string || (gpa_str =? "")%string then
        (a, [showerror "Validation" "Term and GPA are required."])
      else
        match float_of_string gpa_str with
        | None =>
            (a, [showerror "Validation" "GPA must be a number (e.g., 3.50)."])
        | Some gpa =>
            if ltb gpa (Fin 0) || gtb gpa (Fin 4) then
              (a, [showerror "Validation" "GPA must be between 0.0 and 4.0."])
            else
              match add_term_grade row_id term_name gpa (db a) with
              | (Raised (IntegrityError _), d') =>
                  ({| db := d';
                      selected_class := selected_class a;
                      selected_student_row_id := selected_student_row_id a;
                      term_name_var := term_name_var a;
                      term_gpa_var := term_gpa_var a |},
                   [db_add_term_grade row_id term_name gpa;
                    showerror "Duplicate"
                      "That term already exists for this student. Use a different term name."])
              | (Raised e, d') =>
                  ({| db := d';
                      selected_class := selected_class a;
                      selected_student_row_id := selected_student_row_id a;
                      term_name_var := term_name_var a;
                      term_gpa_var := term_gpa_var a |},
                   [db_add_term_grade row_id term_name gpa;
                    showerror "Error"
                      ("Failed to add term:" ++ newline ++ error_text e)%string])
              | (Committed, d') =>
                  let a' := {| db := d';
                               selected_class := selected_class a;
                               selected_student_row_id := selected_student_row_id a;
                               term_name_var := "";
                               term_gpa_var := "" |} in
                  (a', [db_add_term_grade row_id term_name gpa]
                         ++ _refresh_terms row_id d'
                         ++ _plot_student row_id d'
                         ++ _refresh_class_stats a')
              end
        end
  end.

(** The store calls among the effects of a handler. *)
Definition is_store_call (e : effect) : bool :=
  match e with db_add_term_grade _ _ _ => true | _ => false end.

Definition store_calls (es : list effect) : list effect := filter is_store_call es.

(** The data series, the reference lines and the annotations drawn. *)
Definition plotted_series (es : list effect) : list (list nat * list pyfloat * string) :=
  flat_map (fun e => match e with
                     | ax_plot xs ys m => [(xs, ys, m)]
                     | _ => []
                     end) es.

Definition reference_lines (es : list effect) : list pyfloat :=
  flat_map (fun e => match e with ax_axhline y _ => [y] | _ => [] end) es.

Definition annotations (es : list effect) : list (Q * Q * label) :=
  flat_map (fun e => match e with ax_text x y s _ => [(x, y, s)] | _ => [] end) es.

Definition tick_labels (es : list effect) : list (list string) :=
  flat_map (fun e => match e with
                     | ax_set_xticklabels ls _ _ => [ls]
                     | _ => []
                     end) es.

End StudentSystemApp.
Export StudentSystemApp.

(** ** Reachable states, and the vocabulary of the properties *)

Module Spec.

(** The databases the program can produce from a new file. *)
Inductive reachable : database -> Prop :=
| reach_init : reachable init_schema
| reach_add_student sid nm ad cl d :
    reachable d -> reachable (snd (add_student sid nm ad cl d))
| reach_delete_student r d :
    reachable d -> reachable (snd (delete_student r d))
| reach_add_term_grade r tn g d :
    reachable d -> reachable (snd (add_term_grade r tn g d))
| reach_delete_term r tn d :
    reachable d -> reachable (snd (delete_term r tn d)).

Definition term_key (t : term) : Z * string := (t_student_id t, t_term_name t).

(** The constraints of the schema: both primary keys, both UNIQUE
    constraints, the foreign key and [gpa NOT NULL]. *)
Record schema_ok (d : database) : Prop := {
  pk_students : NoDup (map s_id (students d));
  uq_student_id : NoDup (map s_student_id (students d));
  pk_terms : NoDup (map t_id (terms d));
  uq_term : NoDup (map term_key (terms d));
  fk_term : forall t, In t (terms d) -> has_student (t_student_id t) d = true;
  nn_gpa : forall t, In t (terms d) -> is_nan (t_gpa t) = false
}.

(** The stored keys are their own stripped form. *)
Definition stripped_keys (d : database) : Prop :=
  (forall s, In s (students d) -> Text.strip (s_student_id s) = s_student_id s)
  /\ (forall t, In t (terms d) -> Text.strip (t_term_name t) = t_term_name t).

(** The rows the two inserts build. *)
Definition new_student (sid nm ad cl : string) (d : database) : student :=
  {| s_id := next_rowid s_id (students d) (students_seq d);
     s_student_id := Text.strip sid;
     s_name := Text.strip nm;
     s_address := Text.strip ad;
     s_class_name := Text.strip cl |}.

Definition new_term (r : Z) (tn : string) (g : pyfloat) (d : database) : term :=
  {| t_id := next_rowid t_id (terms d) (terms_seq d);
     t_student_id := r;
     t_term_name := Text.strip tn;
     t_gpa := g |}.

(** The condition under which the insert into [terms] is refused. *)
Definition term_refused (r : Z) (tn : string) (g : pyfloat) (d : database) : bool :=
  is_nan g || has_term r (Text.strip tn) d || negb (has_student r d).

(** The terms of a student, as the table holds them. *)
Definition terms_of (r : Z) (d : database) : list term :=
  order_by (fun a b => t_id a <=? t_id b)
           (filter (fun t => t_student_id t =? r) (terms d)).

(** Every stored GPA is a number: the domain the front-end admits. *)
Definition finite_gpas (d : database) : Prop :=
  Forall (fun t => is_finite (t_gpa t) = true) (terms d).

(** The rationals among a list of floats. *)
Definition values (xs : list pyfloat) : list Q :=
  flat_map (fun x => match x with Fin q => [q] | _ => [] end) xs.

Definition Qsum (qs : list Q) : Q := fold_right Qplus 0%Q qs.

(** The arithmetic mean: the sum divided by the count. *)
Definition mean (qs : list Q) : Q :=
  (Qsum qs / inject_Z (Z.of_nat (List.length qs)))%Q.

(** The GPAs of a student's term records, and their mean when there is
    at least one. *)
Definition student_gpas (student_row_id : Z) (d : database) : list Q :=
  values (map snd (list_terms_for_student student_row_id d)).

Definition mean_opt (qs : list Q) : option Q :=
  match qs with [] => None | _ => Some (mean qs) end.

Definition student_mean (student_row_id : Z) (d : database) : option Q :=
  mean_opt (student_gpas student_row_id d).

(** A reported value against the expected one: both absent, or equal
    numbers. *)
Definition same_value (o : option pyfloat) (m : option Q) : Prop :=
  match o, m with
  | None, None => True
  | Some (Fin a), Some b => (a == b)%Q
  | _, _ => False
  end.

Definition is_least (o : option pyfloat) (qs : list Q) : Prop :=
  match qs with
  | [] => o = None
  | _ => exists m, o = Some (Fin m)
                   /\ (exists x, In x qs /\ (m == x)%Q)
                   /\ forall x, In x qs -> (m <= x)%Q
  end.

Definition is_greatest (o : option pyfloat) (qs : list Q) : Prop :=
  match qs with
  | [] => o = None
  | _ => exists m, o = Some (Fin m)
                   /\ (exists x, In x qs /\ (m == x)%Q)
                   /\ forall x, In x qs -> (x <= m)%Q
  end.

(** A number within [0.0, 4.0]. *)
Definition in_rangeb (g : pyfloat) : bool :=
  match g with
  | Fin q => Qle_bool 0 q && Qle_bool q 4
  | _ => false
  end.

(** Every stored GPA lies within [0.0, 4.0]. *)
Definition gpas_in_range (d : database) : Prop :=
  Forall (fun t => in_rangeb (t_gpa t) = true) (terms d).

(** How far the rounding of the additions and of the division can take
    the quotient the program computes for [n] numbers within [0.0, 4.0]
    from their mean: [(n + 1) * 2 ^ (-50)], less than [1e-12] for a
    thousand numbers. *)
Definition tolerance (n : nat) : Q :=
  ((inject_Z (Z.of_nat n) + 1) * 2 ^ (-50))%Q.

(** A reported value against the mean of [n] numbers: both absent, or a
    number no further from it than the tolerance. *)
Definition near (n : nat) (o : option pyfloat) (m : option Q) : Prop :=
  match o, m with
  | None, None => True
  | Some (Fin a), Some b => (a - b <= tolerance n /\ b - a <= tolerance n)%Q
  | _, _ => False
  end.

(** The per-student means that [class_stats] reports. *)
Definition reported_means (rows : list stat_row) : list Q :=
  values (not_none_gpas rows).

(** The search predicate of the specification, on one student. *)
Definition matches (q : string) (s : student) : Prop :=
  Text.contains_nocase (s_name s) q \/ Text.contains_nocase (s_student_id s) q.

(** The same on the name and the external id as the matcher reads them,
    up to their first U+0000. *)
Definition matches_text (q : string) (s : student) : Prop :=
  Text.contains_nocase (Text.c_str (s_name s)) q
  \/ Text.contains_nocase (Text.c_str (s_student_id s)) q.

Definition matches_textb (q : string) (s : student) : bool :=
  Text.containsb (Text.lower (Text.c_str (s_name s))) (Text.lower q)
  || Text.containsb (Text.lower (Text.c_str (s_student_id s))) (Text.lower q).

End Spec.
Export Spec.

(** ** Scenarios *)

Module Scenario.

Definition then_ (d : database) (f : database -> outcome * database) : database :=
  snd (f d).
Notation "d >> f" := (then_ d f) (at level 50, left associativity).

(** Alice and Bob in class A. *)
Definition alice_bob : database :=
  init_schema >> add_student "S1" "Alice" "1 Main St" "A"
              >> add_student "S2" "Bob" "" "A".

(** Three students of class A; two have one term each, 3.0 and 4.0. *)
Definition class_a : database :=
  alice_bob >> add_student "S3" "Carol" "" "A"
            >> add_term_grade 1 "T1" (Fin 3)
            >> add_term_grade 2 "T1" (Fin 4).

(** The float literal [3.8]. *)
Definition gpa_3_8 : pyfloat := round64 (38 # 10).

(** Alice with Fall 3.0 then Spring 3.8, and with the two added the other
    way round. *)
Definition fall_spring : database :=
  alice_bob >> add_term_grade 1 "Fall" (Fin 3)
            >> add_term_grade 1 "Spring" gpa_3_8.

Definition spring_fall : database :=
  alice_bob >> add_term_grade 1 "Spring" gpa_3_8
            >> add_term_grade 1 "Fall" (Fin 3).

(** Alice with the terms 0.1, 0.2 and 0.3, as [float] reads them, and
    Alice with the terms inf and -inf. *)
Definition tenths : database :=
  init_schema >> add_student "S1" "Alice" "" "A"
              >> add_term_grade 1 "T1" (round64 (1 # 10))
              >> add_term_grade 1 "T2" (round64 (2 # 10))
              >> add_term_grade 1 "T3" (round64 (3 # 10)).

Definition infinities : database :=
  init_schema >> add_student "S1" "Alice" "" "A"
              >> add_term_grade 1 "T1" PosInf
              >> add_term_grade 1 "T2" NegInf.

(** A text of [n] letters a, and the text b, U+0000, z. *)
Definition letters (n : Z) : string :=
  fold_right String EmptyString (repeat "a"%char (Z.to_nat n)).

Definition b_nul_z : string := String "b" (String "000" "z").

(** The Add Term form for Alice in [class_a], with the given entries. *)
Definition add_term_form (term_name gpa : string) : app :=
  {| db := class_a;
     selected_class := "A";
     selected_student_row_id := Some 1;
     term_name_var := term_name;
     term_gpa_var := gpa |}.

End Scenario.
Export Scenario.

(** ** The front-end, continued: the other handlers of [StudentSystemApp] *)

Module Window.
Import Text.

(** What the handlers of this part do to the outside: the effects of the
    handlers above, the confirmation dialogue with the user's answer,
    the other calls of the store's mutating methods, and the widgets
    they refill.  A row of the student list is the rowid the item is
    named after ([iid=str(row_id)], read back with [int]) and the two
    values shown. *)
Inductive event : Type :=
| effect_of (e : effect)
| askyesno (title message : string) (answer : bool)
| db_add_student (student_id name address class_name : string)
| db_delete_student (student_row_id : Z)
| db_delete_term (student_row_id : Z) (term_name : string)
| class_combo_values (values : list string)
| student_tree_rows (rows : list (Z * string * string))
| profile_labels (student_id name address class_name : string)
| dialog_destroy.

(** The application state with the text of the search box. *)
Record window : Type := {
  state : app;
  search_text : string
}.

Definition with_state (a : app) (w : window) : window :=
  {| state := a; search_text := search_text w |}.

Definition set_db (d : database) (a : app) : app :=
  {| db := d;
     selected_class := selected_class a;
     selected_student_row_id := selected_student_row_id a;
     term_name_var := term_name_var a;
     term_gpa_var := term_gpa_var a |}.

Definition set_selected_class (c : string) (a : app) : app :=
  {| db := db a;
     selected_class := c;
     selected_student_row_id := selected_student_row_id a;
     term_name_var := term_name_var a;
     term_gpa_var := term_gpa_var a |}.

Definition set_selected_student (r : option Z) (a : app) : app :=
  {| db := db a;
     selected_class := selected_class a;
     selected_student_row_id := r;
     term_name_var := term_name_var a;
     term_gpa_var := term_gpa_var a |}.

Definition _refresh_classes (w : window) : list event :=
  [class_combo_values (list_classes (db (state w)))].

Definition student_tree_of (rows : list student) : event :=
  student_tree_rows (map (fun s => (s_id s, s_student_id s, s_name s)) rows).

(** The list is emptied before the query runs; when the query raises,
    it stays empty and the handler ends. *)
Definition _refresh_students (w : window) : list event :=
  let class_name := strip (selected_class (state w)) in
  if (class_name =? "")%string then []
  else
    let q := strip (search_text w) in
    let found :=
      if negb (q =? "")%string
      then search_students_by_class_like class_name q (db (state w))
      else Rows (list_students_by_class class_name (db (state w))) in
    match found with
    | QueryRaised e => [student_tree_of []; effect_of (uncaught e)]
    | Rows rows =>
        student_tree_of rows :: map effect_of (_refresh_class_stats (state w))
    end.

(** An exception left the calls that produced these events. *)
Definition raises (es : list event) : bool :=
  existsb (fun e => match e with effect_of (uncaught _) => true | _ => false end) es.

Definition _clear_student_details (w : window) : window * list event :=
  (with_state (set_selected_student None (state w)) w,
   [profile_labels "-" "-" "-" "-"; effect_of (term_tree_rows [])]
   ++ map effect_of _plot_empty).

Definition _load_student_details (student_row_id : Z) (w : window) : list event :=
  match get_student student_row_id (db (state w)) with
  | None => []
  | Some st =>
      [profile_labels (s_student_id st) (s_name st)
         (if (s_address st =? "")%string then "-" else s_address st)
         (s_class_name st)]
      ++ map effect_of (_refresh_terms student_row_id (db (state w)))
      ++ map effect_of (_plot_student student_row_id (db (state w)))
  end.

Definition _on_student_select (selection : list Z) (w : window)
  : window * list event :=
  match selection with
  | [] => (w, [])
  | row_id :: _ =>
      let w' := with_state (set_selected_student (Some row_id) (state w)) w in
      (w', _load_student_details row_id w')
  end.

Definition _clear_search (w : window) : window * list event :=
  let w' := {| state := state w; search_text := "" |} in
  (w', _refresh_students w').

Definition _refresh_all (w : window) : window * list event :=
  let es1 := _refresh_classes w ++ _refresh_students w in
  if raises es1 then (w, es1)
  else
    let (w', es2) := _clear_student_details w in
    (w', es1 ++ map effect_of (_refresh_class_stats (state w)) ++ es2).

(** [vals] is what the class selector holds. *)
Definition _set_default_class (vals : list string) (w : window)
  : window * list event :=
  match vals with
  | [] => (w, [])
  | c :: _ =>
      let w' := with_state (set_selected_class c (state w)) w in
      let es := _refresh_students w' in
      (w', if raises es then es
           else es ++ map effect_of (_refresh_class_stats (state w')))
  end.

(** [__init__] on the database the file holds: the axes and the empty
    chart of [_build_ui], the classes, the default class. *)
Definition startup (d : database) : window * list event :=
  let w := {| state := {| db := d;
                          selected_class := "";
                          selected_student_row_id := None;
                          term_name_var := "";
                          term_gpa_var := "" |};
              search_text := "" |} in
  let (w', es) := _set_default_class (list_classes d) w in
  (w', map effect_of ([ax_set_title "Term GPA Trend"; ax_set_xlabel "Term";
                       ax_set_ylabel "GPA"] ++ _plot_empty)
       ++ _refresh_classes w ++ es).

(** The four entries of the Add Student dialogue. *)
Record student_form : Type := {
  sid_var : string;
  name_var : string;
  addr_var : string;
  class_var : string
}.

(** [_open_add_student]: the class entry starts with the selected
    class. *)
Definition _open_add_student (w : window) : student_form :=
  {| sid_var := ""; name_var := ""; addr_var := "";
     class_var := strip (selected_class (state w)) |}.

(** The Add button of the dialogue. *)
Definition on_add (f : student_form) (w : window) : window * list event :=
  let sid := strip (sid_var f) in
  let nm := strip (name_var f) in
  let cl := strip (class_var f) in
  let ad := strip (addr_var f) in
  if (sid =? "")%string || (nm =? "")%string || (cl =? "")%string then
    (w, [effect_of (showerror "Validation"
                      "Student ID, Name, and Class are required.")])
  else
    match add_student sid nm ad cl (db (state w)) with
    | (Raised (IntegrityError _), d') =>
        (with_state (set_db d' (state w)) w,
         [db_add_student sid nm ad cl;
          effect_of (showerror "Duplicate"
                       "Student ID already exists. Please use a unique Student ID.")])
    | (Raised e, d') =>
        (with_state (set_db d' (state w)) w,
         [db_add_student sid nm ad cl;
          effect_of (showerror "Error"
                       ("Failed to add student:" ++ newline ++ error_text e)%string)])
    | (Committed, d') =>
        let w1 := with_state (set_db d' (state w)) w in
        let w2 := with_state (set_selected_class cl (state w1)) w1 in
        (w2, [db_add_student sid nm ad cl; dialog_destroy]
             ++ _refresh_classes w1 ++ _refresh_students w2)
    end.

Definition _delete_selected_student (selection : list Z) (answer : bool)
  (w : window) : window * list event :=
  match selection with
  | [] => (w, [effect_of (showinfo "Delete" "Please select a student to delete.")])
  | row_id :: _ =>
      match get_student row_id (db (state w)) with
      | None => (w, [])
      | Some st =>
          let ask :=
            askyesno "Confirm Delete"
              ("Delete student '" ++ s_name st ++ "' (ID: " ++ s_student_id st
               ++ ")?" ++ newline ++ "This also deletes all term grades.")%string
              answer in
          if negb answer then (w, [ask])
          else
            match delete_student row_id (db (state w)) with
            | (Raised e, d') =>
                (with_state (set_db d' (state w)) w,
                 [ask; db_delete_student row_id;
                  effect_of (showerror "Error"
                               ("Failed to delete:" ++ newline ++ error_text e)%string)])
            | (Committed, d') =>
                let w1 := with_state (set_db d' (state w)) w in
                let es1 := _refresh_students w1 in
                if raises es1 then (w1, [ask; db_delete_student row_id] ++ es1)
                else
                  let (w2, es2) := _clear_student_details w1 in
                  (w2, [ask; db_delete_student row_id] ++ es1 ++ es2)
            end
      end
  end.

Definition _delete_selected_term (selection : list string) (answer : bool)
  (w : window) : window * list event :=
  match selected_student_row_id (state w) with
  | None => (w, [effect_of (showinfo "Delete Term" "Select a student first.")])
  | Some r =>
      match selection with
      | [] => (w, [effect_of (showinfo "Delete Term" "Select a term to delete.")])
      | term_name :: _ =>
          let ask := askyesno "Confirm"
                       ("Delete term '" ++ term_name ++ "'?")%string answer in
          if negb answer then (w, [ask])
          else
            match delete_term r term_name (db (state w)) with
            | (Raised e, d') =>
                (with_state (set_db d' (state w)) w,
                 [ask; db_delete_term r term_name;
                  effect_of (showerror "Error"
                               ("Failed to delete term:" ++ newline
                                ++ error_text e)%string)])
            | (Committed, d') =>
                let w1 := with_state (set_db d' (state w)) w in
                (w1, [ask; db_delete_term r term_name]
                     ++ map effect_of (_refresh_terms r d')
                     ++ map effect_of (_plot_student r d')
                     ++ map effect_of (_refresh_class_stats (state w1)))
            end
      end
  end.

(** The text [_refresh_class_stats] formats from [overall]: the line
    without grades, the line with the three numbers to two decimals, or
    the [TypeError] of formatting [None]. *)
Inductive stats_message : Type :=
| no_grades_yet (class_name : string) (count_students : nat)
| grades_line (class_name : string) (count_students count_with_terms : nat)
    (avg lo hi : pyfloat)
| format_TypeError.

Definition stats_message_of (class_name : string) (o : overall) : stats_message :=
  match avg_gpa o with
  | None => no_grades_yet class_name (count_students o)
  | Some a =>
      match min_gpa o, max_gpa o with
      | Some lo, Some hi =>
          grades_line class_name (count_students o) (count_with_terms o) a lo hi
      | _, _ => format_TypeError
      end
  end.

(** The Add Term button, on a window. *)
Definition add_term_clicked (w : window) : window * list event :=
  (with_state (fst (_add_term (state w))) w,
   map effect_of (snd (_add_term (state w)))).

(** The calls of the store's mutating methods among the events. *)
Definition is_mutation (e : event) : bool :=
  match e with
  | effect_of (db_add_term_grade _ _ _) => true
  | db_add_student _ _ _ _ => true
  | db_delete_student _ => true
  | db_delete_term _ _ => true
  | _ => false
  end.

Definition mutations (es : list event) : list event := filter is_mutation es.

Definition is_question (e : event) : bool :=
  match e with askyesno _ _ _ => true | _ => false end.

(** The rows a list of events leaves in the student list. *)
Definition shown_students (es : list event) : list (list (Z * string * string)) :=
  flat_map (fun e => match e with student_tree_rows rows => [rows] | _ => [] end) es.

Definition shown_classes (es : list event) : list (list string) :=
  flat_map (fun e => match e with class_combo_values vs => [vs] | _ => [] end) es.

End Window.
Export Window.

(** ** More vocabulary *)

Module Spec2.

(** A rowid of [students] that was given out and is no longer in the
    table. *)
Definition retired (r : Z) (d : database) : Prop :=
  r <= students_seq d /\ has_student r d = false.

(** What the front-end lets into the store: no empty external id, name,
    class or term name, and every GPA within [0.0, 4.0]. *)
Definition nonempty (s : string) : bool := negb (s =? "")%string.

Record entry_ok (d : database) : Prop := {
  ok_student_id : forall s, In s (students d) -> nonempty (s_student_id s) = true;
  ok_name : forall s, In s (students d) -> nonempty (s_name s) = true;
  ok_class : forall s, In s (students d) -> nonempty (s_class_name s) = true;
  ok_term_name : forall t, In t (terms d) -> nonempty (t_term_name t) = true;
  ok_gpa : gpas_in_range d
}.

(** The windows the front-end can be in, started on a new database
    file: after [__init__], after any edit of the entries, after any
    handler. *)
Inductive ui_reachable : window -> Prop :=
| ui_startup : ui_reachable (fst (startup init_schema))
| ui_restart w : ui_reachable w -> ui_reachable (fst (startup (db (state w))))
| ui_type_search w q :
    ui_reachable w -> ui_reachable {| state := state w; search_text := q |}
| ui_type_term w tn g :
    ui_reachable w ->
    ui_reachable (with_state {| db := db (state w);
                                selected_class := selected_class (state w);
                                selected_student_row_id :=
                                  selected_student_row_id (state w);
                                term_name_var := tn;
                                term_gpa_var := g |} w)
| ui_pick_class w c :
    ui_reachable w -> ui_reachable (with_state (set_selected_class c (state w)) w)
| ui_select w sel : ui_reachable w -> ui_reachable (fst (_on_student_select sel w))
| ui_clear_search w : ui_reachable w -> ui_reachable (fst (_clear_search w))
| ui_refresh_all w : ui_reachable w -> ui_reachable (fst (_refresh_all w))
| ui_add_student w f : ui_reachable w -> ui_reachable (fst (on_add f w))
| ui_delete_student w sel ans :
    ui_reachable w -> ui_reachable (fst (_delete_selected_student sel ans w))
| ui_add_term w : ui_reachable w -> ui_reachable (fst (add_term_clicked w))
| ui_delete_term w sel ans :
    ui_reachable w -> ui_reachable (fst (_delete_selected_term sel ans w)).

(** The row of the student list that shows a student. *)
Definition tree_row (s : student) : Z * string * string :=
  (s_id s, s_student_id s, s_name s).

(** The student with this rowid is in this class. *)
Definition in_class (r : Z) (c : string) (d : database) : bool :=
  existsb (fun s => (s_id s =? r) && (s_class_name s =? c)%string) (students d).

(** An optional reported number within [0.0, 4.0]. *)
Definition opt_in_range (o : option pyfloat) : Prop :=
  match o with None => True | Some g => in_rangeb g = true end.

(** The three aggregates: all absent, or numbers with the least at most
    the greatest and the mean between them up to the tolerance for the
    count of students with grades. *)
Definition ordered_stats (o : overall) : Prop :=
  match min_gpa o, avg_gpa o, max_gpa o with
  | None, None, None => True
  | Some (Fin lo), Some (Fin a), Some (Fin hi) =>
      (lo <= hi /\ lo - tolerance (count_with_terms o) <= a
       /\ a <= hi + tolerance (count_with_terms o))%Q
  | _, _, _ => False
  end.

(** The [LIKE] test of the search, on one student. *)
Definition like_test (q : string) (s : student) : bool :=
  let like := ("%" ++ Text.strip q ++ "%")%string in
  Text.like like (s_name s) || Text.like like (s_student_id s).

End Spec2.
Export Spec2.

(** ** More scenarios *)

Module Scenario2.

(** The window on [class_a] with Alice selected, and on [fall_spring]. *)
Definition window_a : window :=
  {| state := add_term_form "" ""; search_text := "" |}.

Definition window_fs : window :=
  {| state := {| db := fall_spring;
                 selected_class := "A";
                 selected_student_row_id := Some 1;
                 term_name_var := "";
                 term_gpa_var := "" |};
     search_text := "" |}.

Definition dan_form : student_form :=
  {| sid_var := " S4 "; name_var := "Dan"; addr_var := ""; class_var := " B" |}.

End Scenario2.
Export Scenario2.

(** ** Tactics *)

(** Push [inject_Z] through sums and products. *)
Ltac push_inject_in H :=
  repeat (rewrite inject_Z_plus in H || rewrite inject_Z_mult in H).

Ltac push_inject :=
  repeat (rewrite inject_Z_plus || rewrite inject_Z_mult).

(** ** Facts about [order_by] *)

Section OrderByFacts.
Context {A : Type} (leb : A -> A -> bool).

Lemma insert_row_perm (x : A) (l : list A) :
  Permutation (insert_row leb x l) (x :: l).
Proof.
  induction l as [|y l IH]; simpl.
  - apply Permutation_refl.
  - destruct (leb x y).
    + apply Permutation_refl.
    + apply perm_trans with (y :: x :: l).
      * apply perm_skip, IH.
      * apply perm_swap.
Qed.

Lemma order_by_perm (l : list A) : Permutation (order_by leb l) l.
Proof.
  induction l as [|x l IH]; simpl.
  - apply perm_nil.
  - apply perm_trans with (x :: order_by leb l).
    + apply insert_row_perm.
    + apply perm_skip, IH.
Qed.

Lemma order_by_In (x : A) (l : list A) : In x (order_by leb l) <-> In x l.
Proof.
  split; apply Permutation_in.
  - apply order_by_perm.
  - apply Permutation_sym, order_by_perm.
Qed.

Lemma order_by_length (l : list A) :
  List.length (order_by leb l) = List.length l.
Proof. apply Permutation_length, order_by_perm. Qed.

Lemma insert_row_snoc (x y : A) (l : list A) :
  leb y x = true -> insert_row leb y (l ++ [x]) = insert_row leb y l ++ [x].
Proof.
  intros Hyx. induction l as [|z l IH]; simpl.
  - now rewrite Hyx.
  - destruct (leb y z); simpl; [reflexivity | now rewrite IH].
Qed.

(** A row that sorts after every row of the table is delivered last. *)
Lemma order_by_snoc (x : A) (l : list A) :
  (forall y, In y l -> leb y x = true) ->
  order_by leb (l ++ [x]) = order_by leb l ++ [x].
Proof.
  induction l as [|z l IH]; intros Hall; simpl.
  - reflexivity.
  - rewrite IH by (intros y Hy; apply Hall; now right).
    apply insert_row_snoc, Hall. now left.
Qed.

Hypothesis leb_total : forall a b, leb a b = true \/ leb b a = true.

Lemma insert_row_sorted (x : A) (l : list A) :
  Sorted (fun a b => leb a b = true) l ->
  Sorted (fun a b => leb a b = true) (insert_row leb x l).
Proof.
  induction 1 as [|y l Hs IH Hhd]; simpl.
  - repeat constructor.
  - destruct (leb x y) eqn:E.
    + constructor; [constructor; assumption | constructor; exact E].
    + constructor; [exact IH|].
      assert (Hyx : leb y x = true)
        by (destruct (leb_total x y) as [H|H]; congruence).
      destruct l as [|z l]; simpl.
      * constructor; exact Hyx.
      * inversion Hhd; subst. destruct (leb x z); constructor; assumption.
Qed.

Lemma order_by_sorted (l : list A) :
  Sorted (fun a b => leb a b = true) (order_by leb l).
Proof.
  induction l as [|x l IH]; simpl.
  - constructor.
  - apply insert_row_sorted, IH.
Qed.
End OrderByFacts.

Lemma order_by_map {A B : Type} (f : A -> B) (leA : A -> A -> bool)
  (leB : B -> B -> bool) (l : list A) :
  (forall a b, leB (f a) (f b) = leA a b) ->
  order_by leB (map f l) = map f (order_by leA l).
Proof.
  intros Hf. induction l as [|x l IH]; simpl; [reflexivity|].
  rewrite IH. generalize (order_by leA l) as m.
  induction m as [|y m IHm]; simpl; [reflexivity|].
  rewrite Hf. destruct (leA x y); simpl; [reflexivity | now rewrite IHm].
Qed.

Lemma filter_id {A : Type} (f : A -> bool) (l : list A) :
  (forall x, In x l -> f x = true) -> filter f l = l.
Proof.
  induction l as [|x l IH]; intros H; simpl; [reflexivity|].
  rewrite (H x) by now left. f_equal. apply IH. intros y Hy. apply H. now right.
Qed.

Lemma filter_none {A : Type} (f : A -> bool) (l : list A) :
  (forall x, In x l -> f x = false) -> filter f l = [].
Proof.
  induction l as [|x l IH]; intros H; simpl; [reflexivity|].
  rewrite (H x) by now left. apply IH. intros y Hy. apply H. now right.
Qed.

(** ** Facts about [strip] and [LIKE] *)

Module TextFacts.
Import Text.

Lemma lstrip_spec (s : string) :
  exists l, s = (l ++ lstrip s)%string /\ all_space l = true
            /\ not_space_opt (head_char (lstrip s)) = true.
Proof.
  induction s as [|c s IH]; simpl.
  - exists EmptyString. auto.
  - destruct (is_space c) eqn:E.
    + destruct IH as (l & Hs & Hl & Hh).
      exists (String c l). simpl. rewrite E, Hl. split; [f_equal; exact Hs | auto].
    + exists EmptyString. simpl. rewrite E. auto.
Qed.

Lemma rstrip_spec (s : string) :
  exists r, s = (rstrip s ++ r)%string /\ all_space r = true
            /\ not_space_opt (last_char (rstrip s)) = true.
Proof.
  induction s as [|c s IH]; simpl.
  - exists EmptyString. auto.
  - destruct IH as (r & Hs & Hr & Hl).
    destruct (rstrip s) as [|c' s'] eqn:E.
    + simpl in Hs. subst r. destruct (is_space c) eqn:Ec.
      * exists (String c s). simpl. rewrite Ec, Hr. auto.
      * exists s. simpl. rewrite Ec. auto.
    + exists r. split; [simpl; f_equal; exact Hs|]. split; [exact Hr | exact Hl].
Qed.

Lemma rstrip_head (s : string) :
  not_space_opt (head_char s) = true ->
  not_space_opt (head_char (rstrip s)) = true.
Proof.
  destruct s as [|c s]; simpl; [auto|].
  intros Hc. apply negb_true_iff in Hc.
  destruct (rstrip s); rewrite ?Hc; simpl; now rewrite Hc.
Qed.

(** [strip s] is [s] without a leading and a trailing run of whitespace,
    and it neither starts nor ends with whitespace. *)
Lemma strip_spec (s : string) :
  exists l r, s = (l ++ strip s ++ r)%string
              /\ all_space l = true /\ all_space r = true
              /\ not_space_opt (head_char (strip s)) = true
              /\ not_space_opt (last_char (strip s)) = true.
Proof.
  unfold strip.
  destruct (lstrip_spec s) as (l & Hs & Hl & Hh).
  destruct (rstrip_spec (lstrip s)) as (r & Hs' & Hr & Hla).
  exists l, r. repeat split; auto.
  - now rewrite <- Hs', <- Hs.
  - now apply rstrip_head.
Qed.

Lemma lstrip_fix (s : string) :
  not_space_opt (head_char s) = true -> lstrip s = s.
Proof.
  destruct s as [|c s]; simpl; [reflexivity|].
  intros H. apply negb_true_iff in H. now rewrite H.
Qed.

Lemma rstrip_fix (s : string) :
  not_space_opt (last_char s) = true -> rstrip s = s.
Proof.
  induction s as [|c s IH]; [reflexivity|].
  destruct s as [|c' s'].
  - simpl. intros H. apply negb_true_iff in H. now rewrite H.
  - intros H. change (rstrip (String c (String c' s')))
      with (match rstrip (String c' s') with
            | EmptyString => if is_space c then EmptyString else String c EmptyString
            | r => String c r
            end).
    rewrite IH by exact H. reflexivity.
Qed.

Lemma strip_idempotent (s : string) : strip (strip s) = strip s.
Proof.
  destruct (strip_spec s) as (l & r & _ & _ & _ & Hh & Hl).
  unfold strip at 1. rewrite lstrip_fix by exact Hh. now apply rstrip_fix.
Qed.

Lemma lower_app (a b : string) : lower (a ++ b) = (lower a ++ lower b)%string.
Proof. induction a as [|x a IH]; simpl; [reflexivity | now rewrite IH]. Qed.

Lemma lower_app_inv (s a b : string) :
  lower s = (a ++ b)%string ->
  exists s1 s2, s = (s1 ++ s2)%string /\ lower s1 = a /\ lower s2 = b.
Proof.
  revert s. induction a as [|x a IH]; intros s H; simpl in H.
  - exists EmptyString, s. auto.
  - destruct s as [|c s]; simpl in H; [discriminate|].
    injection H as Hc Hs. destruct (IH _ Hs) as (s1 & s2 & E & H1 & H2).
    exists (String c s1), s2. simpl. now rewrite E, Hc, H1.
Qed.

Lemma prefixb_spec (q s : string) :
  prefixb q s = true <-> exists post, s = (q ++ post)%string.
Proof.
  revert s. induction q as [|c q IH]; intros s; simpl.
  - split; [intros _; now exists s | reflexivity].
  - destruct s as [|d s].
    + split; [discriminate | intros [post H]; discriminate].
    + rewrite andb_true_iff, IH, Ascii.eqb_eq. split.
      * intros [-> [post ->]]. now exists post.
      * intros [post H]. injection H as -> ->. split; [reflexivity | now exists post].
Qed.

Lemma containsb_spec (s q : string) : containsb s q = true <-> contains s q.
Proof.
  unfold contains. induction s as [|c s IH]; simpl.
  - rewrite orb_false_r, prefixb_spec. split.
    + intros [post H]. now exists EmptyString, post.
    + intros (pre & post & H). destruct pre; [now exists post | discriminate].
  - rewrite orb_true_iff, IH, (prefixb_spec q (String c s)). split.
    + intros [[post H] | (pre & post & H)].
      * now exists EmptyString, post.
      * exists (String c pre), post. simpl. now rewrite H.
    + intros (pre & post & H). destruct pre as [|x pre]; simpl in H.
      * left. now exists post.
      * right. injection H as _ H. now exists pre, post.
Qed.

(** The equations of [like]. *)
Lemma like_any (p s : string) :
  pattern_compare (String "%" p) s
  = pattern_compare p s || match s with
                | EmptyString => false
                | String _ s' => pattern_compare (String "%" p) s'
                end.
Proof. destruct s; reflexivity. Qed.

Lemma like_char (c : ascii) (p s : string) :
  (c =? "%")%char = false -> (c =? "_")%char = false ->
  pattern_compare (String c p) s
  = match s with
    | EmptyString => false
    | String d s' => (to_lower c =? to_lower d)%char && pattern_compare p s'
    end.
Proof. intros H1 H2. simpl. rewrite H1, H2. reflexivity. Qed.

Lemma like_percent_all (s : string) : pattern_compare "%" s = true.
Proof.
  induction s as [|c s IH]; [reflexivity|].
  rewrite like_any, IH. apply orb_true_r.
Qed.

(** [%] in front of a pattern lets it match at any position. *)
Lemma like_any_spec (p s : string) :
  pattern_compare (String "%" p) s = true
  <-> exists pre suf, s = (pre ++ suf)%string /\ pattern_compare p suf = true.
Proof.
  induction s as [|c s IH]; rewrite like_any.
  - rewrite orb_false_r. split.
    + intros H. now exists EmptyString, EmptyString.
    + intros (pre & suf & E & H). destruct pre; [|discriminate].
      simpl in E. now subst suf.
  - rewrite orb_true_iff, IH. split.
    + intros [H | (pre & suf & E & H)].
      * now exists EmptyString, (String c s).
      * exists (String c pre), suf. simpl. now rewrite E.
    + intros (pre & suf & E & H). destruct pre as [|x pre]; simpl in E.
      * left. now subst suf.
      * right. injection E as _ E. now exists pre, suf.
Qed.

(** A pattern without wildcard followed by [%] matches the strings that
    start with it, up to ASCII case. *)
Lemma like_prefix_spec (q s : string) :
  no_wildcard q = true ->
  (pattern_compare (q ++ "%") s = true <-> exists post, lower s = (lower q ++ post)%string).
Proof.
  revert s. induction q as [|c q IH]; intros s Hq.
  - simpl append. rewrite like_percent_all. split; [|reflexivity].
    intros _. now exists (lower s).
  - simpl in Hq. apply andb_true_iff in Hq as [Hc Hq].
    apply andb_true_iff in Hc as [H1 H2].
    apply negb_true_iff in H1, H2.
    change (String c q ++ "%")%string with (String c (q ++ "%")).
    rewrite like_char by assumption.
    destruct s as [|d s].
    + split; [discriminate | intros [post H]; discriminate].
    + rewrite andb_true_iff, Ascii.eqb_eq, (IH s Hq). simpl. split.
      * intros [-> [post ->]]. now exists post.
      * intros [post H]. injection H as -> ->. split; [reflexivity | now exists post].
Qed.

(** The pattern that [search_students_by_class_like] builds from a text
    without wildcard selects the strings that contain the text. *)
Lemma like_contains (q s : string) :
  no_wildcard q = true ->
  (pattern_compare ("%" ++ q ++ "%") s = true <-> contains_nocase s q).
Proof.
  intros Hq. change ("%" ++ q ++ "%")%string with (String "%" (q ++ "%")).
  rewrite like_any_spec. unfold contains_nocase, contains. split.
  - intros (pre & suf & -> & H). apply (like_prefix_spec q suf Hq) in H.
    destruct H as [post H]. exists (lower pre), post.
    now rewrite lower_app, H.
  - intros (pre & post & H). apply lower_app_inv in H.
    destruct H as (s1 & s2 & -> & _ & H2).
    exists s1, s2. split; [reflexivity|].
    apply (like_prefix_spec q s2 Hq). now exists post.
Qed.

Lemma like_contains_b (q s : string) :
  no_wildcard q = true ->
  pattern_compare ("%" ++ q ++ "%") s = containsb (lower s) (lower q).
Proof.
  intros Hq. apply eq_true_iff_eq.
  rewrite (like_contains q s Hq), containsb_spec. reflexivity.
Qed.

(** *** [LIKE] on texts read as C strings *)

Lemma utf8_length_app (s t : string) :
  utf8_length (s ++ t) = utf8_length s + utf8_length t.
Proof.
  induction s as [|c s IH]; cbn [append utf8_length]; [reflexivity|].
  rewrite IH. apply Z.add_assoc.
Qed.

Lemma utf8_length_pattern (q : string) :
  utf8_length ("%" ++ q ++ "%") = utf8_length q + 2.
Proof.
  rewrite !utf8_length_app.
  change (utf8_length "%") with 1. lia.
Qed.

Lemma c_str_no_nul (s : string) : no_nul s = true -> c_str s = s.
Proof.
  induction s as [|c s IH]; simpl; [reflexivity|].
  intros H. apply andb_true_iff in H as [Hc Hs].
  apply negb_true_iff in Hc. rewrite Hc. now rewrite IH.
Qed.

Lemma no_nul_app (s t : string) :
  no_nul (s ++ t) = no_nul s && no_nul t.
Proof.
  induction s as [|c s IH]; simpl; [reflexivity|].
  now rewrite IH, andb_assoc.
Qed.

(** The pattern of the search, for a text without U+0000, is read
    whole. *)
Lemma c_str_pattern (q : string) :
  no_nul q = true -> c_str ("%" ++ q ++ "%") = ("%" ++ q ++ "%")%string.
Proof.
  intros H. apply c_str_no_nul. rewrite !no_nul_app, H. reflexivity.
Qed.

(** For a text without wildcard and without U+0000, the pattern of the
    search selects the texts whose C string contains it, up to ASCII
    case. *)
Lemma like_contains_c_str (q s : string) :
  no_wildcard q = true -> no_nul q = true ->
  like ("%" ++ q ++ "%") s = containsb (lower (c_str s)) (lower q).
Proof.
  intros Hq Hz. unfold like. rewrite (c_str_pattern q Hz).
  now apply like_contains_b.
Qed.

End TextFacts.

(** ** Facts about sums, means and extremes of floats *)

Module FloatFacts.

Lemma Qsum_perm (l l' : list Q) : Permutation l l' -> (Qsum l == Qsum l')%Q.
Proof.
  induction 1; simpl.
  - reflexivity.
  - now rewrite IHPermutation.
  - ring.
  - now rewrite IHPermutation1.
Qed.

Lemma mean_perm (l l' : list Q) : Permutation l l' -> (mean l == mean l')%Q.
Proof.
  intros H. unfold mean.
  rewrite (Qsum_perm _ _ H), (Permutation_length H). reflexivity.
Qed.

Lemma Qltb_true (a b : Q) : Qltb a b = true -> (a < b)%Q.
Proof.
  unfold Qltb. intros H. apply negb_true_iff in H. apply Qnot_le_lt.
  intros Hle. apply Qle_bool_iff in Hle. congruence.
Qed.

Lemma Qltb_false (a b : Q) : Qltb a b = false -> (b <= a)%Q.
Proof.
  unfold Qltb. intros H. apply negb_false_iff in H. now apply Qle_bool_iff.
Qed.

(** [min] and [max] of a list of numbers return a member of the list
    that bounds all the others. *)
Lemma min_from_fin (m : Q) (qs : list Q) :
  exists r, min_from (Fin m) (map Fin qs) = Fin r
            /\ In r (m :: qs) /\ forall x, In x (m :: qs) -> (r <= x)%Q.
Proof.
  revert m. induction qs as [|q qs IH]; intros m; simpl.
  - exists m. split; [reflexivity|]. split; [now left|].
    intros x [<- | []]. apply Qle_refl.
  - destruct (Qltb q m) eqn:E.
    + destruct (IH q) as (r & Hr & Hin & Hle). exists r.
      split; [exact Hr|]. split; [right; exact Hin|].
      intros x [<- | Hx]; [|now apply Hle].
      apply Qle_trans with q; [apply Hle; now left|].
      apply Qlt_le_weak. now apply Qltb_true.
    + destruct (IH m) as (r & Hr & Hin & Hle). exists r.
      split; [exact Hr|]. split.
      * destruct Hin as [<- | Hin]; [now left | right; now right].
      * intros x [<- | [<- | Hx]].
        -- apply Hle. now left.
        -- apply Qle_trans with m; [apply Hle; now left | now apply Qltb_false].
        -- apply Hle. now right.
Qed.

Lemma max_from_fin (m : Q) (qs : list Q) :
  exists r, max_from (Fin m) (map Fin qs) = Fin r
            /\ In r (m :: qs) /\ forall x, In x (m :: qs) -> (x <= r)%Q.
Proof.
  revert m. induction qs as [|q qs IH]; intros m; simpl.
  - exists m. split; [reflexivity|]. split; [now left|].
    intros x [<- | []]. apply Qle_refl.
  - unfold gtb. simpl. destruct (Qltb m q) eqn:E.
    + destruct (IH q) as (r & Hr & Hin & Hle). exists r.
      split; [exact Hr|]. split; [right; exact Hin|].
      intros x [<- | Hx]; [|now apply Hle].
      apply Qle_trans with q; [|apply Hle; now left].
      apply Qlt_le_weak. now apply Qltb_true.
    + destruct (IH m) as (r & Hr & Hin & Hle). exists r.
      split; [exact Hr|]. split.
      * destruct Hin as [<- | Hin]; [now left | right; now right].
      * intros x [<- | [<- | Hx]].
        -- apply Hle. now left.
        -- apply Qle_trans with m; [now apply Qltb_false | apply Hle; now left].
        -- apply Hle. now right.
Qed.

End FloatFacts.

(** ** Rounding to binary64, and the sums and means of the program *)

Module Rounding.
Local Open Scope Q_scope.

Lemma pow2_pos (z : Z) : 0 < 2 ^ z.
Proof. now apply Qpower_0_lt. Qed.

Lemma pow2_add (a b : Z) : 2 ^ (a + b) == 2 ^ a * 2 ^ b.
Proof. now apply Qpower_plus. Qed.

Lemma pow2_succ (z : Z) : 2 ^ (z + 1) == 2 * 2 ^ z.
Proof. rewrite pow2_add. change (2 ^ 1) with 2. ring. Qed.

Lemma pow2_opp (z : Z) : 2 ^ z * 2 ^ (- z) == 1.
Proof. rewrite <- pow2_add, Z.add_opp_diag_r. reflexivity. Qed.

Lemma pow2_inject (z : Z) : (0 <= z)%Z -> inject_Z (2 ^ z) == 2 ^ z.
Proof. intros H. now rewrite Zpower_Qpower. Qed.

Lemma pow2_le (a b : Z) : (a <= b)%Z -> 2 ^ a <= 2 ^ b.
Proof. intros H. apply Qpower_le_compat_l; [exact H | discriminate]. Qed.

Lemma pow2_lt_inv (a b : Z) : 2 ^ a < 2 ^ b -> (a < b)%Z.
Proof. intros H. apply (Qpower_lt_compat_l_inv 2); [exact H | reflexivity]. Qed.

(** The quotient rounded to the nearest integer, ties to even. *)
Lemma round_half_even_spec (x y : Z) :
  (0 <= x)%Z -> (0 < y)%Z ->
  let m := round_half_even x y in
  (0 <= m /\ m * y < x + y /\ x < m * y + y
   /\ 2 * x <= 2 * (m * y) + y /\ 2 * (m * y) <= 2 * x + y
   /\ (2 * (m * y) = 2 * x + y -> Z.even m = true))%Z.
Proof.
  intros Hx Hy m. subst m. unfold round_half_even.
  pose proof (Z.div_mod x y ltac:(lia)) as Hdm.
  pose proof (Z.mod_pos_bound x y Hy) as Hr.
  pose proof (Z.div_pos x y Hx Hy) as Hf.
  set (f := (x / y)%Z) in *. set (r := (x mod y)%Z) in *.
  destruct (Z.compare_spec (2 * r) y) as [E | E | E].
  - destruct (Z.even f) eqn:Ev.
    + repeat split; try nia.
    + repeat split; try nia. intros _.
      rewrite Z.even_add, Ev. reflexivity.
  - repeat split; try nia.
  - repeat split; try nia.
Qed.

Lemma Q_of_Z_pos (z : Z) : (0 < z)%Z -> 0 < inject_Z z.
Proof. intros H. change 0 with (inject_Z 0). now rewrite <- Zlt_Qlt. Qed.

Lemma div_mul_cancel (n d : Q) : 0 < d -> n / d * d == n.
Proof. intros H. field. lra. Qed.

Lemma le_div_iff (a n d : Q) : 0 < d -> (a <= n / d <-> a * d <= n).
Proof.
  intros H. rewrite <- (div_mul_cancel n d H) at 2.
  symmetry. now apply Qmult_le_r.
Qed.

Lemma div_lt_iff (a n d : Q) : 0 < d -> (n / d < a <-> n < a * d).
Proof.
  intros H. rewrite <- (div_mul_cancel n d H) at 2.
  symmetry. now apply Qmult_lt_r.
Qed.

Lemma div_le_iff (a n d : Q) : 0 < d -> (n / d <= a <-> n <= a * d).
Proof.
  intros H. rewrite <- (div_mul_cancel n d H) at 2.
  symmetry. now apply Qmult_le_r.
Qed.

Lemma log2_bounds (n : Z) :
  (0 < n)%Z -> 2 ^ Z.log2 n <= inject_Z n /\ inject_Z n < 2 ^ (Z.log2 n + 1).
Proof.
  intros Hn. destruct (Z.log2_spec n Hn) as [Hlo Hhi].
  pose proof (Z.log2_nonneg n) as Hnn.
  split.
  - rewrite <- pow2_inject by exact Hnn. now rewrite <- Zle_Qle.
  - rewrite <- pow2_inject by lia. rewrite <- Zlt_Qlt.
    now rewrite <- Z.add_1_r in Hhi.
Qed.

Lemma floor_log2_spec (n d : Z) :
  (0 < n)%Z -> (0 < d)%Z ->
  let e := floor_log2 n d in
  2 ^ e <= inject_Z n / inject_Z d /\ inject_Z n / inject_Z d < 2 ^ (e + 1).
Proof.
  intros Hn Hd e. subst e. unfold floor_log2.
  destruct (log2_bounds n Hn) as [Hn1 Hn2].
  destruct (log2_bounds d Hd) as [Hd1 Hd2].
  pose proof (Q_of_Z_pos d Hd) as HD.
  set (a := Z.log2 n) in *. set (b := Z.log2 d) in *.
  set (N := inject_Z n) in *. set (D := inject_Z d) in *.
  assert (Hlow : 2 ^ (a - b - 1) <= N / D).
  { apply le_div_iff; [exact HD|].
    apply Qle_trans with (2 ^ (a - b - 1) * 2 ^ (b + 1)).
    - apply Qmult_le_l; [apply pow2_pos | now apply Qlt_le_weak].
    - rewrite <- pow2_add. replace (a - b - 1 + (b + 1))%Z with a by lia.
      exact Hn1. }
  assert (Hhigh : N / D < 2 ^ (a - b + 1)).
  { apply div_lt_iff; [exact HD|].
    apply Qlt_le_trans with (2 ^ (a + 1)); [exact Hn2|].
    replace (a + 1)%Z with (a - b + 1 + b)%Z by lia. rewrite pow2_add.
    apply Qmult_le_l; [apply pow2_pos | exact Hd1]. }
  assert (Habove :
            (if (0 <=? a - b)%Z then (d * 2 ^ (a - b) <=? n)%Z
             else (d <=? n * 2 ^ (- (a - b)))%Z) = true
            <-> 2 ^ (a - b) <= N / D).
  { rewrite (le_div_iff _ _ _ HD). destruct (0 <=? a - b)%Z eqn:E.
    - apply Z.leb_le in E. rewrite Z.leb_le, Zle_Qle, inject_Z_mult.
      rewrite pow2_inject by exact E. fold N D. now rewrite Qmult_comm.
    - apply Z.leb_gt in E. rewrite Z.leb_le, Zle_Qle, inject_Z_mult.
      rewrite pow2_inject by lia. fold N D.
      pose proof (pow2_opp (a - b)) as Hop.
      pose proof (pow2_pos (a - b)) as Hp1.
      pose proof (pow2_pos (- (a - b))) as Hp2.
      rewrite <- (Qmult_le_l _ _ _ Hp1).
      setoid_replace (2 ^ (a - b) * (N * 2 ^ (- (a - b))))
        with (N * (2 ^ (a - b) * 2 ^ (- (a - b)))) by ring.
      rewrite Hop, Qmult_1_r. reflexivity. }
  destruct (if (0 <=? a - b)%Z then _ else _) eqn:E.
  - split; [now apply Habove | exact Hhigh].
  - split; [exact Hlow|].
    replace (a - b - 1 + 1)%Z with (a - b)%Z by lia.
    apply Qnot_le_lt. intros H. apply Habove in H. congruence.
Qed.
Lemma scaled_value (m u : Z) : scaled m u == inject_Z m * 2 ^ u.
Proof.
  unfold scaled. destruct (0 <=? u)%Z eqn:E.
  - apply Z.leb_le in E. rewrite inject_Z_mult. now rewrite pow2_inject.
  - apply Z.leb_gt in E. rewrite Qred_correct.
    assert (Hp : (0 < 2 ^ (- u))%Z) by (apply Z.pow_pos_nonneg; lia).
    rewrite Qmake_Qdiv. rewrite Z2Pos.id by exact Hp.
    rewrite pow2_inject by lia.
    pose proof (pow2_opp u) as Hop. pose proof (pow2_pos (- u)) as Hpos.
    rewrite <- (Qmult_inj_r _ _ (2 ^ (- u))) by lra.
    rewrite div_mul_cancel by exact Hpos.
    rewrite <- Qmult_assoc, Hop. ring.
Qed.


(** The same in the rationals, against the exact quotient. *)
Lemma round_half_even_Q (x y : Z) :
  (0 <= x)%Z -> (0 < y)%Z ->
  let m := inject_Z (round_half_even x y) in
  let t := inject_Z x / inject_Z y in
  (0 <= round_half_even x y)%Z
  /\ m - 1 < t /\ t < m + 1
  /\ - (1) <= 2 * (m - t) /\ 2 * (m - t) <= 1
  /\ (2 * (m - t) == 1 -> Z.even (round_half_even x y) = true).
Proof.
  intros Hx Hy m t.
  destruct (round_half_even_spec x y Hx Hy) as (H0 & H1 & H2 & H3 & H4 & H5).
  pose proof (Q_of_Z_pos y Hy) as HY.
  assert (Ht : t * inject_Z y == inject_Z x) by (apply div_mul_cancel; exact HY).
  rewrite Zlt_Qlt in H1, H2. rewrite Zle_Qle in H3, H4.
  push_inject_in H1. push_inject_in H2. push_inject_in H3. push_inject_in H4.
  assert (H6 : 2 * (m - t) == 1 ->
               inject_Z (2 * (round_half_even x y * y)) == inject_Z (2 * x + y)).
  { push_inject. fold m. change (inject_Z 2) with 2.
    set (X := inject_Z x) in *. set (Y := inject_Z y) in *.
    clearbody t m X Y. intros Htie. nra. }
  fold m in H1, H2, H3, H4.
  set (X := inject_Z x) in *. set (Y := inject_Z y) in *.
  change (inject_Z 2) with 2 in *. clearbody t X Y.
  split; [exact H0|].
  split; [nra|]. split; [nra|]. split; [nra|]. split; [nra|].
  intros Htie. apply H5. apply inject_Z_injective. now apply H6.
Qed.


(** What [round64] computes for a positive rational [q]: with
    [2 ^ e <= q < 2 ^ (e + 1)] and the unit [2 ^ u] of that binade (or of
    the subnormals), the multiple [M * 2 ^ u] nearest to [q], ties to the
    even [M]; infinity when that is [2 ^ 1024] or more. *)
Lemma round64_pos (q : Q) :
  0 < q ->
  exists e M : Z,
    2 ^ e <= q /\ q < 2 ^ (e + 1)
    /\ (0 <= M)%Z
    /\ (inject_Z M - 1) * 2 ^ Z.max (e - 52) (-1074) < q
    /\ q < (inject_Z M + 1) * 2 ^ Z.max (e - 52) (-1074)
    /\ - 2 ^ Z.max (e - 52) (-1074)
       <= 2 * (inject_Z M * 2 ^ Z.max (e - 52) (-1074) - q)
    /\ 2 * (inject_Z M * 2 ^ Z.max (e - 52) (-1074) - q)
       <= 2 ^ Z.max (e - 52) (-1074)
    /\ (2 * (inject_Z M * 2 ^ Z.max (e - 52) (-1074) - q)
        == 2 ^ Z.max (e - 52) (-1074) -> Z.even M = true)
    /\ round64 q
       = if ((971 <? Z.max (e - 52) (-1074))
             || ((Z.max (e - 52) (-1074) =? 971) && (M =? 2 ^ 53)))%Z
         then PosInf
         else Fin (scaled M (Z.max (e - 52) (-1074))).
Proof.
  intros Hq. destruct q as [n d].
  assert (Hn : (0 < n)%Z).
  { unfold Qlt in Hq. simpl in Hq. lia. }
  assert (Hd : (0 < Zpos d)%Z) by reflexivity.
  destruct (floor_log2_spec n (Zpos d) Hn Hd) as [He1 He2].
  rewrite <- Qmake_Qdiv in He1, He2.
  set (e := floor_log2 n (Zpos d)) in *.
  set (u := Z.max (e - 52) (-1074)).
  set (M := if (0 <=? u)%Z then round_half_even n (Zpos d * 2 ^ u)
            else round_half_even (n * 2 ^ (- u)) (Zpos d)).
  exists e, M. fold u.
  assert (Hround : round64 (n # d)
                   = if ((971 <? u) || ((u =? 971) && (M =? 2 ^ 53)))%Z
                     then PosInf else Fin (scaled M u)).
  { unfold round64. cbn [Qnum Qden].
    rewrite (Z.abs_eq n) by lia.
    destruct (n =? 0)%Z eqn:E0; [apply Z.eqb_eq in E0; lia|].
    assert (Hneg : (n <? 0)%Z = false) by (apply Z.ltb_ge; lia).
    rewrite Hneg. fold e. fold u. fold M. reflexivity. }
  pose proof (pow2_pos u) as HP.
  assert (Hfacts :
            exists x y, (0 <= x)%Z /\ (0 < y)%Z /\ M = round_half_even x y
                        /\ inject_Z x / inject_Z y * 2 ^ u == n # d).
  { subst M. destruct (0 <=? u)%Z eqn:Eu.
    - apply Z.leb_le in Eu. exists n, (Zpos d * 2 ^ u)%Z.
      assert (Hp : (0 < 2 ^ u)%Z) by (apply Z.pow_pos_nonneg; lia).
      split; [lia|]. split; [lia|]. split; [reflexivity|].
      rewrite inject_Z_mult, pow2_inject by exact Eu.
      rewrite (Qmake_Qdiv n d).
      pose proof (Q_of_Z_pos (Zpos d) Hd) as HD.
      set (N := inject_Z n). set (D := inject_Z (Zpos d)) in *.
      set (P := 2 ^ u) in *. clearbody N D P.
      field. split; lra.
    - apply Z.leb_gt in Eu. exists (n * 2 ^ (- u))%Z, (Zpos d).
      assert (Hp : (0 < 2 ^ (- u))%Z) by (apply Z.pow_pos_nonneg; lia).
      split; [nia|]. split; [lia|]. split; [reflexivity|].
      rewrite inject_Z_mult, pow2_inject by lia.
      rewrite (Qmake_Qdiv n d).
      pose proof (pow2_opp u) as Hop.
      pose proof (Q_of_Z_pos (Zpos d) Hd) as HD.
      set (N := inject_Z n). set (D := inject_Z (Zpos d)) in *.
      set (P := 2 ^ u) in *. set (P' := 2 ^ (- u)) in *. clearbody N D P P'.
      setoid_replace (N * P' / D * P) with (N / D * (P * P')) by (field; lra).
      rewrite Hop. ring. }
  destruct Hfacts as (x & y & Hx & Hy & HM & Hxy).
  destruct (round_half_even_Q x y Hx Hy) as (H0 & H1 & H2 & H3 & H4 & H5).
  rewrite <- HM in H0, H1, H2, H3, H4, H5.
  set (t := inject_Z x / inject_Z y) in *.
  set (m := inject_Z M) in *. set (P := 2 ^ u) in *.
  set (v := n # d) in *.
  split; [exact He1|]. split; [exact He2|]. split; [exact H0|].
  clearbody t m P v.
  split; [nra|]. split; [nra|]. split; [nra|]. split; [nra|].
  split; [|exact Hround].
  intros Htie. apply H5. nra.
Qed.


Lemma round64_zero (q : Q) : q == 0 -> round64 q = Fin 0.
Proof.
  intros H. unfold Qeq in H. simpl in H. rewrite Z.mul_1_r in H.
  unfold round64. now rewrite H.
Qed.

(** Between integers, strict order below a successor is the order. *)
Lemma Z_le_of_Q_lt (a b : Z) (p : Q) :
  0 < p -> (inject_Z a - 1) * p < inject_Z b * p -> (a <= b)%Z.
Proof.
  intros Hp H. apply Qmult_lt_r in H; [|exact Hp].
  assert (H' : inject_Z a < inject_Z (b + 1)).
  { rewrite inject_Z_plus. change (inject_Z 1) with 1. lra. }
  rewrite <- Zlt_Qlt in H'. lia.
Qed.

Lemma pow2_53 : inject_Z (2 ^ 53) == 2 ^ 53.
Proof. now apply pow2_inject. Qed.

(** Rounding a non-negative rational that a binary64 value [m * 2 ^ k]
    bounds gives a number within the same bound, at a relative distance
    of at most [2 ^ (-53)] outside the subnormal range. *)
Lemma round64_upper (q : Q) (m k : Z) :
  0 <= q -> q <= inject_Z m * 2 ^ k ->
  (0 <= m <= 2 ^ 53)%Z -> (0 <= k <= 900)%Z ->
  exists a, round64 q = Fin a
            /\ 0 <= a /\ a <= inject_Z m * 2 ^ k
            /\ a - q <= q * 2 ^ (-53) + 2 ^ (-1075)
            /\ q - a <= q * 2 ^ (-53) + 2 ^ (-1075).
Proof.
  intros Hq0 HqB Hm Hk.
  pose proof (pow2_pos (-53)) as HU. pose proof (pow2_pos (-1075)) as HT.
  pose proof (pow2_pos k) as HK.
  assert (HmQ : 0 <= inject_Z m <= 2 ^ 53).
  { rewrite <- pow2_53. change 0 with (inject_Z 0).
    rewrite <- !Zle_Qle. exact Hm. }
  destruct (Qlt_le_dec 0 q) as [Hpos | Hzero].
  2:{ assert (Hz : q == 0) by lra. exists 0.
      split; [now apply round64_zero|].
      set (B := inject_Z m * 2 ^ k) in *.
      assert (0 <= B) by (unfold B; nra).
      set (U := 2 ^ (-53)) in *. set (T := 2 ^ (-1075)) in *.
      clearbody B U T. repeat split; nra. }
  destruct (round64_pos q Hpos)
    as (e & M & He1 & He2 & HM & H1 & H2 & H3 & H4 & _ & Hround).
  set (u := Z.max (e - 52) (-1074)) in *.
  pose proof (pow2_pos u) as HP. pose proof (pow2_pos e) as HE.
  assert (Hek : (e <= 53 + k)%Z).
  { destruct (Z_le_gt_dec e (53 + k)) as [H | H]; [exact H|].
    exfalso. pose proof (pow2_le (53 + k + 1) e ltac:(lia)) as Hle.
    rewrite pow2_succ, pow2_add in Hle.
    set (E := 2 ^ e) in *. set (K := 2 ^ k) in *. set (C := 2 ^ 53) in *.
    set (mq := inject_Z m) in *. clearbody E K C mq. nra. }
  assert (Hfin : round64 q = Fin (scaled M u)).
  { rewrite Hround.
    destruct (971 <? u)%Z eqn:E1; [apply Z.ltb_lt in E1; lia|].
    destruct (u =? 971)%Z eqn:E2; [apply Z.eqb_eq in E2; lia|]. reflexivity. }
  exists (scaled M u). split; [exact Hfin|].
  rewrite scaled_value.
  assert (HMq : 0 <= inject_Z M).
  { change 0 with (inject_Z 0). now rewrite <- Zle_Qle. }
  split; [nra|]. split.
  - assert (Hint : exists K : Z, q <= inject_Z K * 2 ^ u
                                 /\ inject_Z K * 2 ^ u <= inject_Z m * 2 ^ k).
    { destruct (Z_le_gt_dec u k) as [Huk | Huk].
      - exists (m * 2 ^ (k - u))%Z.
        rewrite inject_Z_mult, pow2_inject by lia.
        assert (Hsplit : 2 ^ (k - u) * 2 ^ u == 2 ^ k).
        { rewrite <- pow2_add. now replace (k - u + u)%Z with k by lia. }
        rewrite <- Qmult_assoc, Hsplit. split; [exact HqB | apply Qle_refl].
      - exists (2 ^ 52)%Z. rewrite pow2_inject by lia.
        assert (Heq : (e = 53 + k)%Z) by lia.
        assert (Hu : (u = k + 1)%Z) by lia.
        assert (Hsplit : 2 ^ 52 * 2 ^ u == 2 ^ 53 * 2 ^ k).
        { rewrite <- !pow2_add. now replace (52 + u)%Z with (53 + k)%Z by lia. }
        rewrite Hsplit.
        rewrite Heq, pow2_add in He1.
        set (K := 2 ^ k) in *. set (C := 2 ^ 53) in *.
        set (mq := inject_Z m) in *. clearbody K C mq. split; nra. }
    destruct Hint as (K & HK1 & HK2).
    assert (HMK : (M <= K)%Z).
    { apply (Z_le_of_Q_lt M K (2 ^ u) HP). lra. }
    rewrite Zle_Qle in HMK.
    apply Qle_trans with (inject_Z K * 2 ^ u); [|exact HK2].
    apply Qmult_le_compat_r; [exact HMK | now apply Qlt_le_weak].
  - assert (Hhalf : 2 ^ u <= 2 * (q * 2 ^ (-53) + 2 ^ (-1075))).
    { destruct (Z.max_spec (e - 52) (-1074)) as [[_ Hu] | [_ Hu]]; fold u in Hu.
      - rewrite Hu. replace (-1074)%Z with (-1075 + 1)%Z by lia.
        rewrite pow2_succ.
        set (U := 2 ^ (-53)) in *. set (T := 2 ^ (-1075)) in *.
        clearbody U T. nra.
      - rewrite Hu. replace (e - 52)%Z with (e + -53 + 1)%Z by lia.
        rewrite pow2_succ, pow2_add.
        set (U := 2 ^ (-53)) in *. set (T := 2 ^ (-1075)) in *.
        set (E := 2 ^ e) in *. clearbody U T E. nra. }
    set (P := 2 ^ u) in *. set (mq := inject_Z M) in *.
    set (U := 2 ^ (-53)) in *. set (T := 2 ^ (-1075)) in *.
    clearbody P mq U T. split; lra.
Qed.


Lemma Z_lt_of_Q_lt (a b : Z) (p : Q) :
  0 < p -> inject_Z a * p < (inject_Z b + 1) * p -> (a <= b)%Z.
Proof.
  intros Hp H. apply Qmult_lt_r in H; [|exact Hp].
  assert (H' : inject_Z a < inject_Z (b + 1)).
  { rewrite inject_Z_plus. change (inject_Z 1) with 1. lra. }
  rewrite <- Zlt_Qlt in H'. lia.
Qed.

(** Rounding does not go below an integer of at most 53 bits that the
    rational is not below. *)
Lemma round64_lower (q : Q) (m : Z) :
  (0 < m <= 2 ^ 53)%Z -> inject_Z m <= q ->
  round64 q = PosInf \/ exists a, round64 q = Fin a /\ inject_Z m <= a.
Proof.
  intros Hm HmQ.
  assert (Hm1 : 1 <= inject_Z m).
  { change 1 with (inject_Z 1). rewrite <- Zle_Qle. lia. }
  assert (Hm2 : inject_Z m <= 2 ^ 53).
  { rewrite <- pow2_53. rewrite <- Zle_Qle. lia. }
  destruct (round64_pos q ltac:(lra))
    as (e & M & He1 & He2 & HM & H1 & H2 & H3 & H4 & _ & Hround).
  set (u := Z.max (e - 52) (-1074)) in *.
  destruct ((971 <? u) || ((u =? 971) && (M =? 2 ^ 53)))%Z; [now left|].
  right. exists (scaled M u). split; [exact Hround|].
  rewrite scaled_value.
  pose proof (pow2_pos u) as HP.
  destruct (Z_le_gt_dec u 0) as [Hu | Hu].
  - assert (HK : inject_Z (m * 2 ^ (- u)) * 2 ^ u == inject_Z m).
    { rewrite inject_Z_mult, pow2_inject by lia.
      rewrite <- Qmult_assoc, (Qmult_comm (2 ^ (- u))), pow2_opp. ring. }
    assert (HKM : (m * 2 ^ (- u) <= M)%Z).
    { apply (Z_lt_of_Q_lt _ _ (2 ^ u) HP). rewrite HK. lra. }
    rewrite Zle_Qle in HKM. rewrite <- HK.
    apply Qmult_le_compat_r; [exact HKM | now apply Qlt_le_weak].
  - assert (Hue : (u = e - 52)%Z) by lia.
    assert (HE : 2 ^ e == inject_Z (2 ^ 52) * 2 ^ u).
    { rewrite pow2_inject by lia. rewrite <- pow2_add.
      now replace (52 + u)%Z with e by lia. }
    assert (HKM : (2 ^ 52 <= M)%Z).
    { apply (Z_lt_of_Q_lt _ _ (2 ^ u) HP). rewrite <- HE. lra. }
    rewrite Zle_Qle in HKM.
    apply Qle_trans with (2 ^ e).
    + apply Qle_trans with (2 ^ 53); [exact Hm2|]. apply pow2_le. lia.
    + rewrite HE. apply Qmult_le_compat_r; [exact HKM | now apply Qlt_le_weak].
Qed.

(** At [2 ^ 55] an increment of at most 4 is lost: the sum of more than
    [2 ^ 53] numbers of at most 4 stays there. *)
Lemma round64_stall (q : Q) :
  2 ^ 55 <= q -> q <= 2 ^ 55 + 4 ->
  exists a, round64 q = Fin a /\ 0 <= a /\ a <= 2 ^ 55.
Proof.
  intros Hlo Hhi.
  pose proof (pow2_pos 55) as H55.
  destruct (round64_pos q ltac:(lra))
    as (e & M & He1 & He2 & HM & H1 & H2 & H3 & H4 & Heven & Hround).
  assert (He : e = 55%Z).
  { assert (Ha : (e < 56)%Z).
    { apply pow2_lt_inv. apply Qle_lt_trans with q; [exact He1|].
      apply Qle_lt_trans with (2 ^ 55 + 4); [exact Hhi|]. reflexivity. }
    assert (Hb : (55 < e + 1)%Z).
    { apply pow2_lt_inv. now apply Qle_lt_trans with q. }
    lia. }
  subst e. change (Z.max (55 - 52) (-1074)) with 3%Z in *.
  change (2 ^ 3) with 8 in *.
  exists (scaled M 3). split; [exact Hround|].
  rewrite scaled_value. change (2 ^ 3) with 8.
  assert (HMq : 0 <= inject_Z M).
  { change 0 with (inject_Z 0). now rewrite <- Zle_Qle. }
  split; [lra|].
  assert (HM1 : (M <= 2 ^ 52 + 1)%Z).
  { rewrite Zle_Qle. rewrite inject_Z_plus, pow2_inject by lia.
    change (inject_Z 1) with 1.
    assert (E : 2 ^ 55 == 8 * 2 ^ 52) by reflexivity. lra. }
  assert (HM2 : M <> (2 ^ 52 + 1)%Z).
  { intros ->. assert (Hodd : Z.even (2 ^ 52 + 1) = false) by reflexivity.
    rewrite Heven in Hodd; [discriminate|].
    rewrite inject_Z_plus, pow2_inject in * by lia.
    change (inject_Z 1) with 1 in *.
    assert (E : 2 ^ 55 == 8 * 2 ^ 52) by reflexivity. lra. }
  assert (HM3 : (M <= 2 ^ 52)%Z) by lia.
  rewrite Zle_Qle, pow2_inject in HM3 by lia.
  assert (E : 2 ^ 55 == 8 * 2 ^ 52) by reflexivity. lra.
Qed.


(** *** Sums and means of numbers within [0.0, 4.0] *)

Lemma range_value (g : pyfloat) :
  in_rangeb g = true -> exists x, g = Fin x /\ 0 <= x /\ x <= 4.
Proof.
  destruct g as [x| | |]; try discriminate. simpl. intros H.
  apply andb_true_iff in H as [H1 H2]. apply Qle_bool_iff in H1, H2.
  exists x. repeat split; assumption.
Qed.

Lemma value_range (x : Q) : 0 <= x -> x <= 4 -> in_rangeb (Fin x) = true.
Proof.
  intros H1 H2. simpl. apply andb_true_iff.
  split; now apply Qle_bool_iff.
Qed.

(** One addition of [sum]: after [j] numbers the accumulator is at most
    [4 * j], and never more than [2 ^ 55]. *)
Lemma add_in_range (s x : Q) (j : Z) :
  (0 <= j)%Z -> 0 <= s -> s <= 4 * inject_Z (Z.min j (2 ^ 53)) ->
  0 <= x -> x <= 4 ->
  exists r, add (Fin s) (Fin x) = Fin r
            /\ 0 <= r /\ r <= 4 * inject_Z (Z.min (j + 1) (2 ^ 53)).
Proof.
  intros Hj Hs0 Hs Hx0 Hx. cbn [add].
  assert (Hc : (0 <= Z.min (j + 1) (2 ^ 53) <= 2 ^ 53)%Z) by lia.
  assert (Hfour : forall c, inject_Z c * 2 ^ 2 == 4 * inject_Z c).
  { intros c. change (2 ^ 2) with 4. ring. }
  destruct (Qlt_le_dec (4 * inject_Z (Z.min (j + 1) (2 ^ 53))) (s + x))
    as [Hgt | Hle].
  - assert (Hbig : (2 ^ 53 <= j)%Z).
    { destruct (Z_le_gt_dec (2 ^ 53) j) as [H | H]; [exact H|]. exfalso.
      rewrite Z.min_l in Hs, Hgt by lia.
      rewrite inject_Z_plus in Hgt. change (inject_Z 1) with 1 in Hgt. lra. }
    rewrite Z.min_r in Hs, Hgt by lia. rewrite Z.min_r by lia.
    rewrite pow2_53 in Hs, Hgt.
    assert (E : 4 * 2 ^ 53 == 2 ^ 55) by reflexivity.
    destruct (round64_stall (s + x)) as (r & Hr & Hr0 & Hr1); [lra | lra |].
    exists r. split; [exact Hr|]. split; [exact Hr0|]. rewrite pow2_53. lra.
  - destruct (round64_upper (s + x) (Z.min (j + 1) (2 ^ 53)) 2)
      as (r & Hr & Hr0 & Hr1 & _); [lra | | exact Hc | lia |].
    + now rewrite Hfour.
    + exists r. split; [exact Hr|]. split; [exact Hr0|]. now rewrite <- Hfour.
Qed.

Lemma fold_add_in_range (xs : list pyfloat) :
  Forall (fun x => in_rangeb x = true) xs ->
  forall (s : Q) (j : Z),
    (0 <= j)%Z -> 0 <= s -> s <= 4 * inject_Z (Z.min j (2 ^ 53)) ->
    exists r, fold_left add xs (Fin s) = Fin r
              /\ 0 <= r
              /\ r <= 4 * inject_Z (Z.min (j + Z.of_nat (List.length xs)) (2 ^ 53)).
Proof.
  induction 1 as [|g xs Hg _ IH]; intros s j Hj Hs0 Hs.
  - exists s. simpl. rewrite Z.add_0_r. repeat split; assumption.
  - destruct (range_value g Hg) as (x & -> & Hx0 & Hx).
    destruct (add_in_range s x j Hj Hs0 Hs Hx0 Hx) as (r & Hr & Hr0 & Hr1).
    destruct (IH r (j + 1)%Z ltac:(lia) Hr0 Hr1) as (r' & Hr' & Hr0' & Hr1').
    exists r'. cbn [fold_left]. rewrite Hr. split; [exact Hr'|].
    split; [exact Hr0'|].
    replace (j + Z.of_nat (List.length (Fin x :: xs)))%Z
      with (j + 1 + Z.of_nat (List.length xs))%Z; [exact Hr1'|].
    cbn [List.length]. lia.
Qed.

(** The count as a float is not below the count, up to [2 ^ 53]. *)
Lemma of_nat_lower (n : nat) :
  (0 < n)%nat ->
  of_nat n = PosInf
  \/ exists b, of_nat n = Fin b
               /\ inject_Z (Z.min (Z.of_nat n) (2 ^ 53)) <= b.
Proof.
  intros Hn. unfold of_nat.
  apply round64_lower; [lia|]. rewrite <- Zle_Qle. lia.
Qed.

(** The quotient of such a sum by the count is within [0.0, 4.0]. *)
Lemma div_len_in_range (s : Q) (n : nat) :
  (0 < n)%nat -> 0 <= s -> s <= 4 * inject_Z (Z.min (Z.of_nat n) (2 ^ 53)) ->
  exists a, div_len (Fin s) n = Fin a /\ 0 <= a /\ a <= 4.
Proof.
  intros Hn Hs0 Hs. unfold div_len.
  destruct (of_nat_lower n Hn) as [-> | (b & -> & Hb)].
  - exists 0. repeat split; lra.
  - assert (Hc : 1 <= inject_Z (Z.min (Z.of_nat n) (2 ^ 53))).
    { change 1 with (inject_Z 1). rewrite <- Zle_Qle. lia. }
    set (c := inject_Z (Z.min (Z.of_nat n) (2 ^ 53))) in *.
    assert (Hb0 : 0 < b) by lra.
    assert (Hq0 : 0 <= s / b).
    { apply le_div_iff; [exact Hb0 | lra]. }
    assert (Hq4 : s / b <= 4).
    { apply div_le_iff; [exact Hb0|]. clearbody c. nra. }
    destruct (round64_upper (s / b) 1 2) as (a & Ha & Ha0 & Ha1 & _);
      [exact Hq0 | | lia | lia |].
    + change (inject_Z 1 * 2 ^ 2) with 4. exact Hq4.
    + exists a. split; [exact Ha|]. split; [exact Ha0|].
      change (inject_Z 1 * 2 ^ 2) with 4 in Ha1. exact Ha1.
Qed.

(** The mean the program computes for numbers within [0.0, 4.0] is
    within [0.0, 4.0]. *)
Lemma float_mean_in_range (xs : list pyfloat) :
  xs <> [] -> Forall (fun x => in_rangeb x = true) xs ->
  exists a, div_len (sum xs) (List.length xs) = Fin a /\ 0 <= a /\ a <= 4.
Proof.
  intros Hne Hall. unfold sum.
  destruct (fold_add_in_range xs Hall 0 0%Z) as (r & Hr & Hr0 & Hr1);
    [lia | lra | rewrite Z.min_l by lia; change (inject_Z 0) with 0; lra |].
  rewrite Hr. apply div_len_in_range; [|exact Hr0 | exact Hr1].
  destruct xs; [congruence | simpl; lia].
Qed.


(** *** The distance to the exact sum and mean *)

Lemma values_in_range (xs : list pyfloat) :
  Forall (fun x => in_rangeb x = true) xs ->
  xs = map Fin (values xs) /\ forall x, In x (values xs) -> 0 <= x /\ x <= 4.
Proof.
  induction 1 as [|g xs Hg _ [IH1 IH2]]; simpl.
  - split; [reflexivity | intros x []].
  - destruct (range_value g Hg) as (x & -> & Hx0 & Hx). simpl. split.
    + now rewrite <- IH1.
    + intros y [<- | Hy]; [split; assumption | now apply IH2].
Qed.

(** One addition: the error of the rounding is at most the bound [c] of
    a sum of at most [N] numbers, [N <= 2 ^ 53]. *)
Lemma add_error (s x S : Q) (j N : Z) :
  (0 <= j)%Z -> (j + 1 <= N)%Z -> (N <= 2 ^ 53)%Z ->
  0 <= s -> s <= 4 * inject_Z j -> 0 <= x -> x <= 4 ->
  s - S <= inject_Z j * (4 * inject_Z N * 2 ^ (-53) + 2 ^ (-1075)) ->
  S - s <= inject_Z j * (4 * inject_Z N * 2 ^ (-53) + 2 ^ (-1075)) ->
  exists r, add (Fin s) (Fin x) = Fin r
            /\ 0 <= r /\ r <= 4 * inject_Z (j + 1)
            /\ r - (S + x)
               <= inject_Z (j + 1) * (4 * inject_Z N * 2 ^ (-53) + 2 ^ (-1075))
            /\ (S + x) - r
               <= inject_Z (j + 1) * (4 * inject_Z N * 2 ^ (-53) + 2 ^ (-1075)).
Proof.
  intros Hj HjN HN Hs0 Hs Hx0 Hx He1 He2. cbn [add].
  assert (Hfour : inject_Z (j + 1) * 2 ^ 2 == 4 * inject_Z (j + 1)).
  { change (2 ^ 2) with 4. ring. }
  destruct (round64_upper (s + x) (j + 1) 2)
    as (r & Hr & Hr0 & Hr1 & Hr2 & Hr3); [lra | | lia | lia |].
  { rewrite Hfour, inject_Z_plus. change (inject_Z 1) with 1. lra. }
  exists r. split; [exact Hr|]. split; [exact Hr0|].
  rewrite Hfour in Hr1. split; [exact Hr1|].
  pose proof (pow2_pos (-53)) as HU. pose proof (pow2_pos (-1075)) as HT.
  assert (HjN' : inject_Z j + 1 <= inject_Z N).
  { change 1 with (inject_Z 1). rewrite <- inject_Z_plus, <- Zle_Qle. lia. }
  assert (Hj' : 0 <= inject_Z j).
  { change 0 with (inject_Z 0). rewrite <- Zle_Qle. lia. }
  rewrite inject_Z_plus. change (inject_Z 1) with 1.
  set (U := 2 ^ (-53)) in *. set (T := 2 ^ (-1075)) in *.
  set (jq := inject_Z j) in *. set (Nq := inject_Z N) in *.
  clearbody U T jq Nq.
  assert (Hstep : (s + x) * U <= 4 * Nq * U) by nra.
  split; nra.
Qed.

Lemma fold_add_error (N : Z) (xs : list pyfloat) :
  (N <= 2 ^ 53)%Z ->
  Forall (fun x => in_rangeb x = true) xs ->
  forall (s S : Q) (j : Z),
    (0 <= j)%Z -> (j + Z.of_nat (List.length xs) <= N)%Z ->
    0 <= s -> s <= 4 * inject_Z j ->
    s - S <= inject_Z j * (4 * inject_Z N * 2 ^ (-53) + 2 ^ (-1075)) ->
    S - s <= inject_Z j * (4 * inject_Z N * 2 ^ (-53) + 2 ^ (-1075)) ->
    exists r, fold_left add xs (Fin s) = Fin r
              /\ 0 <= r
              /\ r <= 4 * inject_Z (j + Z.of_nat (List.length xs))
              /\ r - (S + Qsum (values xs))
                 <= inject_Z (j + Z.of_nat (List.length xs))
                    * (4 * inject_Z N * 2 ^ (-53) + 2 ^ (-1075))
              /\ (S + Qsum (values xs)) - r
                 <= inject_Z (j + Z.of_nat (List.length xs))
                    * (4 * inject_Z N * 2 ^ (-53) + 2 ^ (-1075)).
Proof.
  intros HN. induction 1 as [|g xs Hg _ IH]; intros s S j Hj HjN Hs0 Hs He1 He2.
  - exists s. cbn [fold_left List.length values flat_map Qsum fold_right].
    rewrite Z.add_0_r. repeat split; try assumption; lra.
  - destruct (range_value g Hg) as (x & -> & Hx0 & Hx).
    cbn [List.length] in HjN.
    destruct (add_error s x S j N Hj ltac:(lia) HN Hs0 Hs Hx0 Hx He1 He2)
      as (r & Hr & Hr0 & Hr1 & Hr2 & Hr3).
    destruct (IH r (S + x) (j + 1)%Z ltac:(lia) ltac:(lia) Hr0 Hr1 Hr2 Hr3)
      as (r' & Hr' & H0 & H1 & H2 & H3).
    exists r'. cbn [fold_left]. rewrite Hr. split; [exact Hr'|].
    replace (j + Z.of_nat (List.length (Fin x :: xs)))%Z
      with (j + 1 + Z.of_nat (List.length xs))%Z by (cbn [List.length]; lia).
    change (Qsum (values (Fin x :: xs))) with (x + Qsum (values xs)).
    split; [exact H0|]. split; [exact H1|]. split; lra.
Qed.

Lemma Qsum_between (lo hi : Q) (qs : list Q) :
  (forall x, In x qs -> lo <= x /\ x <= hi) ->
  lo * inject_Z (Z.of_nat (List.length qs)) <= Qsum qs
  /\ Qsum qs <= hi * inject_Z (Z.of_nat (List.length qs)).
Proof.
  induction qs as [|q qs IH]; intros H.
  - simpl. change (inject_Z 0) with 0. split; lra.
  - destruct (H q (or_introl eq_refl)) as [H1 H2].
    destruct IH as [IH1 IH2]; [intros x Hx; apply H; now right|].
    change (Qsum (q :: qs)) with (q + Qsum qs).
    change (List.length (q :: qs)) with (S (List.length qs)).
    rewrite Nat2Z.inj_succ. unfold Z.succ. rewrite inject_Z_plus.
    change (inject_Z 1) with 1. split; lra.
Qed.

(** The mean of numbers within two bounds is within them. *)
Lemma mean_within (lo hi : Q) (qs : list Q) :
  qs <> [] -> (forall x, In x qs -> lo <= x /\ x <= hi) ->
  lo <= mean qs /\ mean qs <= hi.
Proof.
  intros Hne H. destruct (Qsum_between lo hi qs H) as [H1 H2].
  assert (Hn : 0 < inject_Z (Z.of_nat (List.length qs))).
  { apply Q_of_Z_pos. destruct qs; [congruence | simpl; lia]. }
  unfold mean. split.
  - now apply le_div_iff.
  - now apply div_le_iff.
Qed.

(** The mean the program computes for [n] numbers within [0.0, 4.0] is
    within [0.0, 4.0] and no further from their mean than
    [tolerance n]. *)
Lemma float_mean_near (xs : list pyfloat) :
  xs <> [] -> Forall (fun x => in_rangeb x = true) xs ->
  exists a, div_len (sum xs) (List.length xs) = Fin a
            /\ 0 <= a /\ a <= 4
            /\ a - mean (values xs) <= tolerance (List.length xs)
            /\ mean (values xs) - a <= tolerance (List.length xs).
Proof.
  intros Hne Hall.
  destruct (float_mean_in_range xs Hne Hall) as (a & Ha & Ha0 & Ha4).
  exists a. split; [exact Ha|]. split; [exact Ha0|]. split; [exact Ha4|].
  destruct (values_in_range xs Hall) as [Hxs Hval].
  assert (Hlen : List.length (values xs) = List.length xs).
  { rewrite Hxs at 2. now rewrite length_map. }
  assert (Hne' : values xs <> []).
  { intros E. rewrite E in Hlen. destruct xs; [congruence | discriminate]. }
  destruct (mean_within 0 4 (values xs) Hne' Hval) as [Hm0 Hm4].
  set (n := List.length xs) in *.
  assert (Hn1 : (1 <= Z.of_nat n)%Z).
  { subst n. destruct xs; [congruence | simpl; lia]. }
  unfold tolerance.
  assert (E50 : 2 ^ (-50) == 8 * 2 ^ (-53)) by reflexivity.
  pose proof (pow2_pos (-53)) as HU. pose proof (pow2_pos (-1075)) as HT.
  assert (HTU : 2 ^ (-1075) <= 2 ^ (-53)) by (apply pow2_le; lia).
  destruct (Z_le_gt_dec (Z.of_nat n + 1) (2 ^ 52)) as [Hsmall | Hbig].
  2:{ assert (Hq : 2 ^ 52 < inject_Z (Z.of_nat n) + 1).
      { rewrite <- (pow2_inject 52) by lia. change 1 with (inject_Z 1).
        rewrite <- inject_Z_plus, <- Zlt_Qlt. lia. }
      assert (E52 : 2 ^ 52 * (8 * 2 ^ (-53)) == 4) by reflexivity.
      rewrite E50.
      set (U := 2 ^ (-53)) in *. set (nq := inject_Z (Z.of_nat n)) in *.
      set (C := 2 ^ 52) in *. set (mu := mean (values xs)) in *.
      clearbody U nq C mu. split; nra. }
  unfold sum in Ha.
  destruct (fold_add_error (Z.of_nat n) xs ltac:(lia) Hall 0 0 0%Z)
    as (r & Hr & Hr0 & Hr1 & Hr2 & Hr3);
    try (change (inject_Z 0) with 0; lra); try lia.
  rewrite Hr in Ha. change (0 + Z.of_nat (List.length xs))%Z with (Z.of_nat n) in *.
  unfold div_len in Ha.
  assert (Hb : exists b, of_nat n = Fin b /\ b == inject_Z (Z.of_nat n)).
  { unfold of_nat.
    destruct (round64_upper (inject_Z (Z.of_nat n)) (Z.of_nat n) 0)
      as (b & Hb & _ & Hb1 & _); [| | lia | lia |].
    - change 0 with (inject_Z 0). rewrite <- Zle_Qle. lia.
    - change (2 ^ 0) with 1. lra.
    - exists b. split; [exact Hb|].
      destruct (round64_lower (inject_Z (Z.of_nat n)) (Z.of_nat n))
        as [Hinf | (b' & Hb' & Hge)]; [lia | apply Qle_refl | congruence |].
      rewrite Hb in Hb'. injection Hb' as <-.
      change (2 ^ 0) with 1 in Hb1. lra. }
  destruct Hb as (b & Hb & Hbn). rewrite Hb in Ha.
  set (nq := inject_Z (Z.of_nat n)) in *.
  assert (Hnq : 1 <= nq).
  { unfold nq. change 1 with (inject_Z 1). now rewrite <- Zle_Qle. }
  assert (Hq0 : 0 <= r / b).
  { apply le_div_iff; lra. }
  assert (Hq4 : r / b <= 4).
  { apply div_le_iff; [lra|]. rewrite Hbn. lra. }
  destruct (round64_upper (r / b) 1 2) as (a' & Ha' & _ & _ & He1 & He2);
    [exact Hq0 | change (inject_Z 1 * 2 ^ 2) with 4; exact Hq4 | lia | lia |].
  rewrite Ha' in Ha. injection Ha as ->.
  assert (Ht : r / b * nq == r).
  { rewrite <- Hbn. apply div_mul_cancel. lra. }
  assert (Hmu : mean (values xs) * nq == Qsum (values xs)).
  { unfold mean. rewrite Hlen. apply div_mul_cancel.
    apply Qlt_le_trans with 1; [reflexivity | exact Hnq]. }
  rewrite E50.
  set (t := r / b) in *. set (mu := mean (values xs)) in *.
  set (Sx := Qsum (values xs)) in *.
  set (U := 2 ^ (-53)) in *. set (T := 2 ^ (-1075)) in *.
  clearbody t mu Sx U T nq.
  assert (Hc1 : t - mu <= 4 * nq * U + T) by nra.
  assert (Hc2 : mu - t <= 4 * nq * U + T) by nra.
  assert (HtU : t * U <= 4 * U) by nra.
  split; nra.
Qed.

End Rounding.

(** ** Facts about the store *)

Module StoreFacts.
Import Text TextFacts FloatFacts.

Lemma has_student_spec (r : Z) (d : database) :
  has_student r d = true <-> exists s, In s (students d) /\ s_id s = r.
Proof.
  unfold has_student. rewrite existsb_exists.
  split; intros (s & Hin & H); exists s; split; auto; now apply Z.eqb_eq.
Qed.

Lemma has_student_id_spec (sid : string) (d : database) :
  has_student_id sid d = true
  <-> exists s, In s (students d) /\ s_student_id s = sid.
Proof.
  unfold has_student_id. rewrite existsb_exists.
  split; intros (s & Hin & H); exists s; split; auto; now apply String.eqb_eq.
Qed.

Lemma is_term_spec (r : Z) (tn : string) (t : term) :
  is_term r tn t = true <-> t_student_id t = r /\ t_term_name t = tn.
Proof.
  unfold is_term. now rewrite andb_true_iff, Z.eqb_eq, String.eqb_eq.
Qed.

Lemma has_term_spec (r : Z) (tn : string) (d : database) :
  has_term r tn d = true
  <-> exists t, In t (terms d) /\ t_student_id t = r /\ t_term_name t = tn.
Proof.
  unfold has_term. rewrite existsb_exists.
  split; intros (t & Hin & H); exists t; split; auto; now apply is_term_spec.
Qed.

Lemma existsb_false {A : Type} (f : A -> bool) (l : list A) :
  existsb f l = false <-> forall x, In x l -> f x = false.
Proof.
  induction l as [|y l IH]; simpl.
  - split; [intros _ x [] | reflexivity].
  - rewrite orb_false_iff, IH. split.
    + intros [Hy Hl] x [<- | Hx]; auto.
    + intros H. split; [apply H; now left | intros x Hx; apply H; now right].
Qed.

(** *** AUTOINCREMENT gives a rowid above every row of the table *)

Lemma max_rowid_ge {A : Type} (key : A -> Z) (rows : list A) (x : A) :
  In x rows -> key x <= max_rowid key rows.
Proof.
  induction rows as [|y rows IH]; simpl; [intros []|].
  intros [<- | H]; [lia | specialize (IH H); lia].
Qed.

Lemma next_rowid_above {A : Type} (key : A -> Z) (rows : list A) (seq : Z) (x : A) :
  In x rows -> key x < next_rowid key rows seq.
Proof.
  intros H. apply (max_rowid_ge key) in H. unfold next_rowid. lia.
Qed.

(** *** The two inserts, case by case *)

Lemma add_student_raised sid nm ad cl d :
  has_student_id (strip sid) d = true ->
  add_student sid nm ad cl d
  = (Raised (IntegrityError "UNIQUE constraint failed: students.student_id"), d).
Proof. intros H. unfold add_student. simpl. now rewrite H. Qed.

Lemma add_student_committed sid nm ad cl d :
  has_student_id (strip sid) d = false ->
  add_student sid nm ad cl d
  = (Committed,
     {| students := students d ++ [new_student sid nm ad cl d];
        students_seq := s_id (new_student sid nm ad cl d);
        terms := terms d;
        terms_seq := terms_seq d |}).
Proof. intros H. unfold add_student. simpl. now rewrite H. Qed.

Lemma add_term_grade_raised r tn g d :
  term_refused r tn g d = true ->
  exists msg, add_term_grade r tn g d = (Raised (IntegrityError msg), d).
Proof.
  unfold term_refused, add_term_grade. simpl. intros H.
  destruct (is_nan g); [eexists; reflexivity|].
  destruct (has_term r (strip tn) d); [eexists; reflexivity|].
  destruct (has_student r d); [discriminate | eexists; reflexivity].
Qed.

Lemma add_term_grade_committed r tn g d :
  term_refused r tn g d = false ->
  add_term_grade r tn g d
  = (Committed,
     {| students := students d;
        students_seq := students_seq d;
        terms := terms d ++ [new_term r tn g d];
        terms_seq := t_id (new_term r tn g d) |}).
Proof.
  unfold term_refused, add_term_grade. simpl. intros H.
  destruct (is_nan g); [discriminate|].
  destruct (has_term r (strip tn) d); [discriminate|].
  destruct (has_student r d); [reflexivity | discriminate].
Qed.

Lemma find_app_None {A : Type} (f : A -> bool) (l : list A) (x : A) :
  find f l = None -> find f (l ++ [x]) = if f x then Some x else None.
Proof.
  induction l as [|y l IH]; simpl; [reflexivity|].
  destruct (f y); [discriminate | exact IH].
Qed.

Lemma get_student_above r d :
  (forall s, In s (students d) -> s_id s < r) -> get_student r d = None.
Proof.
  intros H. unfold get_student.
  destruct (find _ _) as [s|] eqn:E; [|reflexivity].
  apply find_some in E as [Hin Hr]. apply Z.eqb_eq in Hr.
  specialize (H s Hin). lia.
Qed.

(** The row that [add_student] commits is the one its new rowid reads
    back. *)
Lemma get_student_new sid nm ad cl d :
  has_student_id (strip sid) d = false ->
  let row := new_student sid nm ad cl d in
  get_student (s_id row) d = None
  /\ get_student (s_id row) (snd (add_student sid nm ad cl d)) = Some row.
Proof.
  intros H row.
  assert (Hnone : get_student (s_id row) d = None).
  { apply get_student_above. intros s Hs.
    apply (next_rowid_above s_id _ (students_seq d)) in Hs. exact Hs. }
  split; [exact Hnone|].
  rewrite add_student_committed by exact H. unfold get_student. simpl.
  rewrite find_app_None by exact Hnone.
  fold row. now rewrite Z.eqb_refl.
Qed.

(** A committed insert puts the new record after the student's earlier
    ones and leaves the other students' lists alone. *)
Lemma list_terms_after_add r tn g d r' :
  term_refused r tn g d = false ->
  list_terms_for_student r' (snd (add_term_grade r tn g d))
  = if r =? r' then list_terms_for_student r' d ++ [(strip tn, g)]
    else list_terms_for_student r' d.
Proof.
  intros H. rewrite add_term_grade_committed by exact H.
  unfold list_terms_for_student. simpl. rewrite filter_app. simpl.
  destruct (r =? r'); [|now rewrite app_nil_r].
  rewrite order_by_snoc, map_app; [reflexivity|].
  intros y Hy. apply filter_In in Hy as [Hy _]. simpl.
  apply (next_rowid_above t_id _ (terms_seq d)) in Hy. apply Z.leb_le. lia.
Qed.

(** *** Deletions *)

Lemma filter_filter {A : Type} (f g : A -> bool) (l : list A) :
  filter f (filter g l) = filter (fun x => g x && f x) l.
Proof.
  induction l as [|x l IH]; simpl; [reflexivity|].
  destruct (g x); simpl; [destruct (f x); now rewrite IH | exact IH].
Qed.

Lemma database_eta d :
  {| students := students d; students_seq := students_seq d;
     terms := terms d; terms_seq := terms_seq d |} = d.
Proof. destruct d; reflexivity. Qed.

Lemma deleted_rows_spec r d s' :
  existsb (fun s => s_id s =? s') (filter (fun s => s_id s =? r) (students d))
  = has_student r d && (r =? s').
Proof.
  unfold has_student. induction (students d) as [|s l IH]; simpl; [reflexivity|].
  destruct (s_id s =? r) eqn:E; simpl.
  - apply Z.eqb_eq in E. rewrite E, IH.
    destruct (r =? s'); simpl; [reflexivity | now rewrite andb_false_r].
  - exact IH.
Qed.

(** The rows that the statement of [delete_student] leaves. *)
Lemma cascade_absent r d :
  has_student r d = false ->
  {| students := filter (fun s => negb (s_id s =? r)) (students d);
     students_seq := students_seq d;
     terms := filter (fun t => negb (existsb (fun s => s_id s =? t_student_id t)
                                             (filter (fun s => s_id s =? r)
                                                     (students d))))
                     (terms d);
     terms_seq := terms_seq d |} = d.
Proof.
  intros H.
  rewrite (filter_id _ (students d)), (filter_id _ (terms d)).
  - apply database_eta.
  - intros t _. now rewrite deleted_rows_spec, H.
  - intros s Hs. apply negb_true_iff.
    unfold has_student in H. rewrite existsb_false in H. now apply H.
Qed.

(** Whether the call returns or the rowid is refused, the database
    after it is the one the statement leaves: a refused rowid matches no
    row. *)
Lemma delete_student_snd r d :
  snd (delete_student r d)
  = {| students := filter (fun s => negb (s_id s =? r)) (students d);
       students_seq := students_seq d;
       terms := filter (fun t => negb (existsb (fun s => s_id s =? t_student_id t)
                                               (filter (fun s => s_id s =? r)
                                                       (students d))))
                       (terms d);
       terms_seq := terms_seq d |}.
Proof.
  unfold delete_student.
  destruct (has_student r d) eqn:H; [now rewrite orb_true_r|].
  destruct (fits_int64 r); [reflexivity|].
  simpl. symmetry. now apply cascade_absent.
Qed.

Lemma delete_student_fst r d :
  fst (delete_student r d)
  = if fits_int64 r || has_student r d then Committed else Raised int_too_large.
Proof. unfold delete_student. now destruct (fits_int64 r || has_student r d). Qed.

Lemma delete_student_students r d :
  students (snd (delete_student r d))
  = filter (fun s => negb (s_id s =? r)) (students d).
Proof. now rewrite delete_student_snd. Qed.

Lemma delete_student_terms r d :
  terms (snd (delete_student r d))
  = filter (fun t => negb (has_student r d && (r =? t_student_id t))) (terms d).
Proof.
  rewrite delete_student_snd. simpl.
  apply filter_ext. intros t. now rewrite deleted_rows_spec.
Qed.

Lemma delete_student_seqs r d :
  students_seq (snd (delete_student r d)) = students_seq d
  /\ terms_seq (snd (delete_student r d)) = terms_seq d.
Proof. now rewrite delete_student_snd. Qed.

Lemma list_terms_after_delete_student r d r' :
  list_terms_for_student r' (snd (delete_student r d))
  = if has_student r d && (r =? r') then [] else list_terms_for_student r' d.
Proof.
  unfold list_terms_for_student. rewrite delete_student_terms, filter_filter.
  destruct (has_student r d) eqn:Hs; simpl.
  - destruct (r =? r') eqn:E.
    + apply Z.eqb_eq in E. subst r'. rewrite filter_none; [reflexivity|].
      intros t _. rewrite (Z.eqb_sym r). now destruct (t_student_id t =? r).
    + do 2 f_equal. apply filter_ext. intros t.
      destruct (t_student_id t =? r') eqn:E'; [|apply andb_false_r].
      apply Z.eqb_eq in E'. rewrite E', E. reflexivity.
  - reflexivity.
Qed.

Lemma delete_student_absent r d :
  has_student r d = false ->
  delete_student r d
  = (if fits_int64 r then Committed else Raised int_too_large, d).
Proof.
  intros H. unfold delete_student. rewrite H, orb_false_r.
  destruct (fits_int64 r); [|reflexivity].
  simpl. now rewrite cascade_absent.
Qed.

Lemma term_rows_absent r tn d :
  has_term r tn d = false ->
  filter (fun t => negb (is_term r tn t)) (terms d) = terms d.
Proof.
  intros H. apply filter_id. intros t Ht. apply negb_true_iff.
  unfold has_term in H. rewrite existsb_false in H. now apply H.
Qed.

Lemma delete_term_snd r tn d :
  snd (delete_term r tn d)
  = {| students := students d;
       students_seq := students_seq d;
       terms := filter (fun t => negb (is_term r tn t)) (terms d);
       terms_seq := terms_seq d |}.
Proof.
  unfold delete_term.
  destruct (has_term r tn d) eqn:H; [now rewrite orb_true_r|].
  destruct (fits_int64 r); [reflexivity|].
  simpl. rewrite term_rows_absent by exact H. symmetry. apply database_eta.
Qed.

Lemma delete_term_fst r tn d :
  fst (delete_term r tn d)
  = if fits_int64 r || has_term r tn d then Committed else Raised int_too_large.
Proof. unfold delete_term. now destruct (fits_int64 r || has_term r tn d). Qed.

Lemma delete_term_absent r tn d :
  has_term r tn d = false ->
  delete_term r tn d
  = (if fits_int64 r then Committed else Raised int_too_large, d).
Proof.
  intros H. unfold delete_term. rewrite H, orb_false_r.
  destruct (fits_int64 r); [|reflexivity].
  rewrite term_rows_absent by exact H. now rewrite database_eta.
Qed.

(** *** The search with an empty text *)

Lemma like_percent_percent (s : string) : like "%%" s = true.
Proof.
  unfold like. change (c_str "%%") with "%%".
  rewrite like_any, like_percent_all. reflexivity.
Qed.

Lemma find_filter_other (r r' : Z) (l : list student) :
  r' <> r ->
  find (fun s => s_id s =? r') (filter (fun s => negb (s_id s =? r)) l)
  = find (fun s => s_id s =? r') l.
Proof.
  intros Hne. induction l as [|s l IH]; simpl; [reflexivity|].
  destruct (s_id s =? r) eqn:E; simpl.
  - apply Z.eqb_eq in E. rewrite E.
    destruct (r =? r') eqn:E'; [apply Z.eqb_eq in E'; congruence | exact IH].
  - destruct (s_id s =? r'); [reflexivity | exact IH].
Qed.

(** *** The constraints of the schema hold in every reachable state *)

Lemma NoDup_snoc {A : Type} (l : list A) (x : A) :
  NoDup l -> ~ In x l -> NoDup (l ++ [x]).
Proof.
  intros Hl Hx. apply (Permutation_NoDup (Permutation_cons_append l x)).
  now constructor.
Qed.

(** Deleting rows keeps a key column free of duplicates. *)
Lemma keys_unique_after_delete {R K : Type} (key : R -> K) (keep : R -> bool)
  (rows : list R) :
  NoDup (map key rows) -> NoDup (map key (filter keep rows)).
Proof.
  induction rows as [|row rows IH]; simpl; intros Hnd; [constructor|].
  inversion Hnd as [|? ? Hfresh Hrest]; subst.
  destruct (keep row); simpl; [|now apply IH].
  constructor; [|now apply IH].
  intros Hin. apply Hfresh. apply in_map_iff in Hin as (y & Hy & Hin).
  apply filter_In in Hin as [Hin _]. apply in_map_iff. now exists y.
Qed.

Lemma schema_ok_init : schema_ok init_schema.
Proof. constructor; simpl; try constructor; intros t []. Qed.

Lemma has_student_app r d row sq :
  has_student r d = true ->
  has_student r {| students := students d ++ [row]; students_seq := sq;
                   terms := terms d; terms_seq := terms_seq d |} = true.
Proof.
  unfold has_student. simpl. rewrite existsb_app. now intros ->.
Qed.

Lemma schema_ok_add_student sid nm ad cl d :
  schema_ok d -> schema_ok (snd (add_student sid nm ad cl d)).
Proof.
  intros [H1 H2 H3 H4 H5 H6].
  destruct (has_student_id (strip sid) d) eqn:E.
  - rewrite add_student_raised by exact E. now constructor.
  - rewrite add_student_committed by exact E.
    constructor; simpl; auto.
    + rewrite map_app. apply NoDup_snoc; [exact H1|].
      intros Hin. apply in_map_iff in Hin as (s & Hs & Hin).
      apply (next_rowid_above s_id _ (students_seq d)) in Hin.
      simpl in Hs. lia.
    + rewrite map_app. apply NoDup_snoc; [exact H2|].
      intros Hin. apply in_map_iff in Hin as (s & Hs & Hin). simpl in Hs.
      assert (has_student_id (strip sid) d = true)
        by (apply has_student_id_spec; now exists s).
      congruence.
    + intros t Ht. apply has_student_app. now apply H5.
Qed.

Lemma schema_ok_add_term_grade r tn g d :
  schema_ok d -> schema_ok (snd (add_term_grade r tn g d)).
Proof.
  intros [H1 H2 H3 H4 H5 H6].
  destruct (term_refused r tn g d) eqn:E.
  - destruct (add_term_grade_raised r tn g d E) as [msg ->]. now constructor.
  - rewrite add_term_grade_committed by exact E.
    unfold term_refused in E.
    apply orb_false_iff in E as [E E3]. apply orb_false_iff in E as [E1 E2].
    apply negb_false_iff in E3.
    constructor; simpl; auto.
    + rewrite map_app. apply NoDup_snoc; [exact H3|].
      intros Hin. apply in_map_iff in Hin as (t & Ht & Hin).
      apply (next_rowid_above t_id _ (terms_seq d)) in Hin.
      simpl in Ht. lia.
    + rewrite map_app. apply NoDup_snoc; [exact H4|].
      intros Hin. apply in_map_iff in Hin as (t & Ht & Hin).
      unfold term_key in Ht. simpl in Ht. injection Ht as Ht1 Ht2.
      assert (has_term r (strip tn) d = true)
        by (apply has_term_spec; now exists t).
      congruence.
    + intros t Ht. apply in_app_iff in Ht as [Ht | [<- | []]].
      * now apply H5.
      * exact E3.
    + intros t Ht. apply in_app_iff in Ht as [Ht | [<- | []]].
      * now apply H6.
      * exact E1.
Qed.

Lemma schema_ok_delete_term r tn d :
  schema_ok d -> schema_ok (snd (delete_term r tn d)).
Proof.
  intros [H1 H2 H3 H4 H5 H6]. rewrite delete_term_snd.
  constructor; simpl; auto.
  - now apply keys_unique_after_delete.
  - now apply keys_unique_after_delete.
  - intros t Ht. apply filter_In in Ht as [Ht _]. now apply H5.
  - intros t Ht. apply filter_In in Ht as [Ht _]. now apply H6.
Qed.

Lemma schema_ok_delete_student r d :
  schema_ok d -> schema_ok (snd (delete_student r d)).
Proof.
  intros [H1 H2 H3 H4 H5 H6]. constructor.
  - rewrite delete_student_students. now apply keys_unique_after_delete.
  - rewrite delete_student_students. now apply keys_unique_after_delete.
  - rewrite delete_student_terms. now apply keys_unique_after_delete.
  - rewrite delete_student_terms. now apply keys_unique_after_delete.
  - intros t Ht. rewrite delete_student_terms in Ht.
    apply filter_In in Ht as [Ht Hkeep]. apply negb_true_iff in Hkeep.
    specialize (H5 t Ht). apply has_student_spec in H5 as (s & Hs & Hid).
    apply has_student_spec. exists s. split; [|exact Hid].
    rewrite delete_student_students. apply filter_In. split; [exact Hs|].
    apply negb_true_iff, Z.eqb_neq. intros Hr.
    assert (Hhas : has_student r d = true)
      by (apply has_student_spec; now exists s).
    rewrite Hhas in Hkeep. simpl in Hkeep. apply Z.eqb_neq in Hkeep. congruence.
  - intros t Ht. rewrite delete_student_terms in Ht.
    apply filter_In in Ht as [Ht _]. now apply H6.
Qed.

Lemma reachable_schema_ok d : reachable d -> schema_ok d.
Proof.
  induction 1.
  - apply schema_ok_init.
  - now apply schema_ok_add_student.
  - now apply schema_ok_delete_student.
  - now apply schema_ok_add_term_grade.
  - now apply schema_ok_delete_term.
Qed.

Lemma reachable_stripped_keys d : reachable d -> stripped_keys d.
Proof.
  induction 1 as [|sid nm ad cl d _ [IHs IHt]|r d _ [IHs IHt]
                  |r tn g d _ [IHs IHt]|r tn d _ [IHs IHt]].
  - split; intros x [].
  - destruct (has_student_id (strip sid) d) eqn:E.
    + rewrite add_student_raised by exact E. now split.
    + rewrite add_student_committed by exact E. split; [|exact IHt].
      simpl. intros s Hs. apply in_app_iff in Hs as [Hs | [<- | []]].
      * now apply IHs.
      * apply strip_idempotent.
  - split.
    + intros s Hs. rewrite delete_student_students in Hs.
      apply filter_In in Hs as [Hs _]. now apply IHs.
    + intros t Ht. rewrite delete_student_terms in Ht.
      apply filter_In in Ht as [Ht _]. now apply IHt.
  - destruct (term_refused r tn g d) eqn:E.
    + destruct (add_term_grade_raised r tn g d E) as [msg ->]. now split.
    + rewrite add_term_grade_committed by exact E. split; [exact IHs|].
      simpl. intros t Ht. apply in_app_iff in Ht as [Ht | [<- | []]].
      * now apply IHt.
      * apply strip_idempotent.
  - rewrite delete_term_snd. split; [exact IHs|].
    intros t Ht. simpl in Ht. apply filter_In in Ht as [Ht _]. now apply IHt.
Qed.

(** Under [UNIQUE(student_id, term_name)] a pair that is present is
    present once. *)
Lemma unique_term_once r tn (l : list term) :
  NoDup (map term_key l) -> existsb (is_term r tn) l = true ->
  List.length (filter (is_term r tn) l) = 1%nat.
Proof.
  induction l as [|t l IH]; simpl; intros Hnd Hex; [discriminate|].
  inversion Hnd as [|? ? Hx Hl]; subst.
  destruct (is_term r tn t) eqn:E; simpl.
  - rewrite filter_none; [reflexivity|].
    intros t' Ht'. destruct (is_term r tn t') eqn:E'; [|reflexivity].
    exfalso. apply Hx. apply in_map_iff. exists t'. split; [|exact Ht'].
    apply is_term_spec in E as [<- <-]. apply is_term_spec in E' as [E1 E2].
    unfold term_key. now rewrite E1, E2.
  - now apply IH.
Qed.

(** *** The grouped query of [class_stats] *)

Lemma class_stats_rows c d :
  fst (class_stats c d) = map (stat_of d) (list_students_by_class c d).
Proof.
  unfold class_stats, list_students_by_class. simpl.
  apply order_by_map. reflexivity.
Qed.

Lemma student_gpas_perm s d :
  Permutation (student_gpas (s_id s) d) (values (map t_gpa (joined_terms s d))).
Proof.
  unfold student_gpas, list_terms_for_student, joined_terms, values.
  rewrite map_map. simpl.
  apply Permutation_flat_map, Permutation_map.
  eapply perm_trans; [apply order_by_perm|].
  apply Permutation_sym, order_by_perm.
Qed.

Lemma list_terms_length r d :
  List.length (list_terms_for_student r d)
  = List.length (filter (fun t => t_student_id t =? r) (terms d)).
Proof.
  unfold list_terms_for_student. now rewrite length_map, order_by_length.
Qed.

Lemma joined_terms_length s d :
  List.length (joined_terms s d)
  = List.length (list_terms_for_student (s_id s) d).
Proof.
  unfold joined_terms. now rewrite order_by_length, list_terms_length.
Qed.

Lemma joined_in_range s d :
  gpas_in_range d ->
  Forall (fun x => in_rangeb x = true) (map t_gpa (joined_terms s d)).
Proof.
  unfold gpas_in_range, joined_terms. rewrite !Forall_forall.
  intros H x Hx. apply in_map_iff in Hx as (t & <- & Ht).
  apply order_by_In, filter_In in Ht as [Ht _]. now apply H.
Qed.

(** One row of the grouped query, for GPAs within [0.0, 4.0]: the term
    count, and NULL for a student without terms or a number within the
    range and near the mean of the student's GPAs. *)
Lemma stat_of_spec s d :
  gpas_in_range d ->
  r_term_count (stat_of d s) = List.length (list_terms_for_student (s_id s) d)
  /\ near (r_term_count (stat_of d s)) (r_avg_gpa (stat_of d s))
          (student_mean (s_id s) d)
  /\ match r_avg_gpa (stat_of d s) with
     | Some g => in_rangeb g = true
                 /\ list_terms_for_student (s_id s) d <> []
     | None => list_terms_for_student (s_id s) d = []
     end.
Proof.
  intros Hok.
  pose proof (joined_terms_length s d) as Hlen.
  pose proof (student_gpas_perm s d) as Hperm.
  pose proof (joined_in_range s d Hok) as Hall.
  split; [exact Hlen|].
  unfold stat_of, student_mean. cbn [r_avg_gpa r_term_count].
  rewrite <- (length_map t_gpa (joined_terms s d)).
  rewrite <- (length_map t_gpa (joined_terms s d)) in Hlen.
  set (xs := map t_gpa (joined_terms s d)) in *.
  destruct xs as [|x xs'] eqn:E.
  - apply Permutation_sym, Permutation_nil in Hperm. rewrite Hperm.
    split; [exact I|]. simpl.
    destruct (list_terms_for_student (s_id s) d); [reflexivity | discriminate].
  - rewrite <- E in *.
    assert (Hne : xs <> []) by (rewrite E; discriminate).
    destruct (Rounding.float_mean_near xs Hne Hall) as (a & Ha & Ha0 & Ha4 & H1 & H2).
    assert (Havg : sql_avg xs = Some (Fin a)).
    { unfold sql_avg. rewrite E. rewrite <- E. now rewrite Ha. }
    rewrite Havg.
    assert (Hmean : (mean (student_gpas (s_id s) d) == mean (values xs))%Q)
      by now apply mean_perm.
    split.
    + destruct (student_gpas (s_id s) d) as [|q qs] eqn:Eg.
      * apply Permutation_nil in Hperm.
        destruct (Rounding.values_in_range xs Hall) as [Hxs _].
        rewrite Hperm in Hxs. now rewrite Hxs in Hne.
      * simpl. rewrite Hmean. split; assumption.
    + split; [now apply Rounding.value_range|].
      intros Hnil. rewrite Hnil, E in Hlen. discriminate.
Qed.

(** The list [gpas] of [class_stats]: numbers within the range, one for
    each student with a term. *)
Lemma reported_in_range d (l : list student) :
  gpas_in_range d ->
  Forall (fun x => in_rangeb x = true) (not_none_gpas (map (stat_of d) l))
  /\ List.length (not_none_gpas (map (stat_of d) l))
     = List.length (filter (fun s => (0 <? List.length
                                            (list_terms_for_student (s_id s) d))%nat)
                           l).
Proof.
  intros Hok. unfold not_none_gpas.
  induction l as [|s l [IH1 IH2]]; simpl; [split; [constructor | reflexivity]|].
  destruct (stat_of_spec s d Hok) as (_ & _ & H).
  change (sql_avg (map t_gpa (joined_terms s d))) with (r_avg_gpa (stat_of d s)).
  destruct (r_avg_gpa (stat_of d s)) as [g|].
  - destruct H as [Hg Hne]. split.
    + now constructor.
    + destruct (list_terms_for_student (s_id s) d); [congruence|].
      simpl. now rewrite IH2.
  - rewrite H. simpl. split; assumption.
Qed.

(** The aggregates of [class_stats], for GPAs within [0.0, 4.0]. *)
Lemma class_stats_snd c d :
  let rows := fst (class_stats c d) in
  snd (class_stats c d)
  = {| count_students := List.length rows;
       count_with_terms := List.length (not_none_gpas rows);
       avg_gpa := match not_none_gpas rows with
                  | [] => None
                  | _ => Some (div_len (sum (not_none_gpas rows))
                                       (List.length (not_none_gpas rows)))
                  end;
       min_gpa := match not_none_gpas rows with
                  | [] => None
                  | g :: gs => Some (min_from g gs)
                  end;
       max_gpa := match not_none_gpas rows with
                  | [] => None
                  | g :: gs => Some (max_from g gs)
                  end |}.
Proof. reflexivity. Qed.

Lemma class_stats_overall c d :
  gpas_in_range d ->
  let rows := fst (class_stats c d) in
  let o := snd (class_stats c d) in
  count_with_terms o = List.length (reported_means rows)
  /\ (forall x, In x (reported_means rows) -> (0 <= x)%Q /\ (x <= 4)%Q)
  /\ near (count_with_terms o) (avg_gpa o) (mean_opt (reported_means rows))
  /\ is_least (min_gpa o) (reported_means rows)
  /\ is_greatest (max_gpa o) (reported_means rows)
  /\ match avg_gpa o with Some g => in_rangeb g = true | None => True end.
Proof.
  intros Hok rows o.
  assert (Hrows : rows = map (stat_of d) (list_students_by_class c d))
    by apply class_stats_rows.
  destruct (reported_in_range d (list_students_by_class c d) Hok) as [Hall _].
  rewrite <- Hrows in Hall.
  destruct (Rounding.values_in_range _ Hall) as [Hqs Hval].
  fold (reported_means rows) in Hqs, Hval.
  assert (Ho : o = _) by apply class_stats_snd. fold rows in Ho.
  assert (Hlen : List.length (not_none_gpas rows)
                 = List.length (reported_means rows)).
  { rewrite Hqs at 1. apply length_map. }
  split; [rewrite Ho; exact Hlen|]. split; [exact Hval|].
  rewrite Ho. cbn [count_with_terms avg_gpa min_gpa max_gpa]. clear Ho.
  destruct (not_none_gpas rows) as [|g gs] eqn:Eg.
  { destruct (reported_means rows); [|discriminate]. repeat split; reflexivity. }
  assert (Hne : g :: gs <> []) by discriminate.
  assert (Hv : values (g :: gs) = reported_means rows).
  { unfold reported_means. now rewrite Eg. }
  destruct (Rounding.float_mean_near (g :: gs) Hne Hall)
    as (a & Ha & Ha0 & Ha4 & Ha1 & Ha2).
  rewrite Hv in Ha1, Ha2. rewrite Ha. clear Ha Hv.
  destruct (reported_means rows) as [|q qs] eqn:Eq; [discriminate|].
  injection Hqs as -> ->.
  split; [simpl; split; assumption|].
  split; [|split].
  - destruct (min_from_fin q qs) as (r & Hr & Hmem & Hle).
    exists r. split; [now rewrite Hr|]. split; [|exact Hle].
    exists r. split; [exact Hmem | reflexivity].
  - destruct (max_from_fin q qs) as (r & Hr & Hmem & Hle).
    exists r. split; [now rewrite Hr|]. split; [|exact Hle].
    exists r. split; [exact Hmem | reflexivity].
  - now apply Rounding.value_range.
Qed.

End StoreFacts.

(** ** The properties of the store *)

Module StoreProperties.
Import Text TextFacts FloatFacts StoreFacts.

(** C8.  For every class name and every database, the search with an
    empty text returns the same students in the same order as
    [list_students_by_class]. *)
Theorem empty_search_is_listing (class_name : string) (d : database) :
  search_students_by_class_like class_name "" d
  = Rows (list_students_by_class class_name d).
Proof.
  unfold search_students_by_class_like, list_students_by_class.
  change ("%" ++ strip "" ++ "%")%string with "%%".
  change (like_pattern_limit <? utf8_length "%%") with false.
  cbn [andb]. do 2 f_equal. apply filter_ext. intros s.
  rewrite like_percent_percent. apply andb_true_r.
Qed.

(** C6, as amended.  [delete_term] with a pair that matches no term
    record, and [delete_student] with a rowid that matches no student,
    leave the whole database as it was; they return normally when the
    rowid fits 64 bits, and raise [OverflowError] when it does not. *)
Theorem delete_absent_changes_nothing (d : database) :
  (forall r tn,
      has_term r tn d = false ->
      delete_term r tn d
      = (if fits_int64 r then Committed else Raised int_too_large, d))
  /\ (forall r,
        has_student r d = false ->
        delete_student r d
        = (if fits_int64 r then Committed else Raised int_too_large, d)).
Proof.
  split.
  - intros r tn. apply delete_term_absent.
  - intros r. apply delete_student_absent.
Qed.

Lemma delete_absent_changes_nothing_witness :
  has_term 1 "T9" class_a = false
  /\ has_student 7 class_a = false
  /\ delete_term 1 "T9" class_a = (Committed, class_a)
  /\ delete_student 7 class_a = (Committed, class_a).
Proof.
  split; [reflexivity|]. split; [reflexivity|]. split.
  - apply (proj1 (delete_absent_changes_nothing class_a) 1 "T9"). reflexivity.
  - apply (proj2 (delete_absent_changes_nothing class_a) 7). reflexivity.
Defined.

(** C6, the claim as stated fails.  The rowid [2 ^ 63] matches no
    student and no term record of [class_a], and both deletes raise
    instead of returning. *)
Lemma delete_absent_can_raise :
  has_student (2 ^ 63) class_a = false
  /\ has_term (2 ^ 63) "T1" class_a = false
  /\ delete_student (2 ^ 63) class_a
     = (Raised (OverflowError "Python int too large to convert to SQLite INTEGER"),
        class_a)
  /\ delete_term (2 ^ 63) "T1" class_a
     = (Raised (OverflowError "Python int too large to convert to SQLite INTEGER"),
        class_a).
Proof. repeat split. Qed.

(** C4.  Deleting a student that is in the store returns normally; the
    student can no longer be read and is in no class listing; none of
    its term records remains, so its term list is empty; the term lists
    and the records of the other students are as before. *)
Theorem delete_student_cascades (d : database) (r : Z) :
  has_student r d = true ->
  let d' := snd (delete_student r d) in
  fst (delete_student r d) = Committed
  /\ get_student r d' = None
  /\ (forall c, ~ In r (map s_id (list_students_by_class c d')))
  /\ (forall t, In t (terms d') -> t_student_id t <> r)
  /\ list_terms_for_student r d' = []
  /\ (forall r', r' <> r ->
        list_terms_for_student r' d' = list_terms_for_student r' d
        /\ get_student r' d' = get_student r' d).
Proof.
  intros Hr d'. subst d'.
  split; [now rewrite delete_student_fst, Hr, orb_true_r|].
  assert (Hgone : forall s, In s (students (snd (delete_student r d))) -> s_id s <> r).
  { intros s Hs. rewrite delete_student_students in Hs.
    apply filter_In in Hs as [_ Hs]. now apply negb_true_iff, Z.eqb_neq in Hs. }
  split.
  { unfold get_student. destruct (find _ _) as [s|] eqn:E; [|reflexivity].
    apply find_some in E as [Hin Hid]. apply Z.eqb_eq in Hid.
    now apply Hgone in Hin. }
  split.
  { intros c Hin. apply in_map_iff in Hin as (s & Hid & Hin).
    unfold list_students_by_class in Hin. apply order_by_In in Hin.
    apply filter_In in Hin as [Hin _]. now apply Hgone in Hin. }
  split.
  { intros t Ht. rewrite delete_student_terms, Hr in Ht.
    apply filter_In in Ht as [_ Ht]. simpl in Ht.
    apply negb_true_iff, Z.eqb_neq in Ht. congruence. }
  split.
  { rewrite list_terms_after_delete_student, Hr, Z.eqb_refl. reflexivity. }
  intros r' Hne. split.
  - rewrite list_terms_after_delete_student, Hr.
    destruct (r =? r') eqn:E; [apply Z.eqb_eq in E; congruence | reflexivity].
  - unfold get_student. rewrite delete_student_students.
    now apply find_filter_other.
Qed.

Lemma delete_student_cascades_witness :
  has_student 1 class_a = true
  /\ list_terms_for_student 1 class_a = [("T1", Fin 3)]
  /\ list_terms_for_student 1 (snd (delete_student 1 class_a)) = []
  /\ get_student 1 (snd (delete_student 1 class_a)) = None.
Proof.
  split; [reflexivity|]. split; [reflexivity|].
  pose proof (delete_student_cascades class_a 1 eq_refl) as H.
  split; [apply H | apply H].
Defined.

(** C3.  [add_student] with an external id that a stored student has,
    and [add_term_grade] with a student and term name that a stored term
    record has, raise [IntegrityError] and leave the database, students
    and term records, exactly as it was; in a reachable state exactly
    one record with that student and term name is there after the
    refused insert, and the same holds right after a first insert of the
    pair.  The key compared is the stripped argument; in a reachable
    state every stored key is its own stripped form, so a key presented
    as it is stored is a duplicate. *)
Theorem duplicate_keys_are_refused (d : database) :
  (forall sid nm ad cl,
      has_student_id (strip sid) d = true ->
      exists msg, add_student sid nm ad cl d = (Raised (IntegrityError msg), d))
  /\ (forall r tn g,
        has_term r (strip tn) d = true ->
        exists msg, add_term_grade r tn g d = (Raised (IntegrityError msg), d))
  /\ (forall r tn g,
        reachable d -> has_term r (strip tn) d = true ->
        List.length (filter (is_term r (strip tn))
                            (terms (snd (add_term_grade r tn g d)))) = 1%nat)
  /\ (forall r tn g g',
        term_refused r tn g d = false ->
        let d1 := snd (add_term_grade r tn g d) in
        (exists msg, add_term_grade r tn g' d1 = (Raised (IntegrityError msg), d1))
        /\ List.length (filter (is_term r (strip tn)) (terms d1)) = 1%nat)
  /\ (reachable d ->
      (forall sid, has_student_id sid d = true -> strip sid = sid)
      /\ (forall r tn, has_term r tn d = true -> strip tn = tn)).
Proof.
  assert (Hdup : forall r tn g d0, has_term r (strip tn) d0 = true ->
            exists msg, add_term_grade r tn g d0 = (Raised (IntegrityError msg), d0)).
  { intros r tn g d0 H. apply add_term_grade_raised. unfold term_refused.
    rewrite H. now destruct (is_nan g). }
  split; [|split; [|split; [|split]]].
  - intros sid nm ad cl H. eexists. now apply add_student_raised.
  - intros r tn g. apply Hdup.
  - intros r tn g Hreach H. destruct (Hdup r tn g d H) as [msg ->]. simpl.
    apply unique_term_once; [|exact H].
    apply (uq_term d). now apply reachable_schema_ok.
  - intros r tn g g' H d1. subst d1.
    rewrite (add_term_grade_committed r tn g d H).
    unfold term_refused in H.
    apply orb_false_iff in H as [H _]. apply orb_false_iff in H as [_ H].
    assert (Hnew : is_term r (strip tn) (new_term r tn g d) = true)
      by (apply is_term_spec; now split).
    split.
    + apply Hdup. unfold has_term. simpl. rewrite existsb_app. simpl.
      rewrite Hnew. now rewrite orb_true_r.
    + simpl. rewrite filter_app, length_app. simpl. rewrite Hnew.
      rewrite filter_none; [reflexivity|].
      unfold has_term in H. now apply existsb_false.
  - intros Hreach. destruct (reachable_stripped_keys d Hreach) as [Hs Ht]. split.
    + intros sid H. apply has_student_id_spec in H as (s & Hin & <-).
      now apply Hs.
    + intros r tn H. apply has_term_spec in H as (t & Hin & _ & <-).
      now apply Ht.
Qed.

Lemma reachable_class_a : reachable class_a.
Proof. unfold class_a, alice_bob, then_. repeat constructor. Qed.

Lemma duplicate_keys_are_refused_witness :
  has_student_id (strip " S1 ") class_a = true
  /\ has_term 1 (strip "T1 ") class_a = true
  /\ snd (add_student " S1 " "Dan" "" "B" class_a) = class_a
  /\ snd (add_term_grade 1 "T1 " (Fin 2) class_a) = class_a
  /\ List.length (filter (is_term 1 (strip "T1 "))
                         (terms (snd (add_term_grade 1 "T1 " (Fin 2) class_a))))
     = 1%nat.
Proof.
  split; [reflexivity|]. split; [reflexivity|].
  destruct (duplicate_keys_are_refused class_a) as (H1 & H2 & H3 & _).
  split; [|split].
  - destruct (H1 " S1 " "Dan" "" "B" eq_refl) as [msg ->]. reflexivity.
  - destruct (H2 1 "T1 " (Fin 2) eq_refl) as [msg ->]. reflexivity.
  - apply H3; [apply reachable_class_a | reflexivity].
Defined.

(** C10.  [add_student] and [add_term_grade] store their string
    arguments stripped of leading and trailing whitespace.  When the
    insert is not refused, the new rowid reads back the student record
    with the four stripped strings, and the student's term list ends
    with the stripped term name; a refused insert changes nothing.
    [strip s] is [s] without a leading and a trailing run of whitespace
    and has no whitespace at either end. *)
Theorem inserts_store_stripped_text :
  (forall sid nm ad cl d,
      if has_student_id (strip sid) d
      then snd (add_student sid nm ad cl d) = d
      else exists row_id,
          fst (add_student sid nm ad cl d) = Committed
          /\ get_student row_id d = None
          /\ get_student row_id (snd (add_student sid nm ad cl d))
             = Some {| s_id := row_id;
                       s_student_id := strip sid;
                       s_name := strip nm;
                       s_address := strip ad;
                       s_class_name := strip cl |})
  /\ (forall r tn g d,
        if term_refused r tn g d
        then snd (add_term_grade r tn g d) = d
        else fst (add_term_grade r tn g d) = Committed
             /\ list_terms_for_student r (snd (add_term_grade r tn g d))
                = list_terms_for_student r d ++ [(strip tn, g)])
  /\ (forall s, exists l r,
        s = (l ++ strip s ++ r)%string
        /\ all_space l = true /\ all_space r = true
        /\ not_space_opt (head_char (strip s)) = true
        /\ not_space_opt (last_char (strip s)) = true).
Proof.
  split; [|split].
  - intros sid nm ad cl d. destruct (has_student_id (strip sid) d) eqn:E.
    + now rewrite add_student_raised.
    + exists (s_id (new_student sid nm ad cl d)).
      destruct (get_student_new sid nm ad cl d E) as [H1 H2].
      split; [now rewrite add_student_committed|]. split; assumption.
  - intros r tn g d. destruct (term_refused r tn g d) eqn:E.
    + now destruct (add_term_grade_raised r tn g d E) as [msg ->].
    + split; [now rewrite add_term_grade_committed|].
      rewrite list_terms_after_add by exact E. now rewrite Z.eqb_refl.
  - apply strip_spec.
Qed.

(** C1, as amended.  When every stored GPA lies within 0.0 and 4.0,
    [class_stats] returns one row per student of the class, in the order
    of the class listing, with the number of the student's term records
    and, when the student has one, a number no further from the mean of
    their GPAs than the rounding of the additions and of the division
    allows, no value otherwise; and it reports the number of students,
    the number of students with at least one term record, a number that
    near to the mean of the reported per-student means, their least and
    their greatest, all three absent when no student of the class has a
    term record.  For the class with single-term GPAs 3.0 and 4.0 and a
    student without terms it reports 3, 2, 3.5, 3.0 and 4.0. *)
Theorem class_stats_reports_means :
  (forall c d,
      gpas_in_range d ->
      let rows := fst (class_stats c d) in
      let o := snd (class_stats c d) in
      let members := list_students_by_class c d in
      map r_id rows = map s_id members
      /\ map r_name rows = map s_name members
      /\ Forall (fun r =>
                   r_term_count r
                   = List.length (list_terms_for_student (r_id r) d)
                   /\ near (r_term_count r) (r_avg_gpa r)
                           (student_mean (r_id r) d)) rows
      /\ count_students o = List.length members
      /\ count_with_terms o
         = List.length
             (filter (fun s => (0 <? List.length
                                       (list_terms_for_student (s_id s) d))%nat)
                     members)
      /\ count_with_terms o = List.length (reported_means rows)
      /\ near (count_with_terms o) (avg_gpa o) (mean_opt (reported_means rows))
      /\ is_least (min_gpa o) (reported_means rows)
      /\ is_greatest (max_gpa o) (reported_means rows)
      /\ ((forall s, In s members -> list_terms_for_student (s_id s) d = []) ->
          avg_gpa o = None /\ min_gpa o = None /\ max_gpa o = None))
  /\ snd (class_stats "A" class_a)
     = {| count_students := 3;
          count_with_terms := 2;
          avg_gpa := Some (Fin (7 # 2));
          min_gpa := Some (Fin 3);
          max_gpa := Some (Fin 4) |}.
Proof.
  split; [|reflexivity].
  intros c d Hok rows o members.
  assert (Hrows : rows = map (stat_of d) members) by apply class_stats_rows.
  destruct (reported_in_range d members Hok) as [_ Hcount].
  rewrite <- Hrows in Hcount.
  destruct (class_stats_overall c d Hok) as (H6 & _ & H7 & H8 & H9 & _).
  fold rows o in H6, H7, H8, H9.
  assert (Hcw : count_with_terms o = List.length (not_none_gpas rows))
    by reflexivity.
  split; [rewrite Hrows, !map_map; reflexivity|].
  split; [rewrite Hrows, !map_map; reflexivity|].
  split.
  { rewrite Hrows. apply Forall_forall. intros r Hr.
    apply in_map_iff in Hr as (s & <- & _).
    destruct (stat_of_spec s d Hok) as (H1 & H2 & _). now split. }
  split; [change (count_students o) with (List.length rows);
          rewrite Hrows; apply length_map|].
  split; [now rewrite Hcw|].
  split; [exact H6|]. split; [exact H7|]. split; [exact H8|]. split; [exact H9|].
  intros Hnone.
  assert (Hzero : count_with_terms o = 0%nat).
  { rewrite Hcw, Hcount. rewrite filter_none; [reflexivity|].
    intros s Hs. now rewrite (Hnone s Hs). }
  rewrite Hzero in H6.
  destruct (reported_means rows); [|discriminate].
  unfold is_least in H8. unfold is_greatest in H9.
  unfold near, mean_opt in H7.
  destruct (avg_gpa o) as [[| | |]|]; try contradiction.
  now rewrite H8, H9.
Qed.

Lemma class_stats_reports_means_witness :
  gpas_in_range class_a
  /\ count_with_terms (snd (class_stats "A" class_a))
     = List.length (reported_means (fst (class_stats "A" class_a)))
  /\ near (count_with_terms (snd (class_stats "A" class_a)))
          (avg_gpa (snd (class_stats "A" class_a)))
          (mean_opt (reported_means (fst (class_stats "A" class_a))))
  /\ is_least (min_gpa (snd (class_stats "A" class_a)))
              (reported_means (fst (class_stats "A" class_a))).
Proof.
  assert (H : gpas_in_range class_a) by (repeat constructor).
  split; [exact H|].
  pose proof (proj1 class_stats_reports_means "A" class_a H) as P.
  cbv zeta in P.
  destruct P as (_ & _ & _ & _ & _ & P6 & P7 & P8 & _).
  split; [exact P6 | split; [exact P7 | exact P8]].
Defined.

(** C1, the claim as stated fails.  For the terms 0.1, 0.2 and 0.3 the
    reported mean is not the mean of the three GPAs: each addition and
    the division round.  For the terms inf and -inf the student has two
    term records and no mean, and the class has no aggregate. *)
Lemma class_stats_mean_is_rounded :
  (exists row, fst (class_stats "A" tenths) = [row]
               /\ r_term_count row = 3%nat
               /\ ~ same_value (r_avg_gpa row) (student_mean 1 tenths))
  /\ (exists row, fst (class_stats "A" infinities) = [row]
                  /\ r_term_count row = 2%nat
                  /\ r_avg_gpa row = None
                  /\ avg_gpa (snd (class_stats "A" infinities)) = None).
Proof.
  split.
  - eexists. split; [vm_compute; reflexivity|]. split; [reflexivity|].
    intros H. vm_compute in H. discriminate H.
  - eexists. split; [vm_compute; reflexivity|]. repeat split.
Qed.

(** C5, as amended.  When the stripped search text has no [%], no [_]
    and no U+0000 and is at most 49998 bytes long in UTF-8,
    [search_students_by_class_like] returns exactly the students of the
    class whose name or external id, read up to its first U+0000,
    contains the stripped text up to ASCII case, each once, ordered by
    name.  Among Alice (S1) and Bob (S2) the text b selects Bob and the
    text S1 selects Alice. *)
Theorem search_selects_substring_matches :
  (forall c q d,
      no_wildcard (strip q) = true -> no_nul (strip q) = true ->
      utf8_length (strip q) <= 49998 ->
      exists found,
        search_students_by_class_like c q d = Rows found
        /\ (forall s, In s found
                      <-> In s (students d) /\ s_class_name s = c
                          /\ matches_text (strip q) s)
        /\ Permutation found
             (filter (fun s => (s_class_name s =? c)%string
                               && matches_textb (strip q) s)
                     (students d))
        /\ Sorted (fun a b => String.leb (s_name a) (s_name b) = true) found)
  /\ (forall q s,
        no_nul (s_name s) = true -> no_nul (s_student_id s) = true ->
        (matches_text q s <-> matches q s))
  /\ (exists found, search_students_by_class_like "A" "b" alice_bob = Rows found
                    /\ map s_name found = ["Bob"])
  /\ (exists found, search_students_by_class_like "A" "S1" alice_bob = Rows found
                    /\ map s_name found = ["Alice"]).
Proof.
  split; [|split; [|split; eexists; split; reflexivity]].
  2:{ intros q s H1 H2. unfold matches_text, matches.
      now rewrite !c_str_no_nul by assumption. }
  intros c q d Hq Hz Hlen. unfold search_students_by_class_like.
  assert (Hshort : (like_pattern_limit <? utf8_length ("%" ++ strip q ++ "%"))
                   = false).
  { apply Z.ltb_ge. rewrite utf8_length_pattern. unfold like_pattern_limit. lia. }
  rewrite Hshort. cbn [andb]. eexists. split; [reflexivity|].
  assert (Hlike : forall s,
             like ("%" ++ strip q ++ "%") (s_name s)
             || like ("%" ++ strip q ++ "%") (s_student_id s)
             = matches_textb (strip q) s).
  { intros s. unfold matches_textb. now rewrite !like_contains_c_str. }
  split; [|split].
  - intros s. rewrite order_by_In, filter_In, andb_true_iff, String.eqb_eq.
    rewrite Hlike. unfold matches_textb, matches_text, contains_nocase.
    rewrite orb_true_iff, !containsb_spec. tauto.
  - eapply perm_trans; [apply order_by_perm|].
    erewrite filter_ext; [apply Permutation_refl|].
    intros s. simpl. now rewrite Hlike.
  - apply (order_by_sorted name_leb).
    intros a b. apply String.leb_total.
Qed.

Lemma search_selects_substring_matches_witness :
  no_wildcard (strip " b ") = true
  /\ no_nul (strip " b ") = true
  /\ utf8_length (strip " b ") <= 49998
  /\ exists found,
       search_students_by_class_like "A" " b " alice_bob = Rows found
       /\ Permutation found
            (filter (fun s => (s_class_name s =? "A")%string
                              && matches_textb (strip " b ") s)
                    (students alice_bob)).
Proof.
  split; [reflexivity|]. split; [reflexivity|].
  assert (Hlen : utf8_length (strip " b ") <= 49998) by (vm_compute; discriminate).
  split; [exact Hlen|].
  destruct (proj1 search_selects_substring_matches "A" " b " alice_bob
              eq_refl eq_refl Hlen) as (found & Hf & _ & Hp & _).
  exists found. split; assumption.
Defined.

(** C5, the claim as stated fails.  The text is stripped before it is
    matched, and [%] and [_] in it are wildcards: the texts " b " and
    "_" both return a student whose name and external id do not contain
    the text.  A text with U+0000 is matched up to there: b, U+0000, z
    returns Bob.  A text of 49999 letters makes the pattern longer than
    SQLite accepts, and the query raises. *)
Lemma search_is_not_plain_substring :
  (exists found s, search_students_by_class_like "A" " b " alice_bob = Rows found
                   /\ In s found /\ ~ matches " b " s)
  /\ (exists found s, search_students_by_class_like "A" "_" alice_bob = Rows found
                      /\ In s found /\ ~ matches "_" s)
  /\ (exists found s, search_students_by_class_like "A" b_nul_z alice_bob
                      = Rows found
                      /\ In s found /\ ~ matches b_nul_z s)
  /\ search_students_by_class_like "A" (letters 49999) alice_bob
     = QueryRaised (OperationalError "LIKE or GLOB pattern too complex").
Proof.
  assert (Hbob : forall q,
             containsb (lower "Bob") (lower q) = false ->
             containsb (lower "S2") (lower q) = false ->
             ~ matches q {| s_id := 2; s_student_id := "S2"; s_name := "Bob";
                            s_address := ""; s_class_name := "A" |}).
  { intros q H1 H2. unfold matches, contains_nocase.
    rewrite <- !containsb_spec. simpl s_name. simpl s_student_id.
    rewrite H1, H2. intros [H | H]; discriminate. }
  split; [|split; [|split]].
  - eexists. eexists. split; [vm_compute; reflexivity|].
    split; [now left | now apply Hbob].
  - eexists. eexists. split; [vm_compute; reflexivity|].
    split; [right; now left | now apply Hbob].
  - eexists. eexists. split; [vm_compute; reflexivity|].
    split; [now left | now apply Hbob].
  - vm_compute. reflexivity.
Qed.

End StoreProperties.

(** ** Facts about the front-end *)

Module AppFacts.
Import Text TextFacts FloatFacts StoreFacts.

Lemma plot_terms_cons t ts :
  let terms := t :: ts in
  let avg := div_len (sum (map snd terms)) (List.length terms) in
  plot_terms terms
  = reset_axes
    ++ [ax_plot (seq 0 (List.length terms)) (map snd terms) "o";
        ax_set_xticks (seq 0 (List.length terms));
        ax_set_xticklabels (map fst terms) 30 "right";
        ax_axhline avg "--";
        ax_text (2 # 100) (95 # 100) (avg_label avg) "top";
        canvas_draw].
Proof.
  intros terms avg. subst terms avg. unfold plot_terms.
  now rewrite !length_map.
Qed.

Lemma range_test_spec (g : pyfloat) :
  ltb g (Fin 0) || gtb g (Fin 4) = if is_nan g then false else negb (in_rangeb g).
Proof.
  destruct g as [q| | |]; simpl; try reflexivity.
  unfold gtb, ltb, Qltb. now rewrite negb_andb.
Qed.

(** A GPA text that is refused by the parse or by the range test stops
    the handler before the store: one dialogue, no store call, the
    application state unchanged. *)
Lemma add_term_rejects (a : app) :
  selected_student_row_id a <> None ->
  strip (term_name_var a) <> "" -> strip (term_gpa_var a) <> "" ->
  match float_of_string (strip (term_gpa_var a)) with
  | None => True
  | Some g => ltb g (Fin 0) || gtb g (Fin 4) = true
  end ->
  fst (_add_term a) = a
  /\ store_calls (snd (_add_term a)) = []
  /\ exists msg, snd (_add_term a) = [showerror "Validation" msg].
Proof.
  intros Hsel Htn Hg Hrej. unfold _add_term.
  destruct (selected_student_row_id a) as [r|]; [|congruence].
  apply String.eqb_neq in Htn, Hg. rewrite Htn, Hg. cbn [orb].
  destruct (float_of_string (strip (term_gpa_var a))) as [g|].
  - rewrite Hrej. repeat split. eexists; reflexivity.
  - repeat split. eexists; reflexivity.
Qed.

(** A GPA text that passes both tests reaches the store with the parsed
    value. *)
Lemma add_term_calls_store (a : app) (r : Z) (g : pyfloat) :
  selected_student_row_id a = Some r ->
  strip (term_name_var a) <> "" -> strip (term_gpa_var a) <> "" ->
  float_of_string (strip (term_gpa_var a)) = Some g ->
  ltb g (Fin 0) || gtb g (Fin 4) = false ->
  store_calls (snd (_add_term a))
  = [db_add_term_grade r (strip (term_name_var a)) g]
  /\ db (fst (_add_term a))
     = snd (add_term_grade r (strip (term_name_var a)) g (db a)).
Proof.
  intros Hsel Htn Hg Hparse Hrange. unfold _add_term.
  rewrite Hsel. apply String.eqb_neq in Htn, Hg. rewrite Htn, Hg. cbn [orb].
  rewrite Hparse, Hrange.
  destruct (term_refused r (strip (term_name_var a)) g (db a)) eqn:E.
  - destruct (add_term_grade_raised _ _ _ _ E) as [msg ->].
    split; reflexivity.
  - rewrite (add_term_grade_committed _ _ _ _ E). cbn [fst snd db].
    split; [|reflexivity]. unfold _refresh_class_stats. cbn [db selected_class].
    unfold store_calls, _plot_student, plot_terms, _refresh_terms.
    destruct (list_terms_for_student r _); simpl;
      now destruct (strip (selected_class a) =? "")%string.
Qed.

(** Any GPA text that [float] reads as NaN reaches the store, which
    refuses it and keeps the database. *)
Lemma add_term_nan (a : app) (r : Z) :
  selected_student_row_id a = Some r ->
  strip (term_name_var a) <> "" -> strip (term_gpa_var a) <> "" ->
  float_of_string (strip (term_gpa_var a)) = Some NaN ->
  store_calls (snd (_add_term a))
  = [db_add_term_grade r (strip (term_name_var a)) NaN]
  /\ db (fst (_add_term a)) = db a.
Proof.
  intros Hsel Htn Hg Hparse.
  destruct (add_term_calls_store a r NaN Hsel Htn Hg Hparse eq_refl) as [H1 H2].
  split; [exact H1 | exact H2].
Qed.

(** The handler keeps every stored GPA within [0.0, 4.0], hence a
    number. *)
Lemma add_term_keeps_range (a : app) :
  gpas_in_range (db a) -> gpas_in_range (db (fst (_add_term a))).
Proof.
  intros Hok. unfold _add_term.
  destruct (selected_student_row_id a) as [r|]; [|exact Hok].
  destruct ((strip (term_name_var a) =? "")%string
            || (strip (term_gpa_var a) =? "")%string); [exact Hok|].
  destruct (float_of_string (strip (term_gpa_var a))) as [g|]; [|exact Hok].
  destruct (ltb g (Fin 0) || gtb g (Fin 4)) eqn:Hrange; [exact Hok|].
  destruct (term_refused r (strip (term_name_var a)) g (db a)) eqn:E.
  - destruct (add_term_grade_raised _ _ _ _ E) as [msg ->]. exact Hok.
  - rewrite add_term_grade_committed by exact E. simpl.
    unfold gpas_in_range. simpl. apply Forall_app. split; [exact Hok|].
    constructor; [|constructor]. simpl.
    rewrite range_test_spec in Hrange.
    unfold term_refused in E. destruct (is_nan g); [discriminate|].
    now apply negb_false_iff in Hrange.
Qed.

Lemma gpas_in_range_finite (d : database) : gpas_in_range d -> finite_gpas d.
Proof.
  unfold gpas_in_range, finite_gpas. apply Forall_impl.
  intros t H. now destruct (t_gpa t).
Qed.

End AppFacts.

(** ** The properties of the front-end *)

Module AppProperties.
Import Text TextFacts FloatFacts StoreFacts AppFacts.

(** Outside NaN the Add Term gate is the range test on the parsed
    number: the store is called exactly when it lies within 0.0 and
    4.0. *)
Lemma add_term_gate (a : app) (r : Z) (g : pyfloat) :
  selected_student_row_id a = Some r ->
  strip (term_name_var a) <> "" -> strip (term_gpa_var a) <> "" ->
  float_of_string (strip (term_gpa_var a)) = Some g ->
  is_nan g = false ->
  store_calls (snd (_add_term a))
  = if in_rangeb g then [db_add_term_grade r (strip (term_name_var a)) g] else [].
Proof.
  intros Hsel Htn Hg Hparse Hnan.
  pose proof (range_test_spec g) as Hr. rewrite Hnan in Hr.
  destruct (in_rangeb g); simpl in Hr.
  - now apply add_term_calls_store.
  - apply add_term_rejects; try assumption; [congruence|].
    now rewrite Hparse.
Qed.

Lemma add_term_boundary_values :
  store_calls (snd (_add_term (add_term_form "Fall" "0.0")))
  = [db_add_term_grade 1 "Fall" (Fin 0)]
  /\ store_calls (snd (_add_term (add_term_form "Fall" "4.0")))
     = [db_add_term_grade 1 "Fall" (Fin 4)]
  /\ snd (_add_term (add_term_form "Fall" "-0.1"))
     = [showerror "Validation" "GPA must be between 0.0 and 4.0."]
  /\ snd (_add_term (add_term_form "Fall" "4.1"))
     = [showerror "Validation" "GPA must be between 0.0 and 4.0."]
  /\ snd (_add_term (add_term_form "Fall" "3,5"))
     = [showerror "Validation" "GPA must be a number (e.g., 3.50)."].
Proof. repeat split; vm_compute; reflexivity. Qed.

(** C2, the failing input.  The GPA text nan parses to NaN, which is
    neither below 0.0 nor above 4.0, so the handler calls the store with
    it; the store refuses the NULL it is bound as, and the handler
    reports a duplicate term.  The database is unchanged. *)
Theorem add_term_nan_reaches_store :
  float_of_string "nan" = Some NaN
  /\ ltb NaN (Fin 0) || gtb NaN (Fin 4) = false
  /\ _add_term (add_term_form "Fall" "nan")
     = (add_term_form "Fall" "nan",
        [db_add_term_grade 1 "Fall" NaN;
         showerror "Duplicate"
           "That term already exists for this student. Use a different term name."])
  /\ has_term 1 "Fall" class_a = false.
Proof. repeat split; vm_compute; reflexivity. Qed.

(** C9, as amended.  Given a student's ordered list of terms, the
    renderer resets the axes (title, labels, range) and draws.  For the
    empty list it draws nothing else: no series, no reference line, no
    annotation.  For a non-empty list it plots one series with markers,
    the values in the order of the list against the positions 0, 1, ...,
    labels the ticks with the term names in the same order, and draws
    one horizontal line and one annotation of the same number inside the
    axes, at (0.02, 0.95) in axes coordinates.  When the values lie
    within 0.0 and 4.0 that number lies within 0.0 and 4.0 and is no
    further from the mean of the values than the rounding of the
    additions and of the division allows. *)
Theorem chart_renders_terms (terms : list (string * pyfloat)) :
  let es := plot_terms terms in
  (forall r d, _plot_student r d = plot_terms (list_terms_for_student r d))
  /\ (exists body, es = [ax_clear; ax_set_title "Term GPA Trend";
                         ax_set_xlabel "Term"; ax_set_ylabel "GPA";
                         ax_set_ylim 0 4] ++ body ++ [canvas_draw])
  /\ (terms = [] ->
      es = _plot_empty /\ plotted_series es = []
      /\ reference_lines es = [] /\ annotations es = [])
  /\ (terms <> [] ->
      plotted_series es = [(seq 0 (List.length terms), map snd terms, "o")]
      /\ tick_labels es = [map fst terms]
      /\ exists avg,
          reference_lines es = [avg]
          /\ annotations es = [(2 # 100, 95 # 100, avg_label avg)]
          /\ (Forall (fun x => in_rangeb x = true) (map snd terms) ->
              in_rangeb avg = true
              /\ near (List.length terms) (Some avg)
                      (Some (mean (values (map snd terms)))))).
Proof.
  intros es. subst es. split; [reflexivity|].
  destruct terms as [|t ts].
  - split; [exists []; reflexivity|]. split; [|congruence].
    intros _. repeat split.
  - rewrite plot_terms_cons. split.
    + set (avg := div_len (sum (map snd (t :: ts))) (List.length (t :: ts))).
      exists [ax_plot (seq 0 (List.length (t :: ts))) (map snd (t :: ts)) "o";
              ax_set_xticks (seq 0 (List.length (t :: ts)));
              ax_set_xticklabels (map fst (t :: ts)) 30 "right";
              ax_axhline avg "--";
              ax_text (2 # 100) (95 # 100) (avg_label avg) "top"].
      reflexivity.
    + split; [discriminate|]. intros _.
      split; [reflexivity|]. split; [reflexivity|].
      eexists. split; [reflexivity|]. split; [reflexivity|].
      intros Hall.
      destruct (Rounding.float_mean_near (map snd (t :: ts)) ltac:(discriminate) Hall)
        as (a & Ha & Ha0 & Ha4 & H1 & H2).
      rewrite length_map in Ha, H1, H2. rewrite Ha.
      split; [now apply Rounding.value_range | split; assumption].
Qed.

Lemma chart_renders_terms_witness :
  let terms := [("Fall", Fin 3); ("Spring", Fin 4)] in
  terms <> []
  /\ Forall (fun x => in_rangeb x = true) (map snd terms)
  /\ plotted_series (plot_terms terms) = [([0; 1]%nat, [Fin 3; Fin 4], "o")]
  /\ exists avg, reference_lines (plot_terms terms) = [avg]
                 /\ in_rangeb avg = true.
Proof.
  intros terms. assert (H : terms <> []) by discriminate.
  assert (Hall : Forall (fun x => in_rangeb x = true) (map snd terms))
    by (repeat constructor).
  split; [exact H|]. split; [exact Hall|].
  destruct (chart_renders_terms terms) as (_ & _ & _ & P).
  destruct (P H) as (P1 & _ & avg & P3 & _ & P5).
  split; [exact P1|]. exists avg. split; [exact P3 | apply (P5 Hall)].
Defined.

(** C9, the claim as stated fails.  For the terms 0.1, 0.2 and 0.3 the
    line is not at the mean of the three values, and for the terms inf
    and -inf it is at NaN. *)
Lemma chart_mean_is_rounded :
  (exists a, reference_lines (_plot_student 1 tenths) = [Fin a]
             /\ ~ (a == mean (values (map snd (list_terms_for_student 1 tenths))))%Q)
  /\ reference_lines (_plot_student 1 infinities) = [NaN].
Proof.
  split; [|reflexivity].
  eexists. split; [vm_compute; reflexivity|].
  intros H. vm_compute in H. discriminate H.
Qed.

(** C7.  [list_terms_for_student] returns a student's term records by
    increasing rowid, which is the order of creation, not the
    alphabetical order of the names: a committed insert appends its
    record to the student's list.  The chart plots the values and labels
    the ticks in that order.  Terms added as Fall 3.0 then Spring 3.8
    are presented in that order; terms added as Spring 3.8 then Fall 3.0
    are presented in that order too, although Fall sorts before Spring. *)
Theorem terms_are_listed_in_creation_order :
  (forall r d,
      list_terms_for_student r d
      = map (fun t => (t_term_name t, t_gpa t)) (terms_of r d)
      /\ Permutation (terms_of r d)
           (filter (fun t => t_student_id t =? r) (terms d))
      /\ Sorted (fun a b => (t_id a <=? t_id b) = true) (terms_of r d))
  /\ (forall r tn g d,
        term_refused r tn g d = false ->
        list_terms_for_student r (snd (add_term_grade r tn g d))
        = list_terms_for_student r d ++ [(strip tn, g)])
  /\ (forall r d,
        list_terms_for_student r d <> [] ->
        let terms := list_terms_for_student r d in
        plotted_series (_plot_student r d)
        = [(seq 0 (List.length terms), map snd terms, "o")]
        /\ tick_labels (_plot_student r d) = [map fst terms])
  /\ (list_terms_for_student 1 fall_spring = [("Fall", Fin 3); ("Spring", gpa_3_8)]
      /\ plotted_series (_plot_student 1 fall_spring)
         = [([0; 1]%nat, [Fin 3; gpa_3_8], "o")]
      /\ tick_labels (_plot_student 1 fall_spring) = [["Fall"; "Spring"]])
  /\ (list_terms_for_student 1 spring_fall = [("Spring", gpa_3_8); ("Fall", Fin 3)]
      /\ plotted_series (_plot_student 1 spring_fall)
         = [([0; 1]%nat, [gpa_3_8; Fin 3], "o")]
      /\ tick_labels (_plot_student 1 spring_fall) = [["Spring"; "Fall"]]
      /\ ("Fall" <? "Spring")%string = true).
Proof.
  split; [|split; [|split; [|split]]].
  - intros r d. split; [reflexivity|]. split.
    + apply order_by_perm.
    + apply (order_by_sorted (fun a b => t_id a <=? t_id b)).
      intros a b. rewrite !Z.leb_le. lia.
  - intros r tn g d H. rewrite list_terms_after_add by exact H.
    now rewrite Z.eqb_refl.
  - intros r d H terms. subst terms. unfold _plot_student.
    destruct (list_terms_for_student r d) as [|t ts]; [congruence|].
    rewrite plot_terms_cons. split; reflexivity.
  - repeat split.
  - repeat split.
Qed.

Lemma terms_are_listed_in_creation_order_witness :
  term_refused 1 " Summer " (Fin 2) fall_spring = false
  /\ list_terms_for_student 1 (snd (add_term_grade 1 " Summer " (Fin 2) fall_spring))
     = [("Fall", Fin 3); ("Spring", gpa_3_8); ("Summer", Fin 2)].
Proof.
  split; [reflexivity|].
  destruct terms_are_listed_in_creation_order as (_ & P & _).
  rewrite (P 1 " Summer " (Fin 2) fall_spring eq_refl). reflexivity.
Defined.

End AppProperties.

(** ** More facts about [ORDER BY] *)

Module OrderFacts.

Lemma ascii_compare_refl (a : ascii) : Ascii.compare a a = Eq.
Proof. unfold Ascii.compare. apply N.compare_refl. Qed.

Lemma string_compare_refl (s : string) : String.compare s s = Eq.
Proof.
  induction s as [|c s IH]; simpl; [reflexivity|].
  now rewrite ascii_compare_refl.
Qed.

Lemma string_lt_trans (a b c : string) :
  String.compare a b = Lt -> String.compare b c = Lt -> String.compare a c = Lt.
Proof.
  revert b c. induction a as [|x a IH]; intros [|y b] [|z c]; simpl;
    try discriminate; try reflexivity.
  destruct (Ascii.compare x y) eqn:E1; try discriminate;
    destruct (Ascii.compare y z) eqn:E2; try discriminate; intros H1 H2.
  - apply Ascii.compare_eq_iff in E1, E2. subst.
    rewrite ascii_compare_refl. now apply IH with b.
  - apply Ascii.compare_eq_iff in E1. subst. now rewrite E2.
  - apply Ascii.compare_eq_iff in E2. subst. now rewrite E1.
  - unfold Ascii.compare in *. rewrite N.compare_lt_iff in E1, E2.
    assert (E : (N_of_ascii x ?= N_of_ascii z)%N = Lt)
      by (apply N.compare_lt_iff; eapply N.lt_trans; eassumption).
    now rewrite E.
Qed.

Lemma string_leb_cases (a b : string) :
  String.leb a b = true <-> a = b \/ String.compare a b = Lt.
Proof.
  unfold String.leb. split.
  - destruct (String.compare a b) eqn:E; try discriminate; intros _.
    + left. now apply String.compare_eq_iff.
    + now right.
  - intros [-> | ->]; [now rewrite string_compare_refl | reflexivity].
Qed.

Lemma string_leb_trans (a b c : string) :
  String.leb a b = true -> String.leb b c = true -> String.leb a c = true.
Proof.
  rewrite !string_leb_cases. intros [-> | H1] [-> | H2]; auto.
  right. now apply string_lt_trans with b.
Qed.

Lemma string_leb_refl (a : string) : String.leb a a = true.
Proof. apply string_leb_cases. now left. Qed.

Section StableFilter.
Context {A : Type} (leb : A -> A -> bool).
Hypothesis leb_total : forall a b, leb a b = true \/ leb b a = true.
Hypothesis leb_trans : forall a b c, leb a b = true -> leb b c = true -> leb a c = true.

Lemma order_by_strongly_sorted (l : list A) :
  StronglySorted (fun a b => leb a b = true) (order_by leb l).
Proof.
  apply Sorted_StronglySorted.
  - intros a b c. apply leb_trans.
  - now apply order_by_sorted.
Qed.

Lemma insert_row_first (x : A) (l : list A) :
  Forall (fun z => leb x z = true) l -> insert_row leb x l = x :: l.
Proof.
  destruct l as [|y l]; [reflexivity|]. intros H. simpl.
  inversion H as [|? ? Hy _]; subst. now rewrite Hy.
Qed.

Lemma filter_insert_row (p : A -> bool) (x : A) (m : list A) :
  StronglySorted (fun a b => leb a b = true) m ->
  filter p (insert_row leb x m)
  = if p x then insert_row leb x (filter p m) else filter p m.
Proof.
  induction 1 as [|y m Hm IH Hy]; simpl.
  - now destruct (p x).
  - destruct (leb x y) eqn:E.
    + simpl. destruct (p x) eqn:Px; [|reflexivity].
      rewrite insert_row_first; [reflexivity|].
      assert (Hall : Forall (fun z => leb x z = true) (y :: m)).
      { constructor; [exact E|]. eapply Forall_impl; [|exact Hy].
        intros z Hz. now apply leb_trans with y. }
      rewrite Forall_forall in *. intros z Hz.
      apply Hall. change (In z (filter p (y :: m))) in Hz.
      now apply filter_In in Hz as [Hz _].
    + simpl. rewrite IH. destruct (p y) eqn:Py, (p x) eqn:Px; simpl;
        rewrite ?E; reflexivity.
Qed.

(** Selecting rows before or after the sort gives the same sequence. *)
Lemma filter_order_by (p : A -> bool) (l : list A) :
  filter p (order_by leb l) = order_by leb (filter p l).
Proof.
  induction l as [|x l IH]; simpl; [reflexivity|].
  rewrite filter_insert_row by apply order_by_strongly_sorted.
  rewrite IH. now destruct (p x).
Qed.
End StableFilter.

Lemma name_leb_total (a b : student) : name_leb a b = true \/ name_leb b a = true.
Proof. apply String.leb_total. Qed.

Lemma name_leb_trans (a b c : student) :
  name_leb a b = true -> name_leb b c = true -> name_leb a c = true.
Proof. apply string_leb_trans. Qed.

Lemma id_leb_total (a b : term) :
  (t_id a <=? t_id b) = true \/ (t_id b <=? t_id a) = true.
Proof. rewrite !Z.leb_le. lia. Qed.

Lemma id_leb_trans (a b c : term) :
  (t_id a <=? t_id b) = true -> (t_id b <=? t_id c) = true ->
  (t_id a <=? t_id c) = true.
Proof. rewrite !Z.leb_le. lia. Qed.

(** Both listings, as selections from the sorted table. *)
Lemma listing_filter (p : student -> bool) (d : database) :
  order_by name_leb (filter p (students d))
  = filter p (order_by name_leb (students d)).
Proof. symmetry. apply filter_order_by; [apply name_leb_total | apply name_leb_trans]. Qed.

End OrderFacts.

(** ** Further properties of the store *)

Module StoreExtras.
Import Text TextFacts FloatFacts StoreFacts AppFacts OrderFacts.

Lemma listing_In (c : string) (d : database) (s : student) :
  In s (list_students_by_class c d) <-> In s (students d) /\ s_class_name s = c.
Proof.
  unfold list_students_by_class.
  now rewrite order_by_In, filter_In, String.eqb_eq.
Qed.

Lemma find_unique_row (l : list student) (s : student) :
  NoDup (map s_id l) -> In s l -> find (fun x => s_id x =? s_id s) l = Some s.
Proof.
  induction l as [|y l IH]; simpl; intros Hnd Hin; [destruct Hin|].
  inversion Hnd as [|? ? Hfresh Hrest]; subst.
  destruct Hin as [-> | Hin].
  - now rewrite Z.eqb_refl.
  - destruct (s_id y =? s_id s) eqn:E; [|now apply IH].
    exfalso. apply Hfresh. apply Z.eqb_eq in E. rewrite E. now apply in_map.
Qed.

Lemma get_student_sound (r : Z) (d : database) (s : student) :
  get_student r d = Some s -> In s (students d) /\ s_id s = r.
Proof.
  unfold get_student. intros H. apply find_some in H as [Hin Hid].
  now apply Z.eqb_eq in Hid.
Qed.

Lemma get_student_has (r : Z) (d : database) :
  has_student r d = true <-> exists s, get_student r d = Some s.
Proof.
  split.
  - intros H. unfold get_student.
    destruct (find _ _) as [s|] eqn:E; [now exists s|].
    apply has_student_spec in H as (s & Hin & Hid).
    apply (find_none _ _ E) in Hin. apply Z.eqb_neq in Hin. congruence.
  - intros [s H]. apply get_student_sound in H as [Hin Hid].
    apply has_student_spec. now exists s.
Qed.

(** X1.  [add_student] with an external id that is not stored commits;
    the new student is then in the listing of its stripped class name,
    which gains exactly this row, and in no other listing; every other
    listing, every stored student and every term list is as before;
    the class is among [list_classes]. *)
Theorem added_student_is_listed (sid nm ad cl : string) (d : database) :
  has_student_id (strip sid) d = false ->
  let d' := snd (add_student sid nm ad cl d) in
  let row := new_student sid nm ad cl d in
  fst (add_student sid nm ad cl d) = Committed
  /\ Permutation (list_students_by_class (strip cl) d')
       (row :: list_students_by_class (strip cl) d)
  /\ (forall c, In row (list_students_by_class c d') <-> c = strip cl)
  /\ (forall c, c <> strip cl ->
        list_students_by_class c d' = list_students_by_class c d)
  /\ (forall r s, get_student r d = Some s -> get_student r d' = Some s)
  /\ (forall r, list_terms_for_student r d' = list_terms_for_student r d)
  /\ In (strip cl) (list_classes d').
Proof.
  intros Hnew d' row. subst d' row.
  rewrite add_student_committed by exact Hnew. simpl.
  split; [reflexivity|].
  set (row := new_student sid nm ad cl d).
  set (d' := {| students := students d ++ [row]; students_seq := s_id row;
                terms := terms d; terms_seq := terms_seq d |}).
  assert (Hlist : forall c, list_students_by_class c d'
            = order_by name_leb
                (filter (fun s => (s_class_name s =? c)%string) (students d)
                 ++ (if (strip cl =? c)%string then [row] else []))).
  { intros c. unfold list_students_by_class, d'. simpl.
    now rewrite filter_app. }
  split; [|split; [|split; [|split; [|split]]]].
  - rewrite Hlist, String.eqb_refl.
    eapply perm_trans; [apply order_by_perm|].
    eapply perm_trans; [apply Permutation_sym, Permutation_cons_append|].
    apply perm_skip, Permutation_sym, order_by_perm.
  - intros c. rewrite listing_In. simpl. rewrite in_app_iff. split.
    + intros [_ H]. now symmetry.
    + intros ->. split; [right; now left | reflexivity].
  - intros c Hc. rewrite Hlist.
    destruct (strip cl =? c)%string eqn:E;
      [apply String.eqb_eq in E; congruence | now rewrite app_nil_r].
  - intros r s H. unfold get_student in *. simpl.
    apply find_some in H as H'. destruct H' as [Hin _].
    clear -H. induction (students d) as [|y l IH]; simpl in *; [discriminate|].
    destruct (s_id y =? r); [exact H | now apply IH].
  - reflexivity.
  - unfold list_classes. apply order_by_In, nodup_In. simpl.
    rewrite map_app. apply in_app_iff. right. now left.
Qed.

Lemma added_student_is_listed_witness :
  has_student_id (strip " S9 ") class_a = false
  /\ map s_name (list_students_by_class "B" (snd (add_student " S9 " "Eve" "" "B " class_a)))
     = ["Eve"]
  /\ In "B" (list_classes (snd (add_student " S9 " "Eve" "" "B " class_a))).
Proof.
  split; [reflexivity|].
  pose proof (added_student_is_listed " S9 " "Eve" "" "B " class_a eq_refl) as H.
  cbv zeta in H. destruct H as (_ & _ & _ & _ & _ & _ & H7).
  split; [reflexivity | exact H7].
Defined.

Lemma classes_sorted_helper (d : database) :
  StronglySorted (fun a b => String.leb a b = true) (list_classes d).
Proof.
  apply order_by_strongly_sorted; [apply String.leb_total | apply string_leb_trans].
Qed.

(** X2.  [list_classes] returns exactly the class names that have at
    least one student, each once, in increasing order: a class is listed
    if and only if its listing of students is not empty. *)
Theorem classes_are_those_in_use (d : database) :
  (forall c, In c (list_classes d) <-> list_students_by_class c d <> [])
  /\ NoDup (list_classes d)
  /\ StronglySorted (fun a b => String.leb a b = true) (list_classes d).
Proof.
  split; [|split].
  - intros c. unfold list_classes. rewrite order_by_In, nodup_In, in_map_iff. split.
    + intros (s & Hc & Hin) Hnil.
      assert (H : In s (list_students_by_class c d)) by now apply listing_In.
      rewrite Hnil in H. destruct H.
    + intros Hne. destruct (list_students_by_class c d) as [|s l] eqn:E;
        [congruence|].
      assert (H : In s (list_students_by_class c d)) by (rewrite E; now left).
      apply listing_In in H as [Hin Hc]. now exists s.
  - unfold list_classes.
    eapply Permutation_NoDup; [apply Permutation_sym, order_by_perm|].
    apply NoDup_nodup.
  - apply order_by_strongly_sorted.
    + apply String.leb_total.
    + apply string_leb_trans.
Qed.

(** X3.  In every reachable state a student that a class listing
    returns is read back unchanged by [get_student] on its rowid, and in
    any state what [get_student] returns has that rowid and is in the
    listing of its class. *)
Theorem listed_students_are_readable (d : database) :
  (reachable d ->
   forall c s, In s (list_students_by_class c d) -> get_student (s_id s) d = Some s)
  /\ (forall r s, get_student r d = Some s ->
        s_id s = r /\ In s (list_students_by_class (s_class_name s) d)).
Proof.
  split.
  - intros Hreach c s Hin. apply listing_In in Hin as [Hin _].
    unfold get_student. apply find_unique_row; [|exact Hin].
    apply (pk_students d). now apply reachable_schema_ok.
  - intros r s H. apply get_student_sound in H as [Hin Hid].
    split; [exact Hid|]. now apply listing_In.
Qed.

Lemma listed_students_are_readable_witness :
  reachable class_a
  /\ forall s, In s (list_students_by_class "A" class_a) ->
               get_student (s_id s) class_a = Some s.
Proof.
  split; [unfold class_a, alice_bob, then_; repeat constructor|].
  apply (proj1 (listed_students_are_readable class_a)).
  unfold class_a, alice_bob, then_. repeat constructor.
Defined.

Lemma map_filter_comm {A B : Type} (f : A -> B) (p : B -> bool) (l : list A) :
  map f (filter (fun x => p (f x)) l) = filter p (map f l).
Proof.
  induction l as [|x l IH]; simpl; [reflexivity|].
  destruct (p (f x)); simpl; now rewrite IH.
Qed.

Lemma filter_length_split {A : Type} (p q : A -> bool) (l : list A) :
  List.length (filter p l)
  = (List.length (filter (fun x => p x && q x) l)
     + List.length (filter (fun x => p x && negb (q x)) l))%nat.
Proof.
  induction l as [|x l IH]; simpl; [reflexivity|].
  destruct (p x), (q x); simpl; rewrite IH; lia.
Qed.

Lemma terms_of_filter (p : term -> bool) (r : Z) (d : database) :
  order_by (fun a b => t_id a <=? t_id b)
           (filter (fun t => (t_student_id t =? r) && p t) (terms d))
  = filter p (terms_of r d).
Proof.
  unfold terms_of. rewrite <- filter_filter. symmetry.
  apply (filter_order_by (fun a b => t_id a <=? t_id b));
    [apply id_leb_total | apply id_leb_trans].
Qed.

(** X4.  [delete_term] removes from the student's term list exactly the
    records with the given name and keeps the others in their order;
    the term lists of the other students and the students are
    untouched; afterwards the pair is absent.  In a reachable state, if
    the pair was present the list is shorter by one. *)
Theorem delete_term_removes_that_term (r : Z) (tn : string) (d : database) :
  let d' := snd (delete_term r tn d) in
  list_terms_for_student r d'
  = filter (fun p => negb (fst p =? tn)%string) (list_terms_for_student r d)
  /\ (forall r', r' <> r ->
        list_terms_for_student r' d' = list_terms_for_student r' d)
  /\ students d' = students d
  /\ has_term r tn d' = false
  /\ (reachable d -> has_term r tn d = true ->
      S (List.length (list_terms_for_student r d'))
      = List.length (list_terms_for_student r d)).
Proof.
  intros d'. subst d'.
  assert (Hr : list_terms_for_student r (snd (delete_term r tn d))
               = filter (fun p => negb (fst p =? tn)%string)
                        (list_terms_for_student r d)).
  { rewrite delete_term_snd.
    unfold list_terms_for_student. simpl. rewrite filter_filter.
    rewrite <- (map_filter_comm (fun t => (t_term_name t, t_gpa t))
                  (fun p => negb (fst p =? tn)%string)).
    f_equal. fold (terms_of r d). simpl.
    rewrite <- (terms_of_filter (fun t => negb (t_term_name t =? tn)%string)).
    f_equal. apply filter_ext. intros t. unfold is_term.
    destruct (t_student_id t =? r); simpl; [apply andb_true_r | reflexivity]. }
  split; [exact Hr|]. split; [|split; [now rewrite delete_term_snd|split]].
  - intros r' Hne. rewrite delete_term_snd.
    unfold list_terms_for_student. simpl. rewrite filter_filter.
    do 2 f_equal. apply filter_ext. intros t. unfold is_term.
    destruct (t_student_id t =? r') eqn:E; [|apply andb_false_r].
    apply Z.eqb_eq in E. rewrite E.
    destruct (r' =? r) eqn:E'; [apply Z.eqb_eq in E'; congruence | reflexivity].
  - rewrite delete_term_snd.
    unfold has_term. simpl. apply existsb_false. intros t Ht.
    apply filter_In in Ht as [_ Ht]. now apply negb_true_iff in Ht.
  - intros Hreach Hhas.
    pose proof (unique_term_once r tn (terms d)
                  (uq_term d (reachable_schema_ok d Hreach)) Hhas) as Hone.
    rewrite !list_terms_length, delete_term_snd. simpl. rewrite filter_filter.
    rewrite (filter_length_split (fun t => t_student_id t =? r)
               (fun t => (t_term_name t =? tn)%string) (terms d)).
    change (fun x => (t_student_id x =? r) && (t_term_name x =? tn)%string)
      with (is_term r tn).
    rewrite Hone. simpl. f_equal. f_equal. apply filter_ext. intros t.
    unfold is_term. destruct (t_student_id t =? r); simpl;
      [apply andb_true_r | reflexivity].
Qed.

Lemma reachable_fall_spring : reachable fall_spring.
Proof. unfold fall_spring, alice_bob, then_. repeat constructor. Qed.

Lemma delete_term_removes_that_term_witness :
  has_term 1 "Fall" fall_spring = true
  /\ list_terms_for_student 1 (snd (delete_term 1 "Fall" fall_spring))
     = [("Spring", gpa_3_8)]
  /\ S (List.length (list_terms_for_student 1 (snd (delete_term 1 "Fall" fall_spring))))
     = List.length (list_terms_for_student 1 fall_spring).
Proof.
  split; [reflexivity|]. split; [reflexivity|].
  pose proof (delete_term_removes_that_term 1 "Fall" fall_spring) as H.
  cbv zeta in H. destruct H as (_ & _ & _ & _ & H5).
  apply H5; [apply reachable_fall_spring | reflexivity].
Defined.

Lemma reachable_stripped_classes d :
  reachable d -> forall s, In s (students d) -> strip (s_class_name s) = s_class_name s.
Proof.
  induction 1 as [|sid nm ad cl d _ IH|r d _ IH|r tn g d _ IH|r tn d _ IH].
  - intros s [].
  - destruct (has_student_id (strip sid) d) eqn:E.
    + now rewrite add_student_raised.
    + rewrite add_student_committed by exact E. simpl.
      intros s Hs. apply in_app_iff in Hs as [Hs | [<- | []]].
      * now apply IH.
      * apply strip_idempotent.
  - intros s Hs. rewrite delete_student_students in Hs.
    apply filter_In in Hs as [Hs _]. now apply IH.
  - destruct (term_refused r tn g d) eqn:E.
    + now destruct (add_term_grade_raised r tn g d E) as [msg ->].
    + now rewrite add_term_grade_committed.
  - now rewrite delete_term_snd.
Qed.

(** X5.  The inserts strip their text, the other methods do not: in a
    reachable state [delete_term] with a term name that has whitespace
    at an end deletes nothing, even right after [add_term_grade] was
    given that same name; it returns normally when the rowid is within
    64 bits and raises [OverflowError] otherwise.
    [list_students_by_class] with such a class name returns no
    student. *)
Theorem untrimmed_names_match_nothing (d : database) :
  reachable d ->
  (forall r tn, strip tn <> tn ->
      delete_term r tn d
      = (if fits_int64 r then Committed else Raised int_too_large, d))
  /\ (forall r tn g, strip tn <> tn ->
        let d1 := snd (add_term_grade r tn g d) in
        delete_term r tn d1
        = (if fits_int64 r then Committed else Raised int_too_large, d1))
  /\ (forall c, strip c <> c -> list_students_by_class c d = []).
Proof.
  intros Hreach.
  assert (Hdel : forall d0, reachable d0 -> forall r tn,
             strip tn <> tn ->
             delete_term r tn d0
             = (if fits_int64 r then Committed else Raised int_too_large, d0)).
  { intros d0 H0 r tn Hne. apply delete_term_absent.
    destruct (has_term r tn d0) eqn:E; [|reflexivity].
    destruct (reachable_stripped_keys d0 H0) as [_ Ht].
    apply has_term_spec in E as (t & Hin & _ & <-). now apply Ht in Hin. }
  split; [now apply Hdel|]. split.
  - intros r tn g Hne d1. apply Hdel; [now constructor | exact Hne].
  - intros c Hne. destruct (list_students_by_class c d) as [|s l] eqn:E;
      [reflexivity|].
    assert (H : In s (list_students_by_class c d)) by (rewrite E; now left).
    apply listing_In in H as [Hin <-].
    now apply (reachable_stripped_classes d Hreach) in Hin.
Qed.

Lemma untrimmed_names_match_nothing_witness :
  reachable fall_spring
  /\ strip "Fall " <> "Fall "
  /\ delete_term 1 "Fall " fall_spring = (Committed, fall_spring)
  /\ list_students_by_class "A " fall_spring = [].
Proof.
  assert (Hne : strip "Fall " <> "Fall ") by discriminate.
  split; [apply reachable_fall_spring|]. split; [exact Hne|].
  destruct (untrimmed_names_match_nothing fall_spring reachable_fall_spring)
    as (H1 & _ & H3).
  split; [exact (H1 1 "Fall " Hne) | apply H3; discriminate].
Defined.

Lemma reachable_ids_below_seq d :
  reachable d -> forall s, In s (students d) -> s_id s <= students_seq d.
Proof.
  induction 1 as [|sid nm ad cl d _ IH|r d _ IH|r tn g d _ IH|r tn d _ IH].
  - intros s [].
  - destruct (has_student_id (strip sid) d) eqn:E.
    + now rewrite add_student_raised.
    + rewrite add_student_committed by exact E. simpl.
      intros s Hs. apply in_app_iff in Hs as [Hs | [<- | []]].
      * apply (next_rowid_above s_id _ (students_seq d)) in Hs. lia.
      * simpl. lia.
  - intros s Hs. rewrite delete_student_students in Hs.
    rewrite (proj1 (delete_student_seqs r d)).
    apply filter_In in Hs as [Hs _]. now apply IH.
  - destruct (term_refused r tn g d) eqn:E.
    + now destruct (add_term_grade_raised r tn g d E) as [msg ->].
    + now rewrite add_term_grade_committed.
  - now rewrite delete_term_snd.
Qed.

Lemma has_student_after_delete r r' d :
  has_student r' (snd (delete_student r d)) = negb (r =? r') && has_student r' d.
Proof.
  unfold has_student. rewrite delete_student_students.
  induction (students d) as [|s l IH]; simpl; [now rewrite andb_false_r|].
  destruct (s_id s =? r) eqn:E; simpl.
  - rewrite IH. apply Z.eqb_eq in E. rewrite E.
    destruct (r =? r'); simpl; [reflexivity | reflexivity].
  - rewrite IH. destruct (s_id s =? r') eqn:E'; simpl; [|reflexivity].
    apply Z.eqb_eq in E'. rewrite <- E', (Z.eqb_sym r), E. reflexivity.
Qed.

(** X6.  A rowid of [students] is never given out twice: deleting a
    student of a reachable state retires its rowid, a retired rowid
    stays retired through every method of the store, and a retired rowid
    reads back no student. *)
Theorem rowids_are_not_reused (r : Z) (d : database) :
  (reachable d -> has_student r d = true -> retired r (snd (delete_student r d)))
  /\ (retired r d ->
      (forall sid nm ad cl, retired r (snd (add_student sid nm ad cl d)))
      /\ (forall r', retired r (snd (delete_student r' d)))
      /\ (forall r' tn g, retired r (snd (add_term_grade r' tn g d)))
      /\ (forall r' tn, retired r (snd (delete_term r' tn d)))
      /\ get_student r d = None).
Proof.
  split.
  - intros Hreach Hhas. split.
    + apply has_student_spec in Hhas as (s & Hin & <-).
      rewrite (proj1 (delete_student_seqs (s_id s) d)).
      now apply reachable_ids_below_seq.
    + rewrite has_student_after_delete, Z.eqb_refl. reflexivity.
  - intros [Hseq Hno]. split; [|split; [|split; [|split]]].
    + intros sid nm ad cl. destruct (has_student_id (strip sid) d) eqn:E.
      * rewrite add_student_raised by exact E. now split.
      * rewrite add_student_committed by exact E. split; simpl.
        -- unfold next_rowid. lia.
        -- unfold has_student in *. simpl. rewrite existsb_app, Hno. simpl.
           rewrite orb_false_r. apply Z.eqb_neq. unfold next_rowid. lia.
    + intros r'. split; [now rewrite (proj1 (delete_student_seqs r' d))|].
      rewrite has_student_after_delete, Hno. apply andb_false_r.
    + intros r' tn g. destruct (term_refused r' tn g d) eqn:E.
      * destruct (add_term_grade_raised r' tn g d E) as [msg ->]. now split.
      * rewrite add_term_grade_committed by exact E. now split.
    + intros r' tn. rewrite delete_term_snd. now split.
    + destruct (get_student r d) as [s|] eqn:E; [|reflexivity].
      assert (H : has_student r d = true) by (apply get_student_has; now exists s).
      congruence.
Qed.

Lemma rowids_are_not_reused_witness :
  reachable class_a /\ has_student 3 class_a = true
  /\ get_student 3 (snd (add_student "S3" "Carol" "" "A"
                           (snd (delete_student 3 class_a)))) = None.
Proof.
  split; [apply StoreProperties.reachable_class_a|]. split; [reflexivity|].
  destruct (rowids_are_not_reused 3 class_a) as [H1 _].
  specialize (H1 StoreProperties.reachable_class_a eq_refl).
  destruct (rowids_are_not_reused 3 (snd (delete_student 3 class_a))) as [_ H2].
  destruct (H2 H1) as (Hadd & _).
  specialize (Hadd "S3" "Carol" "" "A").
  destruct (rowids_are_not_reused 3
              (snd (add_student "S3" "Carol" "" "A" (snd (delete_student 3 class_a)))))
    as [_ H3].
  now destruct (H3 Hadd) as (_ & _ & _ & _ & H).
Defined.

Lemma NoDup_map_inj {A B : Type} (f : A -> B) (l : list A) (a b : A) :
  NoDup (map f l) -> In a l -> In b l -> f a = f b -> a = b.
Proof.
  induction l as [|x l IH]; simpl; intros Hnd Ha Hb Hf; [destruct Ha|].
  inversion Hnd as [|? ? Hfresh Hrest]; subst.
  destruct Ha as [-> | Ha], Hb as [-> | Hb]; auto.
  - exfalso. apply Hfresh. rewrite Hf. now apply in_map.
  - exfalso. apply Hfresh. rewrite <- Hf. now apply in_map.
Qed.

Lemma term_names_unique (r : Z) (l : list term) :
  NoDup (map term_key l) ->
  NoDup (map t_term_name (filter (fun t => t_student_id t =? r) l)).
Proof.
  induction l as [|t l IH]; simpl; intros Hnd; [constructor|].
  inversion Hnd as [|? ? Hfresh Hrest]; subst.
  destruct (t_student_id t =? r) eqn:E; simpl; [|now apply IH].
  constructor; [|now apply IH].
  intros Hin. apply Hfresh. apply in_map_iff in Hin as (t' & Hname & Hin).
  apply filter_In in Hin as [Hin E']. apply in_map_iff. exists t'.
  split; [|exact Hin]. unfold term_key.
  apply Z.eqb_eq in E, E'. now rewrite Hname, E, E'.
Qed.

(** X7.  In every reachable state the constraints of the schema show in
    what the queries return: two stored students with the same external
    id are the same row; a student's term list has no term name twice;
    a rowid without a student has no terms (no orphans survive the
    cascade); and no listed GPA is NaN. *)
Theorem reachable_states_keep_the_schema (d : database) :
  reachable d ->
  (forall s1 s2, In s1 (students d) -> In s2 (students d) ->
                 s_student_id s1 = s_student_id s2 -> s1 = s2)
  /\ (forall r, NoDup (map fst (list_terms_for_student r d)))
  /\ (forall r, has_student r d = false -> list_terms_for_student r d = [])
  /\ (forall r tn g, In (tn, g) (list_terms_for_student r d) -> is_nan g = false).
Proof.
  intros Hreach. pose proof (reachable_schema_ok d Hreach) as [H1 H2 H3 H4 H5 H6].
  split; [|split; [|split]].
  - intros s1 s2. now apply NoDup_map_inj.
  - intros r. unfold list_terms_for_student. rewrite map_map. simpl.
    eapply Permutation_NoDup;
      [apply Permutation_map, Permutation_sym, order_by_perm|].
    now apply term_names_unique.
  - intros r Hno. unfold list_terms_for_student.
    rewrite filter_none; [reflexivity|].
    intros t Ht. apply Z.eqb_neq. intros <-. apply H5 in Ht. congruence.
  - intros r tn g Hin. unfold list_terms_for_student in Hin.
    apply in_map_iff in Hin as (t & Heq & Hin). injection Heq as _ <-.
    apply order_by_In, filter_In in Hin as [Hin _]. now apply H6.
Qed.

Lemma reachable_states_keep_the_schema_witness :
  reachable class_a
  /\ has_student 9 class_a = false
  /\ list_terms_for_student 9 class_a = []
  /\ NoDup (map fst (list_terms_for_student 1 class_a)).
Proof.
  split; [apply StoreProperties.reachable_class_a|]. split; [reflexivity|].
  destruct (reachable_states_keep_the_schema class_a
              StoreProperties.reachable_class_a) as (_ & H2 & H3 & _).
  split; [now apply H3 | apply H2].
Defined.

(** X8.  An insert followed by the matching delete restores both tables;
    only the sequence counter has moved.  In a reachable state, deleting
    the student that [add_student] just committed gives back the
    students and the terms; in any state, deleting with the stripped
    name the term that [add_term_grade] just committed gives back the
    terms. *)
Theorem insert_then_delete_restores_tables (d : database) :
  (forall sid nm ad cl,
      reachable d -> has_student_id (strip sid) d = false ->
      let row := new_student sid nm ad cl d in
      let d2 := snd (delete_student (s_id row) (snd (add_student sid nm ad cl d))) in
      students d2 = students d /\ terms d2 = terms d
      /\ students_seq d < students_seq d2)
  /\ (forall r tn g,
        term_refused r tn g d = false ->
        let d2 := snd (delete_term r (strip tn) (snd (add_term_grade r tn g d))) in
        students d2 = students d /\ terms d2 = terms d
        /\ terms_seq d < terms_seq d2).
Proof.
  split.
  - intros sid nm ad cl Hreach Hnew row d2. subst d2.
    rewrite add_student_committed by exact Hnew. fold row.
    set (d1 := {| students := students d ++ [row]; students_seq := s_id row;
                  terms := terms d; terms_seq := terms_seq d |}).
    assert (Hold : forall s, In s (students d) ->
                     s_id s < next_rowid s_id (students d) (students_seq d)).
    { intros s Hs. now apply (next_rowid_above s_id _ (students_seq d)) in Hs. }
    split; [|split].
    + rewrite delete_student_students. unfold d1. simpl.
      rewrite filter_app. simpl. rewrite Z.eqb_refl. simpl.
      rewrite app_nil_r. apply filter_id. intros s Hs.
      apply negb_true_iff, Z.eqb_neq. specialize (Hold s Hs). lia.
    + rewrite delete_student_terms. unfold d1 at 2. simpl.
      apply filter_id. intros t Ht. apply negb_true_iff, andb_false_iff. right.
      apply Z.eqb_neq. intros Heq.
      pose proof (fk_term d (reachable_schema_ok d Hreach) t Ht) as Hfk.
      apply has_student_spec in Hfk as (s & Hs & Hid).
      specialize (Hold s Hs). simpl in Heq. lia.
    + rewrite (proj1 (delete_student_seqs _ _)). simpl. unfold next_rowid. lia.
  - intros r tn g Hok d2. subst d2.
    rewrite add_term_grade_committed by exact Hok.
    rewrite delete_term_snd. simpl.
    split; [reflexivity|]. split.
    + rewrite filter_app. simpl.
      assert (Hnew : is_term r (strip tn) (new_term r tn g d) = true)
        by (apply is_term_spec; now split).
      rewrite Hnew. simpl. rewrite app_nil_r. apply filter_id.
      intros t Ht. apply negb_true_iff.
      unfold term_refused in Hok.
      apply orb_false_iff in Hok as [Hok _]. apply orb_false_iff in Hok as [_ Hok].
      unfold has_term in Hok. rewrite existsb_false in Hok. now apply Hok.
    + unfold next_rowid. lia.
Qed.

Lemma insert_then_delete_restores_tables_witness :
  term_refused 1 " Summer " (Fin 2) fall_spring = false
  /\ terms (snd (delete_term 1 (strip " Summer ")
                   (snd (add_term_grade 1 " Summer " (Fin 2) fall_spring))))
     = terms fall_spring.
Proof.
  split; [reflexivity|].
  destruct (insert_then_delete_restores_tables fall_spring) as [_ H].
  now destruct (H 1 " Summer " (Fin 2) eq_refl) as (_ & H2 & _).
Defined.

(** X9.  Both deletes are idempotent: repeating [delete_student] or
    [delete_term] with the same arguments right after the first call
    changes nothing more.  The repeated call returns normally when the
    rowid fits 64 bits and raises [OverflowError] when it does not. *)
Theorem deleting_twice_is_deleting_once (d : database) :
  (forall r, let d1 := snd (delete_student r d) in
             delete_student r d1
             = (if fits_int64 r then Committed else Raised int_too_large, d1))
  /\ (forall r tn, let d1 := snd (delete_term r tn d) in
                   delete_term r tn d1
                   = (if fits_int64 r then Committed else Raised int_too_large, d1)).
Proof.
  split.
  - intros r d1. apply delete_student_absent. subst d1.
    rewrite has_student_after_delete, Z.eqb_refl. reflexivity.
  - intros r tn d1. apply delete_term_absent. subst d1.
    rewrite delete_term_snd.
    unfold has_term. simpl. apply existsb_false. intros t Ht.
    apply filter_In in Ht as [_ Ht]. now apply negb_true_iff in Ht.
Qed.

Lemma listing_nil_iff (c : string) (d : database) :
  existsb (fun s => (s_class_name s =? c)%string) (students d) = false
  <-> list_students_by_class c d = [].
Proof.
  unfold list_students_by_class. rewrite existsb_false. split.
  - intros H. now rewrite filter_none.
  - intros H s Hs.
    destruct (s_class_name s =? c)%string eqn:E; [|reflexivity]. exfalso.
    assert (Hin : In s (order_by name_leb
                          (filter (fun s => (s_class_name s =? c)%string)
                                  (students d)))).
    { apply order_by_In, filter_In. now split. }
    now rewrite H in Hin.
Qed.

(** The rows of the search when the statement does not raise. *)
Lemma search_rows (c q : string) (d : database) :
  order_by name_leb
    (filter (fun s => (s_class_name s =? c)%string
                      && (like ("%" ++ strip q ++ "%") (s_name s)
                          || like ("%" ++ strip q ++ "%") (s_student_id s)))
            (students d))
  = filter (like_test q) (list_students_by_class c d).
Proof.
  unfold list_students_by_class.
  rewrite (filter_order_by name_leb name_leb_total name_leb_trans).
  rewrite filter_filter. reflexivity.
Qed.

(** When the search returns and when it raises. *)
Lemma search_cases (c q : string) (d : database) :
  search_students_by_class_like c q d
  = if (49998 <? utf8_length (strip q))
       && negb (match list_students_by_class c d with [] => true | _ => false end)
    then QueryRaised (OperationalError "LIKE or GLOB pattern too complex")
    else Rows (filter (like_test q) (list_students_by_class c d)).
Proof.
  unfold search_students_by_class_like.
  rewrite search_rows, utf8_length_pattern.
  assert (Hlim : (like_pattern_limit <? utf8_length (strip q) + 2)
                 = (49998 <? utf8_length (strip q))).
  { unfold like_pattern_limit.
    destruct (Z.ltb_spec 50000 (utf8_length (strip q) + 2)),
             (Z.ltb_spec 49998 (utf8_length (strip q))); first [reflexivity | lia]. }
  rewrite Hlim.
  destruct (existsb _ (students d)) eqn:E.
  - destruct (list_students_by_class c d) eqn:El; [|reflexivity].
    apply (proj2 (listing_nil_iff c d)) in El. congruence.
  - apply (proj1 (listing_nil_iff c d)) in E. rewrite E.
    now rewrite !andb_false_r.
Qed.

Lemma search_returns (c q : string) (d : database) :
  utf8_length (strip q) <= 49998 \/ list_students_by_class c d = [] ->
  search_students_by_class_like c q d
  = Rows (filter (like_test q) (list_students_by_class c d)).
Proof.
  rewrite search_cases. intros [Hlen | Hnil].
  - apply Z.ltb_ge in Hlen. now rewrite Hlen.
  - rewrite Hnil. now rewrite andb_false_r.
Qed.

(** X10.  For every search text, wildcards included,
    [search_students_by_class_like] either returns the class listing
    restricted to the students whose name or external id passes the
    [LIKE] test, in the listing's order, or raises: it raises exactly
    when the stripped text is longer than 49998 bytes in UTF-8 and the
    class has a student.  A search that returns never adds a student. *)
Theorem search_restricts_the_listing (c q : string) (d : database) :
  (utf8_length (strip q) <= 49998 \/ list_students_by_class c d = [] ->
   search_students_by_class_like c q d
   = Rows (filter (like_test q) (list_students_by_class c d)))
  /\ (49998 < utf8_length (strip q) -> list_students_by_class c d <> [] ->
      search_students_by_class_like c q d
      = QueryRaised (OperationalError "LIKE or GLOB pattern too complex"))
  /\ (forall found,
        search_students_by_class_like c q d = Rows found ->
        found = filter (like_test q) (list_students_by_class c d)
        /\ (forall s, In s found -> In s (list_students_by_class c d))
        /\ (List.length found <= List.length (list_students_by_class c d))%nat).
Proof.
  rewrite search_cases. split; [|split].
  - intros [Hlen | Hnil].
    + apply Z.ltb_ge in Hlen. now rewrite Hlen.
    + rewrite Hnil. now rewrite andb_false_r.
  - intros Hlen Hne. apply Z.ltb_lt in Hlen. rewrite Hlen.
    destruct (list_students_by_class c d); [congruence | reflexivity].
  - intros found Hf.
    destruct ((49998 <? utf8_length (strip q)) && _); [discriminate|].
    injection Hf as <-. split; [reflexivity|]. split.
    + intros s Hs. now apply filter_In in Hs as [Hs _].
    + apply filter_length_le.
Qed.

Lemma search_restricts_the_listing_witness :
  let alice := {| s_id := 1; s_student_id := "S1"; s_name := "Alice";
                  s_address := "1 Main St"; s_class_name := "A" |} in
  utf8_length (strip "LI") <= 49998
  /\ search_students_by_class_like "A" "LI" class_a = Rows [alice]
  /\ In alice (list_students_by_class "A" class_a).
Proof.
  intros alice.
  assert (Hlen : utf8_length (strip "LI") <= 49998) by (vm_compute; discriminate).
  split; [exact Hlen|].
  destruct (search_restricts_the_listing "A" "LI" class_a) as (H1 & _ & H3).
  assert (Hs : search_students_by_class_like "A" "LI" class_a = Rows [alice]).
  { rewrite (H1 (or_introl Hlen)). reflexivity. }
  split; [exact Hs|].
  destruct (H3 [alice] Hs) as (_ & Hin & _). apply Hin. now left.
Defined.

(** X11.  After [delete_student] every class listing is the earlier
    listing without the deleted row, the other students in the same
    order. *)
Theorem delete_student_keeps_listing_order (r : Z) (c : string) (d : database) :
  list_students_by_class c (snd (delete_student r d))
  = filter (fun s => negb (s_id s =? r)) (list_students_by_class c d).
Proof.
  unfold list_students_by_class. rewrite delete_student_students.
  rewrite (filter_order_by name_leb name_leb_total name_leb_trans).
  rewrite !filter_filter. f_equal. apply filter_ext. intros s. apply andb_comm.
Qed.

(** *** Statistics *)

Lemma not_none_gpas_length (rows : list stat_row) :
  (List.length (not_none_gpas rows) <= List.length rows)%nat.
Proof.
  unfold not_none_gpas. induction rows as [|r rows IH]; simpl; [lia|].
  rewrite length_app. destruct (r_avg_gpa r); simpl; lia.
Qed.

Lemma not_none_nil (rows : list stat_row) :
  not_none_gpas rows = [] <-> forall r, In r rows -> r_avg_gpa r = None.
Proof.
  unfold not_none_gpas. induction rows as [|r rows IH]; simpl.
  - split; [intros _ r [] | reflexivity].
  - destruct (r_avg_gpa r) eqn:E; simpl.
    + split; [discriminate|]. intros H. specialize (H r (or_introl eq_refl)).
      congruence.
    + rewrite IH. split.
      * intros H x [<- | Hx]; [exact E | now apply H].
      * intros H x Hx. apply H. now right.
Qed.

(** X12.  The statistics line never fails to format: [class_stats]
    reports the mean, the least and the greatest together or not at
    all, so the handler shows either the line without grades or the line
    with the three numbers.  It shows the line without grades exactly
    when no row of the query has a mean; when every stored GPA lies
    within 0.0 and 4.0, that is exactly when no student of the class has
    a term record.  The count of students with grades never exceeds the
    count of students, and a class without students gives zero counts
    and no numbers. *)
Theorem stats_line_always_formats (c : string) (d : database) :
  let rows := fst (class_stats c d) in
  let o := snd (class_stats c d) in
  stats_message_of c o <> format_TypeError
  /\ (stats_message_of c o = no_grades_yet c (count_students o)
      <-> forall r, In r rows -> r_avg_gpa r = None)
  /\ (gpas_in_range d ->
      (stats_message_of c o = no_grades_yet c (count_students o)
       <-> forall s, In s (list_students_by_class c d) ->
                     list_terms_for_student (s_id s) d = []))
  /\ (count_with_terms o <= count_students o)%nat
  /\ count_students o = List.length (list_students_by_class c d)
  /\ (list_students_by_class c d = [] ->
      class_stats c d
      = ([], {| count_students := 0; count_with_terms := 0;
                avg_gpa := None; min_gpa := None; max_gpa := None |})).
Proof.
  intros rows o.
  pose proof (class_stats_rows c d) as Hrows. fold rows in Hrows.
  pose proof (not_none_gpas_length rows) as Hlen.
  pose proof (class_stats_snd c d) as Ho. fold rows o in Ho.
  assert (Hmsg : stats_message_of c o = no_grades_yet c (count_students o)
                 <-> forall r, In r rows -> r_avg_gpa r = None).
  { rewrite <- not_none_nil. unfold stats_message_of. rewrite Ho.
    cbn [avg_gpa min_gpa max_gpa count_students count_with_terms].
    destruct (not_none_gpas rows); split; intros H;
      first [reflexivity | discriminate]. }
  split; [|split; [exact Hmsg | split; [|split; [exact Hlen | split]]]].
  - unfold stats_message_of. rewrite Ho.
    cbn [avg_gpa min_gpa max_gpa count_students count_with_terms].
    destruct (not_none_gpas rows); discriminate.
  - intros Hok. rewrite Hmsg, Hrows. split.
    + intros H s Hs.
      destruct (stat_of_spec s d Hok) as (_ & _ & H3).
      rewrite (H (stat_of d s) (in_map _ _ _ Hs)) in H3. exact H3.
    + intros H r Hr. apply in_map_iff in Hr as (s & <- & Hs).
      destruct (stat_of_spec s d Hok) as (_ & _ & H3).
      destruct (r_avg_gpa (stat_of d s)); [|reflexivity].
      destruct H3 as [_ Hne]. now specialize (H s Hs).
  - rewrite Ho. cbn [count_students]. rewrite Hrows. apply length_map.
  - intros Hnil. unfold class_stats. cbn [fst snd].
    unfold list_students_by_class in Hnil.
    assert (Hf : filter (fun s => (s_class_name s =? c)%string) (students d) = []).
    { destruct (filter _ (students d)) as [|x l] eqn:E; [reflexivity|].
      assert (Hin : In x (order_by name_leb (x :: l)))
        by (apply order_by_In; now left).
      now rewrite Hnil in Hin. }
    rewrite Hf. reflexivity.
Qed.

Lemma stats_line_always_formats_witness :
  gpas_in_range class_a
  /\ list_terms_for_student 1 class_a <> []
  /\ stats_message_of "A" (snd (class_stats "A" class_a))
     <> no_grades_yet "A" (count_students (snd (class_stats "A" class_a))).
Proof.
  assert (H : gpas_in_range class_a) by (repeat constructor).
  split; [exact H|]. split; [discriminate|].
  destruct (stats_line_always_formats "A" class_a) as (_ & _ & H3 & _).
  intros Hmsg.
  pose proof (proj1 (H3 H) Hmsg
                {| s_id := 1; s_student_id := "S1"; s_name := "Alice";
                   s_address := "1 Main St"; s_class_name := "A" |}
                (or_introl eq_refl)) as Hnil.
  discriminate Hnil.
Defined.

(** X13.  When every stored GPA lies within 0.0 and 4.0, so does every
    number [class_stats] reports: each per-student mean and the three
    aggregates.  The least is at most the greatest, and the mean of the
    means lies between them up to the tolerance of its rounding. *)
Theorem class_stats_numbers_are_bounded (c : string) (d : database) :
  gpas_in_range d ->
  Forall (fun r => opt_in_range (r_avg_gpa r)) (fst (class_stats c d))
  /\ opt_in_range (avg_gpa (snd (class_stats c d)))
  /\ opt_in_range (min_gpa (snd (class_stats c d)))
  /\ opt_in_range (max_gpa (snd (class_stats c d)))
  /\ ordered_stats (snd (class_stats c d)).
Proof.
  intros Hok.
  destruct (class_stats_overall c d Hok) as (_ & Hval & Hnear & Hmin & Hmax & Havg).
  split.
  { rewrite class_stats_rows. apply Forall_forall. intros r Hr.
    apply in_map_iff in Hr as (s & <- & _).
    destruct (stat_of_spec s d Hok) as (_ & _ & H).
    destruct (r_avg_gpa (stat_of d s)); [apply H | exact I]. }
  unfold ordered_stats, opt_in_range.
  set (o := snd (class_stats c d)) in *.
  destruct (reported_means (fst (class_stats c d))) as [|q qs].
  - unfold is_least in Hmin. unfold is_greatest in Hmax.
    unfold near, mean_opt in Hnear. rewrite Hmin, Hmax.
    destruct (avg_gpa o) as [[| | |]|]; try contradiction. repeat split.
  - destruct Hmin as (lo & -> & (x & Hx & Hlox) & Hlo).
    destruct Hmax as (hi & -> & (y & Hy & Hhiy) & Hhi).
    unfold near, mean_opt in Hnear.
    destruct (avg_gpa o) as [[a| | |]|]; try contradiction.
    destruct Hnear as [Hn1 Hn2].
    assert (Hne : q :: qs <> []) by discriminate.
    destruct (Rounding.mean_within lo hi (q :: qs) Hne) as [Hm1 Hm2].
    { intros z Hz. split; [now apply Hlo | now apply Hhi]. }
    destruct (Hval x Hx) as [Hx0 Hx4]. destruct (Hval y Hy) as [Hy0 Hy4].
    pose proof (Hlo y Hy) as Hloy.
    split; [exact Havg|].
    split; [apply Rounding.value_range; lra|].
    split; [apply Rounding.value_range; lra|].
    split; [lra|]. split; lra.
Qed.

Lemma class_stats_numbers_are_bounded_witness :
  gpas_in_range class_a
  /\ ordered_stats (snd (class_stats "A" class_a))
  /\ opt_in_range (max_gpa (snd (class_stats "A" class_a))).
Proof.
  assert (H : gpas_in_range class_a) by (repeat constructor).
  split; [exact H|].
  destruct (class_stats_numbers_are_bounded "A" class_a H)
    as (_ & _ & _ & H4 & H5).
  split; [exact H5 | exact H4].
Defined.

(** *** What [class_stats] depends on *)

Lemma class_stats_ext (c : string) (d d' : database) :
  filter (fun s => (s_class_name s =? c)%string) (students d')
  = filter (fun s => (s_class_name s =? c)%string) (students d) ->
  (forall s, In s (students d) -> s_class_name s = c ->
             joined_terms s d' = joined_terms s d) ->
  class_stats c d' = class_stats c d.
Proof.
  intros Hst Hjoin. unfold class_stats. rewrite Hst.
  assert (Hmap : map (stat_of d')
                   (filter (fun s => (s_class_name s =? c)%string) (students d))
                 = map (stat_of d)
                     (filter (fun s => (s_class_name s =? c)%string) (students d))).
  { apply map_ext_in. intros s Hs. apply filter_In in Hs as [Hin Hc].
    apply String.eqb_eq in Hc. unfold stat_of. now rewrite (Hjoin s Hin Hc). }
  now rewrite Hmap.
Qed.

Lemma in_class_false (r : Z) (c : string) (d : database) (s : student) :
  in_class r c d = false -> In s (students d) -> s_class_name s = c -> s_id s <> r.
Proof.
  unfold in_class. rewrite existsb_false. intros H Hin Hc Hid.
  specialize (H s Hin). rewrite Hid, Hc, Z.eqb_refl, String.eqb_refl in H.
  discriminate.
Qed.

(** X14.  The statistics of a class depend only on the students of that
    class and their terms: they are unchanged by [add_student] into
    another class, and by [add_term_grade], [delete_term] and
    [delete_student] addressed to a rowid that is not a student of the
    class. *)
Theorem class_stats_is_local_to_the_class (c : string) (d : database) :
  (forall sid nm ad cl,
      strip cl <> c ->
      class_stats c (snd (add_student sid nm ad cl d)) = class_stats c d)
  /\ (forall r,
        in_class r c d = false ->
        (forall tn g, class_stats c (snd (add_term_grade r tn g d)) = class_stats c d)
        /\ (forall tn, class_stats c (snd (delete_term r tn d)) = class_stats c d)
        /\ class_stats c (snd (delete_student r d)) = class_stats c d).
Proof.
  split.
  - intros sid nm ad cl Hne. destruct (has_student_id (strip sid) d) eqn:E.
    + now rewrite add_student_raised.
    + rewrite add_student_committed by exact E. apply class_stats_ext.
      * simpl. rewrite filter_app. simpl.
        destruct (strip cl =? c)%string eqn:E';
          [apply String.eqb_eq in E'; congruence | apply app_nil_r].
      * reflexivity.
  - intros r Hout. split; [|split].
    + intros tn g. destruct (term_refused r tn g d) eqn:E.
      * now destruct (add_term_grade_raised r tn g d E) as [msg ->].
      * rewrite add_term_grade_committed by exact E. apply class_stats_ext.
        -- reflexivity.
        -- intros s Hin Hc. unfold joined_terms. simpl. rewrite filter_app. simpl.
           pose proof (in_class_false r c d s Hout Hin Hc) as Hid.
           destruct (r =? s_id s) eqn:E';
             [apply Z.eqb_eq in E'; congruence | now rewrite app_nil_r].
    + intros tn. rewrite delete_term_snd.
      apply class_stats_ext; [reflexivity|].
      intros s Hin Hc. unfold joined_terms. simpl. rewrite filter_filter.
      f_equal. apply filter_ext. intros t. unfold is_term.
      pose proof (in_class_false r c d s Hout Hin Hc) as Hid.
      destruct (t_student_id t =? s_id s) eqn:E; [|apply andb_false_r].
      apply Z.eqb_eq in E. rewrite E.
      destruct (s_id s =? r) eqn:E'; [apply Z.eqb_eq in E'; congruence | reflexivity].
    + apply class_stats_ext.
      * rewrite delete_student_students, filter_filter. apply filter_ext_in.
        intros s Hin. destruct (s_class_name s =? c)%string eqn:Hc;
          [|apply andb_false_r].
        apply String.eqb_eq in Hc.
        pose proof (in_class_false r c d s Hout Hin Hc) as Hid.
        apply Z.eqb_neq in Hid. now rewrite Hid.
      * intros s Hin Hc. unfold joined_terms.
        rewrite delete_student_terms, filter_filter. f_equal. apply filter_ext.
        intros t. pose proof (in_class_false r c d s Hout Hin Hc) as Hid.
        destruct (t_student_id t =? s_id s) eqn:E; [|apply andb_false_r].
        apply Z.eqb_eq in E. rewrite E.
        destruct (r =? s_id s) eqn:E'; [apply Z.eqb_eq in E'; congruence|].
        now rewrite andb_false_r.
Qed.

Lemma class_stats_is_local_to_the_class_witness :
  strip " B " <> "A" /\ in_class 9 "A" class_a = false
  /\ class_stats "A" (snd (add_student "S8" "Zed" "" " B " class_a))
     = class_stats "A" class_a
  /\ class_stats "A" (snd (delete_student 9 class_a)) = class_stats "A" class_a.
Proof.
  split; [discriminate|]. split; [reflexivity|].
  destruct (class_stats_is_local_to_the_class "A" class_a) as [H1 H2].
  split; [apply H1; discriminate | now apply H2].
Defined.

End StoreExtras.

(** ** Further properties of the front-end *)

Module AppExtras.
Import Text TextFacts FloatFacts StoreFacts AppFacts OrderFacts StoreExtras.

Lemma app_eta (a : app) :
  {| db := db a;
     selected_class := selected_class a;
     selected_student_row_id := selected_student_row_id a;
     term_name_var := term_name_var a;
     term_gpa_var := term_gpa_var a |} = a.
Proof. now destruct a. Qed.

Lemma window_eta (w : window) :
  {| state := state w; search_text := search_text w |} = w.
Proof. now destruct w. Qed.

Lemma store_calls_refreshes (r : Z) (d : database) (a : app) :
  store_calls (_refresh_terms r d ++ _plot_student r d ++ _refresh_class_stats a)
  = [].
Proof.
  unfold store_calls, _refresh_terms, _plot_student, plot_terms,
    _refresh_class_stats.
  destruct (list_terms_for_student r d); simpl;
    now destruct (strip (selected_class a) =? "")%string.
Qed.

Lemma store_calls_committed (r : Z) (tn : string) (g : pyfloat) (d : database)
  (a : app) :
  store_calls ([db_add_term_grade r tn g] ++ _refresh_terms r d
               ++ _plot_student r d ++ _refresh_class_stats a)
  = [db_add_term_grade r tn g].
Proof.
  change (store_calls ([db_add_term_grade r tn g] ++ _refresh_terms r d
                       ++ _plot_student r d ++ _refresh_class_stats a))
    with (db_add_term_grade r tn g
          :: store_calls (_refresh_terms r d ++ _plot_student r d
                          ++ _refresh_class_stats a)).
  now rewrite store_calls_refreshes.
Qed.

(** X15.  The Add Term handler calls the store at most once and never
    touches the students, the selected class or the selected student.
    Either it leaves the database as it was, or the selected student
    exists, the GPA text reads as a number within 0.0 and 4.0, the
    stripped term name was not yet one of the student's, the student's
    term list has gained exactly that term at its end, and both entries
    are cleared.  When it makes no store call the application state is
    unchanged. *)
Theorem add_term_adds_at_most_one_valid_term (a : app) :
  let a' := fst (_add_term a) in
  let es := snd (_add_term a) in
  selected_class a' = selected_class a
  /\ selected_student_row_id a' = selected_student_row_id a
  /\ students (db a') = students (db a)
  /\ (List.length (store_calls es) <= 1)%nat
  /\ (store_calls es = [] -> a' = a)
  /\ (db a' = db a
      \/ exists r g,
          selected_student_row_id a = Some r
          /\ float_of_string (strip (term_gpa_var a)) = Some g
          /\ in_rangeb g = true
          /\ has_student r (db a) = true
          /\ has_term r (strip (term_name_var a)) (db a) = false
          /\ list_terms_for_student r (db a')
             = list_terms_for_student r (db a) ++ [(strip (term_name_var a), g)]
          /\ term_name_var a' = "" /\ term_gpa_var a' = "").
Proof.
  intros a' es. subst a' es. unfold _add_term.
  destruct (selected_student_row_id a) as [r|] eqn:Hsel;
    [|simpl; repeat split; auto].
  destruct ((strip (term_name_var a) =? "")%string
            || (strip (term_gpa_var a) =? "")%string);
    [simpl; repeat split; auto|].
  destruct (float_of_string (strip (term_gpa_var a))) as [g|] eqn:Hparse;
    [|simpl; repeat split; auto].
  destruct (ltb g (Fin 0) || gtb g (Fin 4)) eqn:Hrange;
    [simpl; repeat split; auto|].
  set (tn := strip (term_name_var a)).
  destruct (term_refused r tn g (db a)) eqn:E.
  - destruct (add_term_grade_raised r tn g (db a) E) as [msg ->]. simpl.
    repeat split; auto. discriminate.
  - pose proof (list_terms_after_add r tn g (db a) r E) as Hlist.
    rewrite Z.eqb_refl in Hlist.
    rewrite (add_term_grade_committed r tn g (db a) E) in Hlist.
    rewrite (add_term_grade_committed r tn g (db a) E).
    assert (Hin : in_rangeb g = true).
    { rewrite range_test_spec in Hrange. unfold term_refused in E.
      destruct (is_nan g); [discriminate|]. now apply negb_false_iff in Hrange. }
    unfold term_refused in E.
    apply orb_false_iff in E as [E E3]. apply orb_false_iff in E as [E1 E2].
    apply negb_false_iff in E3.
    unfold tn in E2, Hlist. rewrite strip_idempotent in E2, Hlist.
    cbn [fst snd db selected_class selected_student_row_id term_name_var
         term_gpa_var students].
    split; [reflexivity|]. split; [reflexivity|]. split; [reflexivity|].
    rewrite store_calls_committed. split; [simpl; lia|].
    split; [discriminate|]. right. exists r, g.
    repeat split; auto.
Qed.

Lemma add_term_adds_at_most_one_valid_term_witness :
  list_terms_for_student 1 (db (fst (_add_term (add_term_form " Spring " "3.5"))))
  = [("T1", Fin 3); ("Spring", Fin (7 # 2))]
  /\ (List.length (store_calls (snd (_add_term (add_term_form " Spring " "3.5"))))
      <= 1)%nat.
Proof.
  split; [reflexivity|].
  pose proof (add_term_adds_at_most_one_valid_term (add_term_form " Spring " "3.5"))
    as H.
  cbv zeta in H. now destruct H as (_ & _ & _ & H4 & _).
Defined.

(** *** What the refreshes show and do *)

Lemma mutations_effects (es : list effect) :
  store_calls es = [] -> mutations (map effect_of es) = [].
Proof.
  unfold mutations, store_calls.
  induction es as [|e es IH]; simpl; [reflexivity|].
  destruct e; simpl; try exact IH. discriminate.
Qed.

Lemma store_calls_stats (a : app) : store_calls (_refresh_class_stats a) = [].
Proof.
  unfold _refresh_class_stats.
  now destruct (strip (selected_class a) =? "")%string.
Qed.

Lemma store_calls_plot (r : Z) (d : database) : store_calls (_plot_student r d) = [].
Proof.
  unfold _plot_student, plot_terms. now destruct (list_terms_for_student r d).
Qed.

Lemma mutations_app (xs ys : list event) :
  mutations (xs ++ ys) = mutations xs ++ mutations ys.
Proof. apply filter_app. Qed.

Lemma shown_students_effects (es : list effect) :
  shown_students (map effect_of es) = [].
Proof. induction es as [|e es IH]; [reflexivity | exact IH]. Qed.

Lemma shown_students_app (xs ys : list event) :
  shown_students (xs ++ ys) = shown_students xs ++ shown_students ys.
Proof. apply flat_map_app. Qed.

Lemma raises_effects (es : list effect) :
  raises (map effect_of es)
  = existsb (fun e => match e with uncaught _ => true | _ => false end) es.
Proof.
  unfold raises. induction es as [|e es IH]; [reflexivity|].
  simpl. now rewrite IH.
Qed.

Lemma raises_app (xs ys : list event) :
  raises (xs ++ ys) = raises xs || raises ys.
Proof. apply existsb_app. Qed.

Lemma raises_stats (a : app) :
  raises (map effect_of (_refresh_class_stats a)) = false.
Proof.
  rewrite raises_effects. unfold _refresh_class_stats.
  now destruct (strip (selected_class a) =? "")%string.
Qed.

Lemma search_In_students (c q : string) (d : database) (found : list student)
  (s : student) :
  search_students_by_class_like c q d = Rows found ->
  In s found -> In s (students d) /\ s_class_name s = c.
Proof.
  rewrite search_cases.
  destruct ((49998 <? utf8_length (strip q)) && _); [discriminate|].
  intros [= <-] Hs. apply filter_In in Hs as [Hs _]. now apply listing_In.
Qed.

Lemma search_of_stripped (c q : string) (d : database) :
  search_students_by_class_like c (strip q) d = search_students_by_class_like c q d.
Proof. unfold search_students_by_class_like. now rewrite strip_idempotent. Qed.

Lemma search_of_blank (c q : string) (d : database) :
  strip q = "" ->
  search_students_by_class_like c q d = Rows (list_students_by_class c d).
Proof.
  intros Hq. unfold search_students_by_class_like, list_students_by_class.
  rewrite Hq. change ("%" ++ "" ++ "%")%string with "%%".
  change (like_pattern_limit <? utf8_length "%%") with false.
  cbn [andb]. do 2 f_equal. apply filter_ext. intros s.
  rewrite like_percent_percent. apply andb_true_r.
Qed.

(** The two ways [_refresh_students] ends for a class. *)
Lemma refresh_students_cases (w : window) :
  strip (selected_class (state w)) <> "" ->
  match search_students_by_class_like (strip (selected_class (state w)))
          (search_text w) (db (state w)) with
  | Rows found =>
      _refresh_students w
      = student_tree_of found :: map effect_of (_refresh_class_stats (state w))
  | QueryRaised e =>
      _refresh_students w = [student_tree_rows []; effect_of (uncaught e)]
  end.
Proof.
  intros Hc. apply String.eqb_neq in Hc. unfold _refresh_students.
  rewrite Hc. cbv zeta.
  assert (Hfound : (if negb (strip (search_text w) =? "")%string
                    then search_students_by_class_like
                           (strip (selected_class (state w)))
                           (strip (search_text w)) (db (state w))
                    else Rows (list_students_by_class
                                 (strip (selected_class (state w)))
                                 (db (state w))))
                   = search_students_by_class_like
                       (strip (selected_class (state w)))
                       (search_text w) (db (state w))).
  { destruct (strip (search_text w) =? "")%string eqn:Eq; simpl.
    - apply String.eqb_eq in Eq. symmetry. now apply search_of_blank.
    - apply search_of_stripped. }
  rewrite Hfound.
  destruct (search_students_by_class_like (strip (selected_class (state w)))
              (search_text w) (db (state w))); reflexivity.
Qed.

Lemma shown_students_found (found : list student) (a : app) :
  shown_students (student_tree_of found
                  :: map effect_of (_refresh_class_stats a))
  = [map tree_row found].
Proof.
  change (shown_students (student_tree_of found
                          :: map effect_of (_refresh_class_stats a)))
    with (map tree_row found
          :: shown_students (map effect_of (_refresh_class_stats a))).
  now rewrite shown_students_effects.
Qed.

Lemma mutations_refresh_students (w : window) : mutations (_refresh_students w) = [].
Proof.
  destruct (string_dec (strip (selected_class (state w))) "") as [Hc | Hc].
  - unfold _refresh_students. now rewrite Hc.
  - pose proof (refresh_students_cases w Hc) as H.
    destruct (search_students_by_class_like _ _ _); rewrite H; [|reflexivity].
    change (mutations (map effect_of (_refresh_class_stats (state w))) = []).
    apply mutations_effects, store_calls_stats.
Qed.

Lemma mutations_clear_details (w : window) :
  mutations (snd (_clear_student_details w)) = [].
Proof. reflexivity. Qed.

Lemma refresh_students_rows (w : window) :
  let c := strip (selected_class (state w)) in
  let d := db (state w) in
  (c = "" -> _refresh_students w = [])
  /\ (c <> "" ->
      match search_students_by_class_like c (search_text w) d with
      | Rows found =>
          shown_students (_refresh_students w) = [map tree_row found]
          /\ raises (_refresh_students w) = false
      | QueryRaised e =>
          _refresh_students w = [student_tree_rows []; effect_of (uncaught e)]
      end)
  /\ (c <> "" ->
      utf8_length (strip (search_text w)) <= 49998
      \/ list_students_by_class c d = [] ->
      shown_students (_refresh_students w)
      = [map tree_row (filter (like_test (search_text w))
                              (list_students_by_class c d))]
      /\ raises (_refresh_students w) = false)
  /\ (forall rows row, In rows (shown_students (_refresh_students w)) ->
                       In row rows ->
                       exists s, In s (students d)
                                 /\ s_class_name s = c /\ row = tree_row s).
Proof.
  intros c d. subst c d.
  assert (Hmain : strip (selected_class (state w)) <> "" ->
                  match search_students_by_class_like
                          (strip (selected_class (state w)))
                          (search_text w) (db (state w)) with
                  | Rows found =>
                      shown_students (_refresh_students w) = [map tree_row found]
                      /\ raises (_refresh_students w) = false
                  | QueryRaised e =>
                      _refresh_students w
                      = [student_tree_rows []; effect_of (uncaught e)]
                  end).
  { intros Hc. pose proof (refresh_students_cases w Hc) as H.
    destruct (search_students_by_class_like _ _ _); [|exact H].
    rewrite H. split; [apply shown_students_found|].
    apply (raises_stats (state w)). }
  split; [|split; [exact Hmain | split]].
  - intros Hc. unfold _refresh_students. now rewrite Hc.
  - intros Hc Hq. specialize (Hmain Hc).
    pose proof (search_returns (strip (selected_class (state w)))
                  (search_text w) (db (state w)) Hq) as Hs.
    now rewrite Hs in Hmain.
  - intros rows row Hrows Hrow.
    destruct (string_dec (strip (selected_class (state w))) "") as [Hc | Hc].
    { unfold _refresh_students in Hrows. rewrite Hc in Hrows. destruct Hrows. }
    specialize (Hmain Hc).
    destruct (search_students_by_class_like _ _ _) as [found|e] eqn:E.
    + destruct Hmain as [Hshown _]. rewrite Hshown in Hrows.
      destruct Hrows as [<- | []].
      apply in_map_iff in Hrow as (s & <- & Hs).
      destruct (search_In_students _ _ _ _ s E Hs) as [Hin Hcl]. now exists s.
    + rewrite Hmain in Hrows. destruct Hrows as [<- | []]. destruct Hrow.
Qed.

Lemma refresh_students_blank (w : window) :
  strip (selected_class (state w)) <> "" -> strip (search_text w) = "" ->
  shown_students (_refresh_students w)
  = [map tree_row (list_students_by_class (strip (selected_class (state w)))
                                          (db (state w)))]
    /\ raises (_refresh_students w) = false.
Proof.
  intros Hc Hq. destruct (refresh_students_rows w) as (_ & H & _).
  specialize (H Hc). cbv zeta in H.
  now rewrite (search_of_blank _ _ _ Hq) in H.
Qed.

(** X16.  What [_refresh_students] puts in the student list.  Without a
    class it does nothing.  For a class it empties the list and runs
    [search_students_by_class_like] for the stripped class and the text
    of the box, so its two branches agree: when the query returns, the
    list shows its rows and no exception leaves the handler; when the
    query raises, the list stays empty and the exception leaves the
    handler.  A text of at most 49998 bytes after stripping, or a class
    without students, shows the class listing restricted by the [LIKE]
    test.  Every row shown is a stored student of that class. *)
Theorem student_list_shows_the_search (w : window) :
  let c := strip (selected_class (state w)) in
  let d := db (state w) in
  (c = "" -> _refresh_students w = [])
  /\ (c <> "" ->
      match search_students_by_class_like c (search_text w) d with
      | Rows found =>
          shown_students (_refresh_students w) = [map tree_row found]
          /\ raises (_refresh_students w) = false
      | QueryRaised e =>
          _refresh_students w = [student_tree_rows []; effect_of (uncaught e)]
      end)
  /\ (c <> "" ->
      utf8_length (strip (search_text w)) <= 49998
      \/ list_students_by_class c d = [] ->
      shown_students (_refresh_students w)
      = [map tree_row (filter (like_test (search_text w))
                              (list_students_by_class c d))]
      /\ raises (_refresh_students w) = false)
  /\ (forall rows row, In rows (shown_students (_refresh_students w)) ->
                       In row rows ->
                       exists s, In s (students d)
                                 /\ s_class_name s = c /\ row = tree_row s).
Proof. exact (refresh_students_rows w). Qed.

Lemma student_list_shows_the_search_witness :
  strip (selected_class (state window_a)) <> ""
  /\ utf8_length (strip (search_text window_a)) <= 49998
  /\ shown_students (_refresh_students window_a)
     = [[(1, "S1", "Alice"); (2, "S2", "Bob"); (3, "S3", "Carol")]].
Proof.
  assert (Hc : strip (selected_class (state window_a)) <> "") by discriminate.
  assert (Hq : utf8_length (strip (search_text window_a)) <= 49998)
    by (vm_compute; discriminate).
  split; [exact Hc|]. split; [exact Hq|].
  destruct (student_list_shows_the_search window_a) as (_ & _ & H & _).
  destruct (H Hc (or_introl Hq)) as [Hshown _]. rewrite Hshown. reflexivity.
Defined.

Lemma delete_student_stored (r : Z) (d : database) :
  has_student r d = true ->
  delete_student r d = (Committed, snd (delete_student r d)).
Proof.
  intros H. rewrite (surjective_pairing (delete_student r d)) at 1.
  now rewrite delete_student_fst, H, orb_true_r.
Qed.

Lemma delete_term_outcome (r : Z) (tn : string) (d : database) :
  delete_term r tn d
  = (if fits_int64 r || has_term r tn d then Committed else Raised int_too_large,
     snd (delete_term r tn d)).
Proof.
  rewrite (surjective_pairing (delete_term r tn d)) at 1.
  now rewrite delete_term_fst.
Qed.

(** X17.  Nothing is deleted without a positive answer.  With the answer
    no, or without a selection, both delete handlers leave the window as
    it was and call no mutating method.  With the answer yes, Delete
    Student on a stored student asks first, then calls [delete_student]
    once and refills the list without that student; when the refill ends
    normally, as it does for a search text of at most 49998 bytes after
    stripping, the selected student is cleared, and when the refill
    raises the handler ends there and the selection stays.  On a rowid
    that is no longer stored it does nothing at all.  Delete Term asks
    first and calls [delete_term] once for the selected student; when
    the rowid is within 64 bits or the term is stored it then refills
    the term list from the store, and otherwise it reports the error of
    the call. *)
Theorem deletions_need_confirmation (w : window) :
  (forall sel,
      fst (_delete_selected_student sel false w) = w
      /\ mutations (snd (_delete_selected_student sel false w)) = [])
  /\ (forall sel,
        fst (_delete_selected_term sel false w) = w
        /\ mutations (snd (_delete_selected_term sel false w)) = [])
  /\ (forall ans,
        _delete_selected_student [] ans w
        = (w, [effect_of (showinfo "Delete" "Please select a student to delete.")])
        /\ fst (_delete_selected_term [] ans w) = w
        /\ mutations (snd (_delete_selected_term [] ans w)) = [])
  /\ (forall r rest ans,
        has_student r (db (state w)) = false ->
        _delete_selected_student (r :: rest) ans w = (w, []))
  /\ (forall r rest,
        has_student r (db (state w)) = true ->
        let w' := fst (_delete_selected_student (r :: rest) true w) in
        let es := snd (_delete_selected_student (r :: rest) true w) in
        db (state w') = snd (delete_student r (db (state w)))
        /\ (exists msg tail,
               es = askyesno "Confirm Delete" msg true :: db_delete_student r :: tail
               /\ mutations tail = [])
        /\ (forall rows, In rows (shown_students es) ->
                         ~ In r (map (fun row => fst (fst row)) rows))
        /\ (raises es = false -> selected_student_row_id (state w') = None)
        /\ (raises es = true ->
            selected_student_row_id (state w') = selected_student_row_id (state w))
        /\ (utf8_length (strip (search_text w)) <= 49998 ->
            raises es = false /\ selected_student_row_id (state w') = None))
  /\ (forall r tn rest,
        selected_student_row_id (state w) = Some r ->
        let w' := fst (_delete_selected_term (tn :: rest) true w) in
        let es := snd (_delete_selected_term (tn :: rest) true w) in
        db (state w') = snd (delete_term r tn (db (state w)))
        /\ selected_student_row_id (state w') = Some r
        /\ exists tail,
            es = askyesno "Confirm" ("Delete term '" ++ tn ++ "'?")%string true
                 :: db_delete_term r tn :: tail
            /\ mutations tail = []
            /\ (fits_int64 r || has_term r tn (db (state w)) = true ->
                In (effect_of (term_tree_rows
                                 (list_terms_for_student r (db (state w'))))) tail)
            /\ (fits_int64 r || has_term r tn (db (state w)) = false ->
                tail = [effect_of
                          (showerror "Error"
                             ("Failed to delete term:" ++ newline
                              ++ error_text int_too_large)%string)])).
Proof.
  split; [|split; [|split; [|split; [|split]]]].
  - intros sel. unfold _delete_selected_student.
    destruct sel as [|r rest]; [now split|].
    destruct (get_student r (db (state w))); now split.
  - intros sel. unfold _delete_selected_term.
    destruct (selected_student_row_id (state w)); [|now split].
    destruct sel; now split.
  - intros ans. split; [reflexivity|]. unfold _delete_selected_term.
    destruct (selected_student_row_id (state w)); now split.
  - intros r rest ans Hno. unfold _delete_selected_student.
    destruct (get_student r (db (state w))) as [s|] eqn:E; [|reflexivity].
    assert (H : has_student r (db (state w)) = true)
      by (apply get_student_has; now exists s).
    congruence.
  - intros r rest Hhas w' es. subst w' es. unfold _delete_selected_student.
    rewrite (delete_student_stored r _ Hhas).
    apply get_student_has in Hhas as [s Hs]. rewrite Hs. cbn [negb].
    set (d' := snd (delete_student r (db (state w)))).
    set (w1 := with_state (set_db d' (state w)) w).
    set (ask := askyesno _ _ true).
    assert (Hrows : forall rows, In rows (shown_students (_refresh_students w1)) ->
                                 ~ In r (map (fun row => fst (fst row)) rows)).
    { intros rows Hrows Hin.
      destruct (refresh_students_rows w1) as (_ & _ & _ & Hall).
      apply in_map_iff in Hin as (row & Hid & Hrow).
      destruct (Hall rows row Hrows Hrow) as (s' & Hs' & _ & ->).
      simpl in Hid. change (db (state w1)) with d' in Hs'. unfold d' in Hs'.
      rewrite delete_student_students in Hs'.
      apply filter_In in Hs' as [_ Hne].
      apply negb_true_iff, Z.eqb_neq in Hne. congruence. }
    assert (Hbound : utf8_length (strip (search_text w)) <= 49998 ->
                     raises (_refresh_students w1) = false).
    { intros Hq.
      destruct (string_dec (strip (selected_class (state w1))) "") as [Hc | Hc].
      - destruct (refresh_students_rows w1) as (Hblank & _). now rewrite (Hblank Hc).
      - destruct (refresh_students_rows w1) as (_ & _ & Hsome & _).
        now destruct (Hsome Hc (or_introl Hq)). }
    destruct (raises (_refresh_students w1)) eqn:Er.
    + cbn [fst snd]. split; [reflexivity|]. split.
      { exists (("Delete student '" ++ s_name s ++ "' (ID: " ++ s_student_id s
                 ++ ")?" ++ newline
                 ++ "This also deletes all term grades.")%string),
               (_refresh_students w1).
        split; [reflexivity | apply mutations_refresh_students]. }
      split; [exact Hrows|].
      assert (Hr : raises ([ask; db_delete_student r] ++ _refresh_students w1)
                   = true) by (rewrite raises_app, Er; reflexivity).
      rewrite Hr. split; [discriminate|]. split; [reflexivity|].
      intros Hq. specialize (Hbound Hq). discriminate.
    + cbn [_clear_student_details fst snd]. split; [reflexivity|]. split.
      { eexists. eexists. split; [reflexivity|].
        rewrite mutations_app, mutations_refresh_students. reflexivity. }
      split.
      { intros rows Hin. apply Hrows.
        rewrite !shown_students_app in Hin.
        apply in_app_iff in Hin as [H | H]; [destruct H|].
        apply in_app_iff in H as [H | H]; [exact H | destruct H]. }
      assert (Hr : raises ([ask; db_delete_student r] ++ _refresh_students w1
                           ++ snd (_clear_student_details w1)) = false).
      { rewrite !raises_app, Er. reflexivity. }
      change ([profile_labels "-" "-" "-" "-"; effect_of (term_tree_rows [])]
              ++ map effect_of _plot_empty)
        with (snd (_clear_student_details w1)).
      rewrite Hr. split; [reflexivity|]. split; [discriminate|].
      intros _. now split.
  - intros r tn rest Hsel w' es. subst w' es. unfold _delete_selected_term.
    rewrite Hsel. cbn [negb]. rewrite delete_term_outcome.
    destruct (fits_int64 r || has_term r tn (db (state w))) eqn:E; cbn [fst snd].
    + split; [reflexivity|]. split; [exact Hsel|].
      eexists. split; [reflexivity|]. split; [|split; [|discriminate]].
      * rewrite !mutations_app.
        rewrite (mutations_effects (_refresh_terms _ _)) by reflexivity.
        rewrite (mutations_effects (_plot_student _ _)) by apply store_calls_plot.
        rewrite (mutations_effects (_refresh_class_stats _))
          by apply store_calls_stats.
        reflexivity.
      * intros _. apply in_app_iff. left. now left.
    + split; [reflexivity|]. split; [exact Hsel|].
      eexists. split; [reflexivity|]. split; [reflexivity|].
      split; [discriminate | reflexivity].
Qed.

Lemma deletions_need_confirmation_witness :
  has_student 2 (db (state window_a)) = true
  /\ utf8_length (strip (search_text window_a)) <= 49998
  /\ get_student 2 (db (state (fst (_delete_selected_student [2] true window_a))))
     = None
  /\ selected_student_row_id
       (state (fst (_delete_selected_student [2] true window_a))) = None.
Proof.
  assert (Hq : utf8_length (strip (search_text window_a)) <= 49998)
    by (vm_compute; discriminate).
  split; [reflexivity|]. split; [exact Hq|]. split; [reflexivity|].
  destruct (deletions_need_confirmation window_a) as (_ & _ & _ & _ & H & _).
  specialize (H 2 [] eq_refl). cbv zeta in H.
  destruct H as (_ & _ & _ & _ & _ & H6). now destruct (H6 Hq).
Defined.

(** *** The Add Student dialogue *)

Lemma shown_classes_app (xs ys : list event) :
  shown_classes (xs ++ ys) = shown_classes xs ++ shown_classes ys.
Proof. apply flat_map_app. Qed.

Lemma shown_classes_effects (es : list effect) :
  shown_classes (map effect_of es) = [].
Proof. induction es as [|e es IH]; [reflexivity | exact IH]. Qed.

Lemma shown_classes_refresh_students (w : window) :
  shown_classes (_refresh_students w) = [].
Proof.
  destruct (string_dec (strip (selected_class (state w))) "") as [Hc | Hc].
  - unfold _refresh_students. now rewrite Hc.
  - pose proof (refresh_students_cases w Hc) as H.
    destruct (search_students_by_class_like _ _ _); rewrite H; [|reflexivity].
    apply (shown_classes_effects (_refresh_class_stats (state w))).
Qed.

Lemma stripped_new_student (sid nm ad cl : string) (d : database) :
  new_student (strip sid) (strip nm) (strip ad) (strip cl) d
  = new_student sid nm ad cl d.
Proof. unfold new_student. now rewrite !strip_idempotent. Qed.

(** X18.  The Add button of the Add Student dialogue has three outcomes.
    With a blank Student ID, Name or Class (after stripping) it shows the
    validation error and changes nothing.  With an external id that is
    stored it calls the store, reports the duplicate, keeps the database
    and the selected class, and leaves the dialogue open.  Otherwise it
    makes the one store call, closes the dialogue, selects the new
    student's class and shows the classes of the new database, among
    them that class; the new rowid reads back the four stripped
    entries; and with an empty search box the student list shows the new
    student. *)
Theorem add_student_dialogue_outcomes (f : student_form) (w : window) :
  let sid := strip (sid_var f) in
  let nm := strip (name_var f) in
  let ad := strip (addr_var f) in
  let cl := strip (class_var f) in
  let d := db (state w) in
  let w' := fst (on_add f w) in
  let es := snd (on_add f w) in
  (sid = "" \/ nm = "" \/ cl = "" ->
   on_add f w
   = (w, [effect_of (showerror "Validation"
                       "Student ID, Name, and Class are required.")]))
  /\ (sid <> "" -> nm <> "" -> cl <> "" -> has_student_id sid d = true ->
      db (state w') = d
      /\ selected_class (state w') = selected_class (state w)
      /\ es = [db_add_student sid nm ad cl;
               effect_of (showerror "Duplicate"
                 "Student ID already exists. Please use a unique Student ID.")])
  /\ (sid <> "" -> nm <> "" -> cl <> "" -> has_student_id sid d = false ->
      exists row_id,
        get_student row_id d = None
        /\ get_student row_id (db (state w'))
           = Some {| s_id := row_id; s_student_id := sid; s_name := nm;
                     s_address := ad; s_class_name := cl |}
        /\ selected_class (state w') = cl
        /\ In dialog_destroy es
        /\ mutations es = [db_add_student sid nm ad cl]
        /\ shown_classes es = [list_classes (db (state w'))]
        /\ In cl (list_classes (db (state w')))
        /\ (strip (search_text w) = "" ->
            exists rows, shown_students es = [rows] /\ In (row_id, sid, nm) rows)).
Proof.
  intros sid nm ad cl d w' es. subst w' es. unfold on_add.
  fold sid nm ad cl d.
  split; [|split].
  - intros H.
    assert (E : (sid =? "")%string || (nm =? "")%string || (cl =? "")%string = true).
    { destruct H as [-> | [-> | ->]]; simpl;
        rewrite ?orb_true_r; reflexivity. }
    now rewrite E.
  - intros H1 H2 H3 Hdup. apply String.eqb_neq in H1, H2, H3.
    rewrite H1, H2, H3. cbn [orb].
    rewrite add_student_raised by (unfold sid; now rewrite strip_idempotent).
    repeat split.
  - intros H1 H2 H3 Hnew.
    assert (Hnew' : has_student_id (strip sid) d = false)
      by (unfold sid; now rewrite strip_idempotent).
    pose proof (get_student_new sid nm ad cl d Hnew') as Hget.
    cbv zeta in Hget. destruct Hget as [Hnone Hsome].
    assert (Hrow : new_student sid nm ad cl d
                   = {| s_id := s_id (new_student sid nm ad cl d);
                        s_student_id := sid; s_name := nm;
                        s_address := ad; s_class_name := cl |}).
    { unfold new_student, sid, nm, ad, cl. simpl. now rewrite !strip_idempotent. }
    rewrite Hrow in Hsome at 2.
    apply String.eqb_neq in H1, H2. pose proof H3 as H3'.
    apply String.eqb_neq in H3. rewrite H1, H2, H3. cbn [orb].
    rewrite (add_student_committed sid nm ad cl d Hnew') in *.
    set (d' := {| students := students d ++ [new_student sid nm ad cl d];
                  students_seq := s_id (new_student sid nm ad cl d);
                  terms := terms d; terms_seq := terms_seq d |}) in *.
    set (w1 := with_state (set_db d' (state w)) w).
    set (w2 := with_state (set_selected_class cl (state w1)) w1).
    cbn [fst snd].
    exists (s_id (new_student sid nm ad cl d)).
    assert (Hin : In cl (list_classes d')).
    { unfold list_classes. apply order_by_In, nodup_In. unfold d'. simpl.
      rewrite map_app. apply in_app_iff. right. left.
      simpl. unfold cl. apply strip_idempotent. }
    split; [exact Hnone|]. split; [exact Hsome|]. split; [reflexivity|].
    split; [right; now left|]. split.
    { change (mutations ([db_add_student sid nm ad cl; dialog_destroy]
                         ++ _refresh_classes w1 ++ _refresh_students w2))
        with (db_add_student sid nm ad cl :: mutations (_refresh_students w2)).
      now rewrite mutations_refresh_students. }
    split.
    { change (shown_classes ([db_add_student sid nm ad cl; dialog_destroy]
                             ++ _refresh_classes w1 ++ _refresh_students w2))
        with (list_classes d' :: shown_classes (_refresh_students w2)).
      now rewrite shown_classes_refresh_students. }
    split; [exact Hin|].
    intros Hblank.
    assert (Hc : strip (selected_class (state w2)) = cl)
      by (simpl; unfold cl; apply strip_idempotent).
    destruct (refresh_students_blank w2) as [Hrows _];
      [now rewrite Hc | exact Hblank |].
    rewrite Hc in Hrows.
    eexists. split.
    { change (shown_students ([db_add_student sid nm ad cl; dialog_destroy]
                              ++ _refresh_classes w1 ++ _refresh_students w2))
        with (shown_students (_refresh_students w2)).
      exact Hrows. }
    change (db (state w2)) with d'.
    change (s_id (new_student sid nm ad cl d), sid, nm)
      with (tree_row {| s_id := s_id (new_student sid nm ad cl d);
                        s_student_id := sid; s_name := nm;
                        s_address := ad; s_class_name := cl |}).
    apply in_map. apply listing_In. split; [|reflexivity].
    rewrite <- Hrow. unfold d'. simpl. apply in_app_iff. right. now left.
Qed.

Lemma add_student_dialogue_outcomes_witness :
  strip (sid_var dan_form) <> "" /\ strip (name_var dan_form) <> ""
  /\ strip (class_var dan_form) <> ""
  /\ has_student_id (strip (sid_var dan_form)) (db (state window_a)) = false
  /\ selected_class (state (fst (on_add dan_form window_a))) = "B"
  /\ In "B" (list_classes (db (state (fst (on_add dan_form window_a))))).
Proof.
  repeat (split; [first [discriminate | reflexivity]|]).
  destruct (add_student_dialogue_outcomes dan_form window_a) as (_ & _ & H).
  cbv zeta in H.
  destruct H as (row_id & _ & _ & _ & _ & _ & _ & H7 & _);
    [discriminate | discriminate | discriminate | reflexivity | exact H7].
Defined.

(** *** What the front-end lets into the store *)

Lemma nonempty_spec (x : string) : nonempty x = true <-> x <> "".
Proof. unfold nonempty. now rewrite negb_true_iff, String.eqb_neq. Qed.

Lemma entry_ok_init : entry_ok init_schema.
Proof. constructor; try (intros x []). constructor. Qed.

Lemma entry_ok_add_student sid nm ad cl d :
  entry_ok d -> strip sid <> "" -> strip nm <> "" -> strip cl <> "" ->
  entry_ok (snd (add_student sid nm ad cl d)).
Proof.
  intros [H1 H2 H3 H4 H5] Hs Hn Hc.
  destruct (has_student_id (strip sid) d) eqn:E.
  - rewrite add_student_raised by exact E. now constructor.
  - rewrite add_student_committed by exact E.
    constructor; simpl; auto; intros s Hin;
      apply in_app_iff in Hin as [Hin | [<- | []]]; auto;
      now apply nonempty_spec.
Qed.

Lemma entry_ok_add_term_grade r tn g d :
  entry_ok d -> strip tn <> "" -> in_rangeb g = true ->
  entry_ok (snd (add_term_grade r tn g d)).
Proof.
  intros [H1 H2 H3 H4 H5] Hn Hg.
  destruct (term_refused r tn g d) eqn:E.
  - destruct (add_term_grade_raised r tn g d E) as [msg ->]. now constructor.
  - rewrite add_term_grade_committed by exact E.
    constructor; simpl; auto.
    + intros t Hin. apply in_app_iff in Hin as [Hin | [<- | []]]; auto.
      now apply nonempty_spec.
    + unfold gpas_in_range. simpl. apply Forall_app. split; [exact H5|].
      now repeat constructor.
Qed.

Lemma entry_ok_delete_student r d :
  entry_ok d -> entry_ok (snd (delete_student r d)).
Proof.
  intros [H1 H2 H3 H4 H5].
  constructor; try (intros s Hs; rewrite delete_student_students in Hs;
                    apply filter_In in Hs as [Hs _]; auto).
  - intros t Ht. rewrite delete_student_terms in Ht.
    apply filter_In in Ht as [Ht _]. auto.
  - unfold gpas_in_range in *. rewrite delete_student_terms.
    rewrite Forall_forall in *. intros t Ht.
    apply filter_In in Ht as [Ht _]. auto.
Qed.

Lemma entry_ok_delete_term r tn d :
  entry_ok d -> entry_ok (snd (delete_term r tn d)).
Proof.
  intros [H1 H2 H3 H4 H5]. rewrite delete_term_snd. constructor; simpl; auto.
  - intros t Ht. apply filter_In in Ht as [Ht _]. auto.
  - unfold gpas_in_range in *. simpl. rewrite Forall_forall in *.
    intros t Ht. apply filter_In in Ht as [Ht _]. auto.
Qed.

(** The database after each handler, as a step of the store. *)
Lemma on_add_db (f : student_form) (w : window) :
  db (state (fst (on_add f w))) = db (state w)
  \/ (strip (sid_var f) <> "" /\ strip (name_var f) <> ""
      /\ strip (class_var f) <> ""
      /\ db (state (fst (on_add f w)))
         = snd (add_student (strip (sid_var f)) (strip (name_var f))
                  (strip (addr_var f)) (strip (class_var f)) (db (state w)))).
Proof.
  unfold on_add.
  destruct (strip (sid_var f) =? "")%string eqn:E1; [now left|].
  destruct (strip (name_var f) =? "")%string eqn:E2; [now left|].
  destruct (strip (class_var f) =? "")%string eqn:E3; [now left|].
  apply String.eqb_neq in E1, E2, E3. right. cbn [orb].
  destruct (add_student _ _ _ _ _) as [[|e] d'] eqn:E.
  - cbn [fst snd state db with_state set_db set_selected_class].
    now repeat split.
  - destruct e; now repeat split.
Qed.

Lemma add_term_db (a : app) :
  db (fst (_add_term a)) = db a
  \/ exists r g,
      strip (term_name_var a) <> "" /\ in_rangeb g = true
      /\ db (fst (_add_term a))
         = snd (add_term_grade r (strip (term_name_var a)) g (db a)).
Proof.
  unfold _add_term.
  destruct (selected_student_row_id a) as [r|]; [|now left].
  destruct (strip (term_name_var a) =? "")%string eqn:E1; [now left|].
  destruct (strip (term_gpa_var a) =? "")%string eqn:E2; [now left|].
  cbn [orb].
  destruct (float_of_string (strip (term_gpa_var a))) as [g|]; [|now left].
  destruct (ltb g (Fin 0) || gtb g (Fin 4)) eqn:Hrange; [now left|].
  rewrite range_test_spec in Hrange.
  destruct (is_nan g) eqn:Hnan.
  - left. destruct g; try discriminate. reflexivity.
  - right. exists r, g. apply String.eqb_neq in E1.
    apply negb_false_iff in Hrange.
    destruct (add_term_grade _ _ _ _) as [[|e] d'];
      [|destruct e]; now repeat split.
Qed.

Lemma delete_selected_student_db sel ans w :
  db (state (fst (_delete_selected_student sel ans w))) = db (state w)
  \/ exists r, db (state (fst (_delete_selected_student sel ans w)))
               = snd (delete_student r (db (state w))).
Proof.
  unfold _delete_selected_student.
  destruct sel as [|r rest]; [now left|].
  destruct (get_student r (db (state w))); [|now left].
  destruct ans; [|now left]. right. exists r. cbn [negb].
  destruct (delete_student r (db (state w))) as [[|e] d']; [|reflexivity].
  cbn [fst snd _clear_student_details].
  now destruct (raises _).
Qed.

Lemma delete_selected_term_db sel ans w :
  db (state (fst (_delete_selected_term sel ans w))) = db (state w)
  \/ exists r tn, db (state (fst (_delete_selected_term sel ans w)))
                  = snd (delete_term r tn (db (state w))).
Proof.
  unfold _delete_selected_term.
  destruct (selected_student_row_id (state w)) as [r|]; [|now left].
  destruct sel as [|tn rest]; [now left|].
  destruct ans; [|now left]. right. exists r, tn. cbn [negb].
  now destruct (delete_term r tn (db (state w))) as [[|e] d'].
Qed.

Lemma startup_db (d : database) : db (state (fst (startup d))) = d.
Proof.
  unfold startup, _set_default_class. destruct (list_classes d); reflexivity.
Qed.

Lemma on_student_select_db sel w :
  db (state (fst (_on_student_select sel w))) = db (state w).
Proof. now destruct sel. Qed.

Lemma refresh_all_db (w : window) :
  db (state (fst (_refresh_all w))) = db (state w).
Proof. unfold _refresh_all. now destruct (raises _). Qed.

Lemma ui_reachable_db (w : window) :
  ui_reachable w -> reachable (db (state w)) /\ entry_ok (db (state w)).
Proof.
  induction 1 as [|w _ IH|w q _ IH|w tn g _ IH|w c _ IH|w sel _ IH|w _ IH|w _ IH
                  |w f _ IH|w sel ans _ IH|w _ IH|w sel ans _ IH];
    try exact IH.
  - rewrite startup_db. split; [constructor | apply entry_ok_init].
  - now rewrite startup_db.
  - now rewrite on_student_select_db.
  - now rewrite refresh_all_db.
  - destruct IH as [Hr He].
    destruct (on_add_db f w) as [-> | (H1 & H2 & H3 & ->)]; [now split|].
    split; [now constructor|].
    apply entry_ok_add_student; auto; now rewrite strip_idempotent.
  - destruct IH as [Hr He].
    destruct (delete_selected_student_db sel ans w) as [-> | [r ->]]; [now split|].
    split; [now constructor | now apply entry_ok_delete_student].
  - destruct IH as [Hr He]. unfold add_term_clicked. simpl.
    destruct (add_term_db (state w)) as [-> | (r & g & H1 & H2 & ->)]; [now split|].
    split; [now constructor|].
    apply entry_ok_add_term_grade; auto. now rewrite strip_idempotent.
  - destruct IH as [Hr He].
    destruct (delete_selected_term_db sel ans w) as [-> | (r & tn & ->)];
      [now split|].
    split; [now constructor | now apply entry_ok_delete_term].
Qed.

(** X19.  Started on a new database file, whatever the user types,
    selects and clicks, the front-end keeps the store within what its
    forms admit: the database is one the store's methods can produce,
    no student has an empty external id, name or class, no term has an
    empty name, and every GPA is a number within 0.0 and 4.0. *)
Theorem front_end_keeps_entries_valid (w : window) :
  ui_reachable w ->
  reachable (db (state w))
  /\ entry_ok (db (state w))
  /\ finite_gpas (db (state w))
  /\ ~ In "" (list_classes (db (state w))).
Proof.
  intros H. destruct (ui_reachable_db w H) as [Hr He].
  split; [exact Hr|]. split; [exact He|]. split.
  - apply gpas_in_range_finite, (ok_gpa _ He).
  - intros Hin. unfold list_classes in Hin.
    apply order_by_In, nodup_In, in_map_iff in Hin as (s & Hc & Hs).
    apply (ok_class _ He) in Hs. rewrite Hc in Hs. discriminate.
Qed.

Lemma front_end_keeps_entries_valid_witness :
  ui_reachable (fst (on_add dan_form (fst (startup init_schema))))
  /\ finite_gpas (db (state (fst (on_add dan_form (fst (startup init_schema)))))).
Proof.
  assert (H : ui_reachable (fst (on_add dan_form (fst (startup init_schema)))))
    by (repeat constructor).
  split; [exact H|].
  now destruct (front_end_keeps_entries_valid _ H) as (_ & _ & H3 & _).
Defined.

(** X20.  At start the selected class is the first of [list_classes],
    which is the least class name in use, and for a database that the
    front-end produced the student list shows the whole listing of that
    class; when there is no class nothing is selected and no list is
    filled. *)
Theorem startup_selects_the_least_class (d : database) :
  (list_classes d = [] ->
   selected_class (state (fst (startup d))) = ""
   /\ shown_students (snd (startup d)) = [])
  /\ (forall c rest,
        list_classes d = c :: rest ->
        selected_class (state (fst (startup d))) = c
        /\ (forall c', In c' (list_classes d) -> String.leb c c' = true)
        /\ shown_classes (snd (startup d)) = [c :: rest]
        /\ (reachable d -> entry_ok d ->
            shown_students (snd (startup d))
            = [map tree_row (list_students_by_class c d)])).
Proof.
  unfold startup.
  set (w0 := {| state := {| db := d; selected_class := "";
                            selected_student_row_id := None;
                            term_name_var := ""; term_gpa_var := "" |};
                search_text := "" |}).
  split.
  - intros ->. now split.
  - intros c rest Hcs. rewrite Hcs. unfold _set_default_class.
    set (w' := with_state (set_selected_class c (state w0)) w0).
    cbn [fst snd]. split; [reflexivity|].
    assert (Hin : In c (list_classes d)) by (rewrite Hcs; now left).
    split; [|split].
    + intros c' Hc'. destruct Hc' as [<- | Hc']; [apply string_leb_refl|].
      pose proof (classes_sorted_helper d) as Hs. rewrite Hcs in Hs.
      apply StronglySorted_inv in Hs as [_ Hall].
      rewrite Forall_forall in Hall. now apply Hall.
    + destruct (raises (_refresh_students w'));
        rewrite !shown_classes_app, ?shown_classes_effects,
          shown_classes_refresh_students;
        unfold _refresh_classes; simpl; now rewrite Hcs.
    + intros Hreach Hok.
      assert (Hstripped : strip c = c /\ c <> "").
      { unfold list_classes in Hin.
        apply order_by_In, nodup_In, in_map_iff in Hin as (s & <- & Hs).
        split; [now apply (reachable_stripped_classes d Hreach)|].
        apply nonempty_spec. now apply (ok_class _ Hok). }
      destruct Hstripped as [Hc Hne].
      destruct (refresh_students_blank w') as [Hrows Hraise];
        [change (strip c <> ""); now rewrite Hc | reflexivity |].
      change (strip (selected_class (state w'))) with (strip c) in Hrows.
      rewrite Hc in Hrows. rewrite Hraise.
      rewrite !shown_students_app, !shown_students_effects, Hrows.
      reflexivity.
Qed.

Lemma startup_selects_the_least_class_witness :
  list_classes class_a = ["A"]
  /\ selected_class (state (fst (startup class_a))) = "A"
  /\ shown_classes (snd (startup class_a)) = [["A"]].
Proof.
  split; [reflexivity|].
  destruct (startup_selects_the_least_class class_a) as [_ H].
  destruct (H "A" [] eq_refl) as (H1 & _ & H3 & _).
  split; [exact H1 | exact H3].
Defined.

(** X21.  Once the Add Term entries have passed the validation, the
    handler shows the duplicate dialogue exactly when the store refuses
    the insert: for a term name the student already has, for a selected
    rowid that is not a stored student, and for NaN.  For a stored
    student and a number, the dialogue means the student already has a
    term of that name. *)
Theorem duplicate_dialogue_means_refused (a : app) (r : Z) (g : pyfloat) :
  selected_student_row_id a = Some r ->
  strip (term_name_var a) <> "" -> strip (term_gpa_var a) <> "" ->
  float_of_string (strip (term_gpa_var a)) = Some g ->
  ltb g (Fin 0) || gtb g (Fin 4) = false ->
  let tn := strip (term_name_var a) in
  let duplicate :=
    [db_add_term_grade r tn g;
     showerror "Duplicate"
       "That term already exists for this student. Use a different term name."] in
  (snd (_add_term a) = duplicate
   <-> is_nan g || has_term r tn (db a) || negb (has_student r (db a)) = true)
  /\ (has_student r (db a) = true -> is_nan g = false ->
      (snd (_add_term a) = duplicate <-> has_term r tn (db a) = true)).
Proof.
  intros Hsel Htn Hg Hparse Hrange tn duplicate.
  assert (Hmain : snd (_add_term a) = duplicate
                  <-> term_refused r tn g (db a) = true).
  { unfold _add_term. rewrite Hsel.
    apply String.eqb_neq in Htn, Hg. rewrite Htn, Hg. cbn [orb].
    rewrite Hparse, Hrange. fold tn.
    destruct (term_refused r tn g (db a)) eqn:E.
    - destruct (add_term_grade_raised r tn g (db a) E) as [msg ->].
      split; reflexivity.
    - rewrite (add_term_grade_committed r tn g (db a) E).
      split; [|discriminate]. cbn [snd]. unfold _refresh_terms. simpl.
      discriminate. }
  assert (Hidem : term_refused r tn g (db a)
                  = is_nan g || has_term r tn (db a) || negb (has_student r (db a))).
  { unfold term_refused, tn. now rewrite strip_idempotent. }
  rewrite Hidem in Hmain. split; [exact Hmain|].
  intros Hs Hn. rewrite Hmain, Hs, Hn. simpl. now rewrite orb_false_r.
Qed.

Lemma duplicate_dialogue_means_refused_witness :
  has_term 1 "T1" class_a = true
  /\ snd (_add_term (add_term_form " T1 " "2.5"))
     = [db_add_term_grade 1 "T1" (Fin (5 # 2));
        showerror "Duplicate"
          "That term already exists for this student. Use a different term name."].
Proof.
  split; [reflexivity|].
  assert (Hparse : float_of_string (strip (term_gpa_var (add_term_form " T1 " "2.5")))
                   = Some (Fin (5 # 2))) by reflexivity.
  destruct (duplicate_dialogue_means_refused (add_term_form " T1 " "2.5") 1
              (Fin (5 # 2)) eq_refl) as [_ H];
    [discriminate | discriminate | exact Hparse | reflexivity|].
  apply H; reflexivity.
Defined.

(** *** Item ids of the two lists *)

Lemma listed_ids_unique (p : student -> bool) (d : database) :
  reachable d ->
  NoDup (map s_id (order_by name_leb (filter p (students d)))).
Proof.
  intros Hreach.
  eapply Permutation_NoDup;
    [apply Permutation_map, Permutation_sym, order_by_perm|].
  apply keys_unique_after_delete, (pk_students d).
  now apply reachable_schema_ok.
Qed.

(** X22.  In every reachable state the items the two lists are filled
    with have distinct ids: the rows of the student list carry distinct
    rowids, and the rows of a student's term list carry distinct term
    names, so no insert into either list meets an item id twice. *)
Theorem list_items_have_distinct_ids (w : window) :
  reachable (db (state w)) ->
  (forall rows, In rows (shown_students (_refresh_students w)) ->
                NoDup (map (fun row => fst (fst row)) rows))
  /\ (forall r rows, In (term_tree_rows rows) (_refresh_terms r (db (state w))) ->
                     NoDup (map fst rows)).
Proof.
  intros Hreach. split.
  - intros rows Hrows.
    destruct (refresh_students_rows w) as (Hblank & Hshown & _).
    destruct (string_dec (strip (selected_class (state w))) "") as [Hc | Hc].
    + rewrite (Hblank Hc) in Hrows. destruct Hrows.
    + specialize (Hshown Hc). cbv zeta in Hshown.
      rewrite search_cases in Hshown.
      destruct ((49998 <? utf8_length (strip (search_text w))) && _).
      * rewrite Hshown in Hrows. destruct Hrows as [<- | []]. constructor.
      * destruct Hshown as [Heq _]. rewrite Heq in Hrows.
        destruct Hrows as [<- | []]. rewrite map_map. simpl.
        rewrite <- search_rows. now apply listed_ids_unique.
  - intros r rows [Heq | []]. injection Heq as <-.
    unfold list_terms_for_student. rewrite map_map. simpl.
    eapply Permutation_NoDup;
      [apply Permutation_map, Permutation_sym, order_by_perm|].
    apply term_names_unique, (uq_term (db (state w))).
    now apply reachable_schema_ok.
Qed.

Lemma list_items_have_distinct_ids_witness :
  reachable (db (state window_fs))
  /\ NoDup (map fst (list_terms_for_student 1 (db (state window_fs)))).
Proof.
  split; [apply reachable_fall_spring|].
  destruct (list_items_have_distinct_ids window_fs reachable_fall_spring)
    as [_ H].
  apply (H 1). now left.
Defined.

(** X23.  Clicking a row of the student list shows that student: in a
    reachable state, for every row that [_refresh_students] shows,
    [_on_student_select] on the row's id records it as the selected
    student and shows the profile of a stored student with that row's
    external id and name, the address replaced by a dash exactly when it
    is empty, followed by the student's term list and chart.  An empty
    selection changes nothing. *)
Theorem clicked_row_shows_its_student (w : window) :
  reachable (db (state w)) ->
  (forall w0, _on_student_select [] w0 = (w0, []))
  /\ (forall rows row rest,
        In rows (shown_students (_refresh_students w)) -> In row rows ->
        let r := fst (fst row) in
        let w' := fst (_on_student_select (r :: rest) w) in
        let es := snd (_on_student_select (r :: rest) w) in
        selected_student_row_id (state w') = Some r
        /\ db (state w') = db (state w)
        /\ exists s,
            get_student r (db (state w)) = Some s
            /\ row = tree_row s
            /\ es = profile_labels (snd (fst row)) (snd row)
                      (if (s_address s =? "")%string then "-" else s_address s)
                      (s_class_name s)
                    :: effect_of (term_tree_rows
                                    (list_terms_for_student r (db (state w))))
                    :: map effect_of (_plot_student r (db (state w)))).
Proof.
  intros Hreach. split; [reflexivity|].
  intros rows row rest Hrows Hrow r w' es. subst r w' es.
  destruct (refresh_students_rows w) as (_ & _ & _ & Hall).
  destruct (Hall rows row Hrows Hrow) as (s & Hin & _ & ->).
  assert (Hget : get_student (s_id s) (db (state w)) = Some s).
  { unfold get_student. apply find_unique_row; [|exact Hin].
    apply (pk_students (db (state w))). now apply reachable_schema_ok. }
  unfold _on_student_select, _load_student_details. simpl.
  rewrite Hget. split; [reflexivity|]. split; [reflexivity|].
  exists s. split; [reflexivity|]. split; reflexivity.
Qed.

Lemma clicked_row_shows_its_student_witness :
  reachable (db (state window_a))
  /\ In (2, "S2", "Bob")
        [(1, "S1", "Alice"); (2, "S2", "Bob"); (3, "S3", "Carol")]
  /\ selected_student_row_id (state (fst (_on_student_select [2] window_a)))
     = Some 2.
Proof.
  split; [apply StoreProperties.reachable_class_a|].
  split; [right; now left|].
  destruct (clicked_row_shows_its_student window_a
              StoreProperties.reachable_class_a) as [_ H].
  specialize (H [(1, "S1", "Alice"); (2, "S2", "Bob"); (3, "S3", "Carol")]
                (2, "S2", "Bob") []).
  cbv zeta in H. destruct H as (H1 & _).
  - now left.
  - right. now left.
  - exact H1.
Defined.

End AppExtras.
